(** * Image upload service: a shallow embedding of the three server files

    The repository holds three versions of one Express application:
    [server.js], and two earlier revisions referred to below as [part_000]
    and [part_001].  Each is embedded in a module of its own
    ([ServerJs], [Part000], [Part001]); the libraries they call (multer,
    mongoose, express, node's [path]) are modelled once, in the modules
    that precede them, to the extent the handlers depend on them.

    Conventions.  A request is one that reaches its route: CORS, the rate
    limiter and the body parsers have let it through.  Strings are byte
    strings; the characters the code looks at (dot, slash, digits) are
    ASCII.  Time stamps and sizes are non-negative integers ([N]).  What
    a request cannot decide itself (clock readings, the random draw, the
    identifier of a new document, failures of disk and database) is an
    input of the model, gathered in [Runtime.t]. *)

From Stdlib Require Import String Ascii List Bool NArith ZArith Lia.
From Stdlib Require Import Permutation Sorted DecimalString DecimalN.
Import ListNotations.

Set Warnings "-register-all".

Local Open Scope string_scope.
Local Open Scope list_scope.

(** ** JavaScript values that reach a response body *)

Module Js.

(** Values of the object literals handed to [res.json].  [VId] is a
    document identifier (an ObjectId) and [VDate] a [Date], counted in
    milliseconds since the epoch; objects keep their keys in the order
    of the literal. *)
Inductive value : Type :=
| VUndefined
| VNull
| VBool (b : bool)
| VNum (n : N)
| VStr (s : string)
| VId (oid : string)
| VDate (ms : N)
| VArr (items : list value)
| VObj (fields : list (string * value)).

Definition is_undefined (v : value) : bool :=
  match v with VUndefined => true | _ => false end.

(** [JSON.stringify] as far as structure goes: a property whose value
    is [undefined] is left out of its object, and an [undefined] array
    element is written as [null]. *)
Fixpoint stringify (v : value) : value :=
  match v with
  | VArr items =>
      VArr (map (fun x => if is_undefined x then VNull else stringify x) items)
  | VObj fields =>
      VObj ((fix props (l : list (string * value)) : list (string * value) :=
               match l with
               | [] => []
               | (k, x) :: l' =>
                   if is_undefined x then props l'
                   else (k, stringify x) :: props l'
               end) fields)
  | _ => v
  end.

(** Property lookup, [obj.key] or [obj[key]]. *)
Fixpoint assoc (key : string) (fields : list (string * value)) : option value :=
  match fields with
  | [] => None
  | (k, v) :: rest => if String.eqb k key then Some v else assoc key rest
  end.

Definition get (key : string) (v : value) : option value :=
  match v with
  | VObj fields => assoc key fields
  | _ => None
  end.

(** [Object.keys]. *)
Definition keys (v : value) : list string :=
  match v with
  | VObj fields => map fst fields
  | _ => []
  end.

(** [String(n)] for a non-negative integer below 1e21, which is how a
    template literal renders [Date.now()] and a rounded random draw. *)
Definition number_to_string (n : N) : string :=
  NilEmpty.string_of_uint (N.to_uint n).

(** [a || b] on strings that may be [undefined]: the empty string is
    falsy as well. *)
Definition or_else (a : option string) (b : string) : string :=
  match a with
  | Some s => if String.eqb s "" then b else s
  | None => b
  end.

(** [Array.prototype.includes] on an array of strings. *)
Definition includes (arr : list string) (s : string) : bool :=
  existsb (String.eqb s) arr.

(** A possibly [undefined] string inside a template literal. *)
Definition template (a : option string) : string :=
  match a with
  | Some s => s
  | None => "undefined"
  end.

(** Error objects, told apart the way [instanceof multer.MulterError]
    tells them apart. *)
Inductive error : Type :=
| Error (message : string)
| MulterError (code : string) (message : string).

Definition message (e : error) : string :=
  match e with
  | Error m => m
  | MulterError _ m => m
  end.

Definition instanceof_MulterError (e : error) : bool :=
  match e with
  | MulterError _ _ => true
  | Error _ => false
  end.

End Js.

(** ** node's [path] module (POSIX flavour) *)

Module Path.

(** The scanning state of [path.extname]; [-1] is the "unset" mark of
    the original. *)
Record scan : Type := mkScan {
  startDot : Z;
  startPart : Z;
  end_ : Z;
  matchedSlash : bool;
  preDotState : Z;
  stopped : bool
}.

Definition scan0 : scan :=
  mkScan (-1) 0 (-1) true 0 false.

(** One turn of the loop [for (i = path.length - 1; i >= 0; --i)], at
    index [i] holding character [c]. *)
Definition extname_step (i : Z) (c : ascii) (st : scan) : scan :=
  if Ascii.eqb c "/" then
    if negb (matchedSlash st)
    then mkScan (startDot st) (i + 1) (end_ st) (matchedSlash st)
                (preDotState st) true
    else st
  else
    let st1 :=
      if Z.eqb (end_ st) (-1)
      then mkScan (startDot st) (startPart st) (i + 1) false
                  (preDotState st) false
      else st in
    if Ascii.eqb c "."
    then
      if Z.eqb (startDot st1) (-1)
      then mkScan i (startPart st1) (end_ st1) (matchedSlash st1)
                  (preDotState st1) false
      else if negb (Z.eqb (preDotState st1) 1)
           then mkScan (startDot st1) (startPart st1) (end_ st1)
                       (matchedSlash st1) 1 false
           else st1
    else
      if negb (Z.eqb (startDot st1) (-1))
      then mkScan (startDot st1) (startPart st1) (end_ st1)
                  (matchedSlash st1) (-1) false
      else st1.

(** The loop itself: [n] is [i + 1], so the indices visited are
    [n - 1], ..., [0]; a [break] sets [stopped]. *)
Fixpoint extname_loop (path : string) (n : nat) (st : scan) : scan :=
  match n with
  | O => st
  | S i =>
      match String.get i path with
      | None => st
      | Some c =>
          let st' := extname_step (Z.of_nat i) c st in
          if stopped st' then st' else extname_loop path i st'
      end
  end.

Definition extname (path : string) : string :=
  let st := extname_loop path (String.length path) scan0 in
  if Z.eqb (startDot st) (-1)
     || Z.eqb (end_ st) (-1)
     || Z.eqb (preDotState st) 0
     || (Z.eqb (preDotState st) 1
         && Z.eqb (startDot st) (end_ st - 1)
         && Z.eqb (startDot st) (startPart st + 1))
  then ""
  else String.substring (Z.to_nat (startDot st))
                        (Z.to_nat (end_ st - startDot st)) path.

(** [path.join(dir, name)] for a normalised absolute directory and a
    plain file name, the only way the servers call it: the root is the
    one such directory that ends in a slash. *)
Definition join (dir name : string) : string :=
  if String.eqb dir "/" then "/" ++ name else dir ++ "/" ++ name.

End Path.

(** ** What the outside world supplies to one request *)

Module Http.

(** One file part of a multipart body, as the parser announces it. *)
Record Part : Type := mkPart {
  fieldname : string;
  originalname : string;
  encoding : string;
  mimetype : string;
  content : list Byte.byte
}.

(** The request: [req.protocol], [req.get('host')] and the file parts
    of the body in the order they arrive. *)
Record Request : Type := mkRequest {
  protocol : string;
  host : option string;
  parts : list Part
}.

Record Response : Type := mkResponse {
  status : N;
  body : Js.value
}.

(** [res.status(code).json(obj)]; plain [res.json(obj)] answers 200. *)
Definition status_json (code : N) (obj : Js.value) : Response :=
  mkResponse code (Js.stringify obj).

Definition json (obj : Js.value) : Response :=
  status_json 200 obj.

End Http.

(** The readings of clocks and random sources and the failures of disk
    and database that one request meets.  They are inputs of the model:
    the handlers are functions of them. *)
Module Runtime.

Record t : Type := mk {
  Date_now_filename : N;        (* [Date.now()] inside [storage.filename] *)
  random_1e9 : N;               (* [Math.round(Math.random() * 1E9)] *)
  write_failure : option string;(* code and description of the error when the
                                   file cannot be opened, as in
                                   "EACCES: permission denied" *)
  ObjectId : string;            (* identifier given to a new document *)
  Date_now_default : N;         (* [Date.now] as default of [createdAt] *)
  save_failure : option string; (* message of a rejected [save()] *)
  find_failure : option string; (* message of a rejected [find()] *)
  limit_on_reaching : bool      (* whether the installed multer reports the
                                   size limit for a file of exactly
                                   [limits.fileSize] bytes (as its parser does
                                   from 1.4.5-lts on) or only beyond it; the
                                   repository pins no version *)
}.

End Runtime.

(** The environment variables and [__dirname] read at start-up. *)
Module Process.

Record env : Type := mkEnv {
  NODE_ENV : option string;
  BASE_URL : option string;
  PORT : option string;
  dirname : string
}.

End Process.

(** ** The upload directory *)

Module Fs.

Definition t : Type := list (string * list Byte.byte).

Definition unlink (path : string) (d : t) : t :=
  filter (fun e => negb (String.eqb (fst e) path)) d.

(** Writing truncates a file that is already there. *)
Definition write (path : string) (bytes : list Byte.byte) (d : t) : t :=
  unlink path d ++ [(path, bytes)].

End Fs.

(** ** multer: [multer({storage, limits, fileFilter}).single(name)] *)

Module Multer.

Import Http.

(** [req.file] after disk storage handled the part. *)
Record File : Type := mkFile {
  file_fieldname : string;
  file_originalname : string;
  file_encoding : string;
  file_mimetype : string;
  file_destination : string;
  file_filename : string;
  file_path : string;
  file_size : N
}.

(** The arguments a [fileFilter] hands to its callback. *)
Definition verdict : Type := (option Js.error * bool)%type.

Record options : Type := mkOptions {
  destination : string;
  filename : Runtime.t -> Part -> string;
  fileSize : N;
  fileFilter : Request -> Part -> verdict
}.

Definition LIMIT_FILE_SIZE : Js.error :=
  Js.MulterError "LIMIT_FILE_SIZE" "File too large".

Definition LIMIT_UNEXPECTED_FILE : Js.error :=
  Js.MulterError "LIMIT_UNEXPECTED_FILE" "Unexpected field".

(** What the parser ends with: the files it stored, in order, or the
    error that stopped it. *)
Inductive parsed : Type :=
| Done (files : list File)
| Failed (err : Js.error).

(** What the middleware passes on: [next()] with [req.file] set or
    not, or [next(err)]. *)
Inductive outcome : Type :=
| Next (file : option File)
| NextErr (err : Js.error).

(** The error node raises when [path] cannot be opened for writing:
    code and description, the system call, and the path. *)
Definition open_error (reason path : string) : Js.error :=
  Js.Error (reason ++ ", open '" ++ path ++ "'").

(** Whether a file of [size] bytes meets the size limit. *)
Definition over_limit (o : options) (rt : Runtime.t) (size : N) : bool :=
  N.ltb (fileSize o) size
  || (N.eqb size (fileSize o) && Runtime.limit_on_reaching rt).

(** Aborting removes the files this request has stored so far. *)
Definition abort (stored : list File) (d : Fs.t) (err : Js.error)
  : Fs.t * parsed :=
  (fold_right (fun f acc => Fs.unlink (file_path f) acc) d stored, Failed err).

(** The file parts in turn.  A part without a file name is skipped; a
    part in a field that has no file left to take is an unexpected
    file; otherwise the filter decides, and an accepted part is named
    and written.  When the file cannot be opened for writing nothing is
    created; when it meets the size limit what was written of it is
    removed again. *)
Fixpoint receive (o : options) (rt : Runtime.t) (req : Request)
         (field : string) (ps : list Part) (filesLeft : nat)
         (stored : list File) (d : Fs.t) : Fs.t * parsed :=
  match ps with
  | [] => (d, Done stored)
  | p :: rest =>
      if String.eqb (originalname p) "" then
        receive o rt req field rest filesLeft stored d
      else if negb (String.eqb (fieldname p) field) then
        abort stored d LIMIT_UNEXPECTED_FILE
      else
        match filesLeft with
        | O => abort stored d LIMIT_UNEXPECTED_FILE
        | S remaining =>
            match fileFilter o req p with
            | (Some err, _) => abort stored d err
            | (None, false) => receive o rt req field rest remaining stored d
            | (None, true) =>
                let name := filename o rt p in
                let path := Path.join (destination o) name in
                match Runtime.write_failure rt with
                | Some reason => abort stored d (open_error reason path)
                | None =>
                    let size := N.of_nat (List.length (content p)) in
                    if over_limit o rt size then
                      abort stored (Fs.unlink path d) LIMIT_FILE_SIZE
                    else
                      let f := mkFile (fieldname p) (originalname p)
                                      (encoding p) (mimetype p)
                                      (destination o) name path size in
                      receive o rt req field rest remaining (stored ++ [f])
                              (Fs.write path (content p) d)
                end
            end
        end
  end.

(** [upload.single(field)]: one file at most in [field], none
    elsewhere; [req.file] is the file that was stored, if any. *)
Definition single (o : options) (field : string) (rt : Runtime.t)
           (req : Request) (d : Fs.t) : Fs.t * outcome :=
  match receive o rt req field (parts req) 1 [] d with
  | (d', Done files) => (d', Next (hd_error files))
  | (d', Failed err) => (d', NextErr err)
  end.

End Multer.

(** ** mongoose: the [Image] model and its collection *)

Module Mongoose.

(** A stored document of [imageSchema]. *)
Record Image : Type := mkImage {
  _id : string;
  filename : string;
  originalname : string;
  path : string;
  size : N;
  mimetype : string;
  createdAt : N
}.

Definition collection : Type := list Image.

(** [new Image({...}).save()]: the document gets its identifier and
    the default [createdAt]; a rejected save leaves the collection as
    it was. *)
Definition save (rt : Runtime.t) (f : Multer.File) (c : collection)
  : collection * (Js.error + Image) :=
  match Runtime.save_failure rt with
  | Some msg => (c, inl (Js.Error msg))
  | None =>
      let doc := mkImage (Runtime.ObjectId rt)
                         (Multer.file_filename f)
                         (Multer.file_originalname f)
                         (Multer.file_path f)
                         (Multer.file_size f)
                         (Multer.file_mimetype f)
                         (Runtime.Date_now_default rt) in
      (c ++ [doc], inr doc)
  end.

(** [sort({ createdAt: -1 })]: newest first, documents of equal date
    in the order they were stored. *)
Fixpoint insert_desc (x : Image) (l : list Image) : list Image :=
  match l with
  | [] => [x]
  | y :: l' =>
      if N.leb (createdAt y) (createdAt x)
      then x :: y :: l'
      else y :: insert_desc x l'
  end.

Definition sort_desc (l : list Image) : list Image :=
  fold_right insert_desc [] l.

(** [Image.find().sort({ createdAt: -1 })]. *)
Definition find_sorted (rt : Runtime.t) (c : collection)
  : Js.error + list Image :=
  match Runtime.find_failure rt with
  | Some msg => inl (Js.Error msg)
  | None => inr (sort_desc c)
  end.

End Mongoose.

(** The state the servers act on: the upload directory and the
    collection. *)
Record State : Type := mkState {
  disk : Fs.t;
  images : Mongoose.collection
}.

(** ** server.js *)

Module ServerJs.

Import Http Js.

Record Config : Type := mkConfig {
  UPLOAD_DIR : string;
  MAX_FILE_SIZE : N;
  NODE_ENV : string
}.

Definition config (pe : Process.env) : Config :=
  mkConfig (Path.join (Process.dirname pe) "uploads")
           (5 * 1024 * 1024)
           (or_else (Process.NODE_ENV pe) "development").

(** [storage.filename] *)
Definition storage_filename (rt : Runtime.t) (file : Part) : string :=
  let ext := Path.extname (originalname file) in
  number_to_string (Runtime.Date_now_filename rt) ++ "-"
    ++ number_to_string (Runtime.random_1e9 rt) ++ ext.

Definition allowedTypes : list string :=
  ["image/jpeg"; "image/png"; "image/gif"; "image/webp"].

Definition fileFilter (req : Request) (file : Part) : Multer.verdict :=
  if includes allowedTypes (mimetype file)
  then (None, true)
  else (Some (Error "Invalid file type. Only images are allowed (JPEG, PNG, GIF, WEBP)"),
        false).

Definition upload (cfg : Config) : Multer.options :=
  Multer.mkOptions (UPLOAD_DIR cfg) storage_filename (MAX_FILE_SIZE cfg)
                   fileFilter.

(** [config.NODE_ENV === 'development' ? err.message : undefined] *)
Definition details (cfg : Config) (err : error) : value :=
  if String.eqb (NODE_ENV cfg) "development"
  then VStr (message err)
  else VUndefined.

Definition imageUrl (req : Request) (filename : string) : string :=
  protocol req ++ "://" ++ template (host req) ++ "/uploads/" ++ filename.

(** The body of the [POST /api/upload] route, entered with [req.file]
    as multer left it. *)
Definition upload_handler (cfg : Config) (rt : Runtime.t) (req : Request)
           (file : option Multer.File) (c : Mongoose.collection)
  : Mongoose.collection * Response :=
  match file with
  | None =>
      (c, status_json 400
            (VObj [("success", VBool false);
                   ("error", VStr "No file uploaded or invalid file type")]))
  | Some f =>
      match Mongoose.save rt f c with
      | (c', inr savedImage) =>
          (c', status_json 201
                 (VObj [("success", VBool true);
                        ("message", VStr "Image uploaded successfully");
                        ("data",
                         VObj [("id", VId (Mongoose._id savedImage));
                               ("name", VStr (Mongoose.originalname savedImage));
                               ("url", VStr (imageUrl req (Mongoose.filename savedImage)));
                               ("size", VNum (Mongoose.size savedImage));
                               ("uploadedAt", VDate (Mongoose.createdAt savedImage))])]))
      | (c', inl err) =>
          (c', status_json 500
                 (VObj [("success", VBool false);
                        ("error", VStr "Server error during upload");
                        ("details", details cfg err)]))
      end
  end.

(** The last [app.use((err, req, res, next) => ...)]. *)
Definition error_middleware (cfg : Config) (err : error) : Response :=
  if instanceof_MulterError err then
    status_json 400
      (VObj [("success", VBool false);
             ("error", VStr (or_else (Some (message err)) "File upload error"))])
  else
    status_json 500
      (VObj [("success", VBool false);
             ("error", VStr "Internal server error");
             ("details", details cfg err)]).

(** [app.post('/api/upload', upload.single('image'), handler)] *)
Definition post_api_upload (cfg : Config) (rt : Runtime.t) (req : Request)
           (st : State) : State * Response :=
  match Multer.single (upload cfg) "image" rt req (disk st) with
  | (d, Multer.NextErr err) => (mkState d (images st), error_middleware cfg err)
  | (d, Multer.Next file) =>
      let (c, res) := upload_handler cfg rt req file (images st) in
      (mkState d c, res)
  end.

(** [app.get('/api/images', handler)] *)
Definition get_api_images (cfg : Config) (rt : Runtime.t) (req : Request)
           (st : State) : Response :=
  match Mongoose.find_sorted rt (images st) with
  | inr found =>
      let response :=
        map (fun img =>
               VObj [("id", VId (Mongoose._id img));
                     ("name", VStr (Mongoose.originalname img));
                     ("url", VStr (imageUrl req (Mongoose.filename img)));
                     ("size", VNum (Mongoose.size img));
                     ("uploadedAt", VDate (Mongoose.createdAt img))])
            found in
      json (VObj [("success", VBool true);
                  ("count", VNum (N.of_nat (List.length response)));
                  ("images", VArr response)])
  | inl err =>
      status_json 500
        (VObj [("success", VBool false);
               ("error", VStr "Failed to fetch images");
               ("details", details cfg err)])
  end.

End ServerJs.

(** ** part_000, the first revision *)

Module Part000.

Import Http Js.

Record Config : Type := mkConfig {
  UPLOAD_DIR : string;
  MAX_FILE_SIZE : N;
  BASE_URL : string
}.

Definition config (pe : Process.env) : Config :=
  mkConfig (Path.join (Process.dirname pe) "uploads")
           (5 * 1024 * 1024)
           (or_else (Process.BASE_URL pe)
                    ("http://localhost:" ++ or_else (Process.PORT pe) "3001")).

(** [storage.filename] *)
Definition storage_filename (rt : Runtime.t) (file : Part) : string :=
  let ext := Path.extname (originalname file) in
  "img-" ++ number_to_string (Runtime.Date_now_filename rt) ++ ext.

Definition allowedTypes : list string :=
  ["image/jpeg"; "image/png"; "image/gif"; "image/webp"].

Definition fileFilter (req : Request) (file : Part) : Multer.verdict :=
  if includes allowedTypes (mimetype file)
  then (None, true)
  else (Some (Error "Only JPG, PNG, GIF, or WEBP images are allowed"), false).

Definition upload (cfg : Config) : Multer.options :=
  Multer.mkOptions (UPLOAD_DIR cfg) storage_filename (MAX_FILE_SIZE cfg)
                   fileFilter.

Definition imageUrl (cfg : Config) (filename : string) : string :=
  BASE_URL cfg ++ "/uploads/" ++ filename.

Definition upload_handler (cfg : Config) (rt : Runtime.t) (req : Request)
           (file : option Multer.File) (c : Mongoose.collection)
  : Mongoose.collection * Response :=
  match file with
  | None =>
      (c, status_json 400 (VObj [("error", VStr "No file uploaded")]))
  | Some f =>
      match Mongoose.save rt f c with
      | (c', inr savedImage) =>
          (c', status_json 201
                 (VObj [("success", VBool true);
                        ("message", VStr "Image uploaded successfully");
                        ("image",
                         VObj [("id", VId (Mongoose._id savedImage));
                               ("name", VStr (Mongoose.originalname savedImage));
                               ("url", VStr (imageUrl cfg (Mongoose.filename savedImage)));
                               ("size", VNum (Mongoose.size savedImage));
                               ("uploadedAt", VDate (Mongoose.createdAt savedImage))])]))
      | (c', inl err) =>
          (c', status_json 500
                 (VObj [("success", VBool false);
                        ("error", VStr (message err))]))
      end
  end.

Definition error_middleware (cfg : Config) (err : error) : Response :=
  if instanceof_MulterError err then
    status_json 400
      (VObj [("success", VBool false); ("error", VStr (message err))])
  else
    status_json 500
      (VObj [("success", VBool false); ("error", VStr "Something went wrong")]).

Definition post_api_upload (cfg : Config) (rt : Runtime.t) (req : Request)
           (st : State) : State * Response :=
  match Multer.single (upload cfg) "image" rt req (disk st) with
  | (d, Multer.NextErr err) => (mkState d (images st), error_middleware cfg err)
  | (d, Multer.Next file) =>
      let (c, res) := upload_handler cfg rt req file (images st) in
      (mkState d c, res)
  end.

Definition get_api_images (cfg : Config) (rt : Runtime.t) (req : Request)
           (st : State) : Response :=
  match Mongoose.find_sorted rt (images st) with
  | inr found =>
      json (VObj [("success", VBool true);
                  ("count", VNum (N.of_nat (List.length found)));
                  ("images",
                   VArr (map (fun img =>
                                VObj [("id", VId (Mongoose._id img));
                                      ("name", VStr (Mongoose.originalname img));
                                      ("url", VStr (imageUrl cfg (Mongoose.filename img)));
                                      ("size", VNum (Mongoose.size img));
                                      ("uploadedAt", VDate (Mongoose.createdAt img))])
                             found))])
  | inl err =>
      status_json 500
        (VObj [("success", VBool false);
               ("error", VStr "Failed to fetch images")])
  end.

End Part000.

(** ** part_001, the second revision *)

Module Part001.

Import Http Js.

Record Config : Type := mkConfig {
  UPLOAD_DIR : string;
  MAX_FILE_SIZE : N;
  NODE_ENV : string
}.

Definition config (pe : Process.env) : Config :=
  mkConfig (Path.join (Process.dirname pe) "uploads")
           (5 * 1024 * 1024)
           (or_else (Process.NODE_ENV pe) "development").

(** [storage.filename] *)
Definition storage_filename (rt : Runtime.t) (file : Part) : string :=
  let ext := Path.extname (originalname file) in
  "img-" ++ number_to_string (Runtime.Date_now_filename rt) ++ ext.

Definition allowedTypes : list string :=
  ["image/jpeg"; "image/png"; "image/gif"; "image/webp"].

Definition fileFilter (req : Request) (file : Part) : Multer.verdict :=
  if includes allowedTypes (mimetype file)
  then (None, true)
  else (Some (Error "Invalid file type. Only JPG, PNG, GIF, or WEBP images are allowed"),
        false).

Definition upload (cfg : Config) : Multer.options :=
  Multer.mkOptions (UPLOAD_DIR cfg) storage_filename (MAX_FILE_SIZE cfg)
                   fileFilter.

Definition imageUrl (req : Request) (filename : string) : string :=
  protocol req ++ "://" ++ template (host req) ++ "/uploads/" ++ filename.

Definition upload_handler (cfg : Config) (rt : Runtime.t) (req : Request)
           (file : option Multer.File) (c : Mongoose.collection)
  : Mongoose.collection * Response :=
  match file with
  | None =>
      (c, status_json 400
            (VObj [("success", VBool false);
                   ("error", VStr "No file uploaded or file type not allowed")]))
  | Some f =>
      match Mongoose.save rt f c with
      | (c', inr savedImage) =>
          (c', status_json 201
                 (VObj [("success", VBool true);
                        ("message", VStr "Image uploaded successfully");
                        ("data",
                         VObj [("id", VId (Mongoose._id savedImage));
                               ("name", VStr (Mongoose.originalname savedImage));
                               ("url", VStr (imageUrl req (Mongoose.filename savedImage)));
                               ("size", VNum (Mongoose.size savedImage));
                               ("uploadedAt", VDate (Mongoose.createdAt savedImage))])]))
      | (c', inl err) =>
          (c', status_json 500
                 (VObj [("success", VBool false);
                        ("error", VStr "Server error during upload")]))
      end
  end.

Definition error_middleware (cfg : Config) (err : error) : Response :=
  if instanceof_MulterError err then
    status_json 400
      (VObj [("success", VBool false); ("error", VStr (message err))])
  else
    status_json 500
      (VObj [("success", VBool false); ("error", VStr "Internal server error")]).

Definition post_api_upload (cfg : Config) (rt : Runtime.t) (req : Request)
           (st : State) : State * Response :=
  match Multer.single (upload cfg) "image" rt req (disk st) with
  | (d, Multer.NextErr err) => (mkState d (images st), error_middleware cfg err)
  | (d, Multer.Next file) =>
      let (c, res) := upload_handler cfg rt req file (images st) in
      (mkState d c, res)
  end.

Definition get_api_images (cfg : Config) (rt : Runtime.t) (req : Request)
           (st : State) : Response :=
  match Mongoose.find_sorted rt (images st) with
  | inr found =>
      let response :=
        map (fun img =>
               VObj [("id", VId (Mongoose._id img));
                     ("name", VStr (Mongoose.originalname img));
                     ("url", VStr (imageUrl req (Mongoose.filename img)));
                     ("size", VNum (Mongoose.size img));
                     ("uploadedAt", VDate (Mongoose.createdAt img))])
            found in
      json (VObj [("success", VBool true);
                  ("count", VNum (N.of_nat (List.length response)));
                  ("data", VArr response)])
  | inl err =>
      status_json 500
        (VObj [("success", VBool false);
               ("error", VStr "Failed to fetch images")])
  end.

End Part001.

(** ** Vocabulary of the specification *)

(** The fixed allow-list of media types. *)
Definition allow_list : list string :=
  ["image/jpeg"; "image/png"; "image/gif"; "image/webp"].

(** A filter verdict that lets the file through. *)
Definition accepted (v : Multer.verdict) : Prop :=
  v = (None, true).

(** A filter verdict that refuses the file with an error carrying a
    message. *)
Definition rejected (v : Multer.verdict) : Prop :=
  exists msg, v = (Some (Js.Error msg), false) /\ msg <> "".

(** A part that multer treats as a file: it has a file name. *)
Definition is_file (p : Http.Part) : bool :=
  negb (String.eqb (Http.originalname p) "").

(** Some field named [field] of the request carries a file. *)
Definition carries_file (field : string) (req : Http.Request) : bool :=
  existsb (fun p => String.eqb (Http.fieldname p) field && is_file p)
          (Http.parts req).

(** The request carries no file under any field. *)
Definition no_file_at_all (req : Http.Request) : bool :=
  forallb (fun p => negb (is_file p)) (Http.parts req).

(** The first file of the request, the one multer looks at first. *)
Definition first_file (req : Http.Request) : option Http.Part :=
  find is_file (Http.parts req).

(** The public projection of a record: [{id, name, url, size, uploadedAt}]. *)
Definition public_projection (url : string) (img : Mongoose.Image) : Js.value :=
  Js.VObj [("id", Js.VId (Mongoose._id img));
           ("name", Js.VStr (Mongoose.originalname img));
           ("url", Js.VStr url);
           ("size", Js.VNum (Mongoose.size img));
           ("uploadedAt", Js.VDate (Mongoose.createdAt img))].

(** Newest first. *)
Definition newer_or_same (a b : Mongoose.Image) : Prop :=
  (Mongoose.createdAt b <= Mongoose.createdAt a)%N.

(** A run of upload requests against one server, each with the runtime
    readings it meets. *)
Fixpoint run_uploads (post : Runtime.t -> Http.Request -> State -> State * Http.Response)
         (reqs : list (Runtime.t * Http.Request)) (st : State)
  : State * list Http.Response :=
  match reqs with
  | [] => (st, [])
  | (rt, req) :: rest =>
      let (st1, r) := post rt req st in
      let (st2, rs) := run_uploads post rest st1 in
      (st2, r :: rs)
  end.

(** A record that differs from [img] in its stored path only. *)
Definition with_path (p : string) (img : Mongoose.Image) : Mongoose.Image :=
  Mongoose.mkImage (Mongoose._id img) (Mongoose.filename img)
                   (Mongoose.originalname img) p (Mongoose.size img)
                   (Mongoose.mimetype img) (Mongoose.createdAt img).

(** A process environment that differs in [__dirname] only. *)
Definition with_dirname (dir : string) (pe : Process.env) : Process.env :=
  Process.mkEnv (Process.NODE_ENV pe) (Process.BASE_URL pe)
                (Process.PORT pe) dir.

(** The record a successful upload of [f] creates. *)
Definition created_record (rt : Runtime.t) (f : Multer.File) : Mongoose.Image :=
  Mongoose.mkImage (Runtime.ObjectId rt) (Multer.file_filename f)
                   (Multer.file_originalname f) (Multer.file_path f)
                   (Multer.file_size f) (Multer.file_mimetype f)
                   (Runtime.Date_now_default rt).

(** The five keys of a public projection. *)
Definition projection_keys : list string :=
  ["id"; "name"; "url"; "size"; "uploadedAt"].

(** ** Notions used in the proofs *)

(** A decimal digit. *)
Definition is_digit (c : ascii) : bool :=
  (48 <=? nat_of_ascii c)%nat && (nat_of_ascii c <=? 57)%nat.

(** The longest prefix of digits and what follows it. *)
Fixpoint span_digits (s : string) : string * string :=
  match s with
  | EmptyString => (EmptyString, EmptyString)
  | String c s' =>
      if is_digit c
      then let (ds, rest) := span_digits s' in (String c ds, rest)
      else (EmptyString, s)
  end.

(** Only an answer of 201 goes with a new record, and it goes with
    exactly one. *)
Definition counts_records
           (post : Runtime.t -> Http.Request -> State -> State * Http.Response)
  : Prop :=
  forall rt req st,
    Http.status (snd (post rt req st)) = 201%N ->
    List.length (images (fst (post rt req st))) = S (List.length (images st)).

(** The string is empty or begins with something that is not a digit. *)
Definition starts_without_digit (s : string) : bool :=
  match s with
  | EmptyString => true
  | String c _ => negb (is_digit c)
  end.

(** A character that is neither a dot nor a slash. *)
Definition plain (c : ascii) : bool :=
  negb (Ascii.eqb c ".") && negb (Ascii.eqb c "/").

Fixpoint all_plain (s : string) : bool :=
  match s with
  | EmptyString => true
  | String c s' => plain c && all_plain s'
  end.

(** The shape of an extension: nothing, or a dot followed by characters
    that are neither dots nor slashes. *)
Definition is_extension (e : string) : bool :=
  match e with
  | EmptyString => true
  | String c t => Ascii.eqb c "." && all_plain t
  end.

(** What the scan of [Path.extname] knows about [path] when the indices
    from [n] upwards have been visited. *)
Definition scan_inv (path : string) (n : nat) (st : Path.scan) : Prop :=
  (Path.matchedSlash st = true -> Path.end_ st = (-1)%Z)
  /\ (Path.end_ st = (-1)%Z -> Path.startDot st = (-1)%Z)
  /\ (Path.end_ st <> (-1)%Z -> (Z.of_nat n < Path.end_ st)%Z)
  /\ (forall j c,
         (n <= j)%nat -> (Z.of_nat j < Path.end_ st)%Z ->
         String.get j path = Some c ->
         c <> "/"%char
         /\ ((Path.startDot st = -1 \/ Path.startDot st < Z.of_nat j)%Z ->
             c <> "."%char))
  /\ (Path.startDot st <> (-1)%Z ->
      (Z.of_nat n <= Path.startDot st < Path.end_ st)%Z
      /\ String.get (Z.to_nat (Path.startDot st)) path = Some "."%char).

(** The scan state of [Path.extname] on a string of length [L] whose
    last dot sits at index [a], with plain characters on both sides,
    once the indices from [n] upwards have been visited. *)
Definition scan_at_dotted (a L n : nat) : Path.scan :=
  if (L <=? n)%nat then Path.scan0
  else if (a <? n)%nat then Path.mkScan (-1) 0 (Z.of_nat L) false 0 false
  else if (n =? a)%nat then Path.mkScan (Z.of_nat a) 0 (Z.of_nat L) false 0 false
  else Path.mkScan (Z.of_nat a) 0 (Z.of_nat L) false (-1) false.

(** The same on a string of plain characters only. *)
Definition scan_at_plain (L n : nat) : Path.scan :=
  if (L <=? n)%nat then Path.scan0
  else Path.mkScan (-1) 0 (Z.of_nat L) false 0 false.

(** A stored file with its location on disk blanked out. *)
Definition erase_location (f : Multer.File) : Multer.File :=
  Multer.mkFile (Multer.file_fieldname f) (Multer.file_originalname f)
                (Multer.file_encoding f) (Multer.file_mimetype f)
                "" (Multer.file_filename f) "" (Multer.file_size f).

(** Two errors are alike when they are the same, or when both report
    that a file could not be opened, for the same reason, at two paths. *)
Definition alike_errors (rt : Runtime.t) (e1 e2 : Js.error) : Prop :=
  e1 = e2
  \/ exists reason pa pb,
      Runtime.write_failure rt = Some reason
      /\ e1 = Multer.open_error reason pa
      /\ e2 = Multer.open_error reason pb.

(** Two parsers end alike: with files that differ in their location
    only, or with errors that are alike. *)
Definition alike_parsed (rt : Runtime.t) (a b : Multer.parsed) : Prop :=
  match a, b with
  | Multer.Done files1, Multer.Done files2 =>
      map erase_location files1 = map erase_location files2
  | Multer.Failed e1, Multer.Failed e2 => alike_errors rt e1 e2
  | _, _ => False
  end.

Definition alike_outcome (rt : Runtime.t) (a b : Multer.outcome) : Prop :=
  match a, b with
  | Multer.Next file1, Multer.Next file2 =>
      option_map erase_location file1 = option_map erase_location file2
  | Multer.NextErr e1, Multer.NextErr e2 => alike_errors rt e1 e2
  | _, _ => False
  end.

(** ** Sample inputs *)

Module Sample.

Import Http.

Definition png_bytes : list Byte.byte :=
  [Byte.x89; Byte.x50; Byte.x4e; Byte.x47].

Definition photo_png : Part :=
  mkPart "image" "photo.png" "7bit" "image/png" png_bytes.

Definition other_png : Part :=
  mkPart "image" "holiday.png" "7bit" "image/png" [Byte.x00].

Definition notes_txt : Part :=
  mkPart "image" "notes.txt" "7bit" "text/plain" [Byte.x68; Byte.x69].

Definition avatar_field : Part :=
  mkPart "avatar" "photo.png" "7bit" "image/png" png_bytes.

Definition request (ps : list Part) : Request :=
  mkRequest "https" (Some "img.example.com") ps.

Definition production : Process.env :=
  Process.mkEnv (Some "production") None None "/app".

Definition development : Process.env :=
  Process.mkEnv None None None "/app".

Definition rt : Runtime.t :=
  Runtime.mk 1700000000000 42 None "65a1f0c2e4b0a1b2c3d4e5f6"
             1700000000005 None None true.

Definition rt_later : Runtime.t :=
  Runtime.mk 1700000000900 7 None "65a1f0c2e4b0a1b2c3d4e5f7"
             1700000000905 None None true.

(** The same millisecond as [rt], another random draw. *)
Definition rt_same_ms : Runtime.t :=
  Runtime.mk 1700000000000 7 None "65a1f0c2e4b0a1b2c3d4e5f8"
             1700000000006 None None true.

(** The same millisecond and the same random draw as [rt]. *)
Definition rt_twin : Runtime.t :=
  Runtime.mk 1700000000000 42 None "65a1f0c2e4b0a1b2c3d4e5f9"
             1700000000007 None None true.

Definition rt_save_fails : Runtime.t :=
  Runtime.mk 1700000000000 42 None "65a1f0c2e4b0a1b2c3d4e5f6"
             1700000000005 (Some "connection lost") None true.

Definition rt_find_fails : Runtime.t :=
  Runtime.mk 1700000000000 42 None "65a1f0c2e4b0a1b2c3d4e5f6"
             1700000000005 None (Some "connection lost") true.

Definition empty : State := mkState [] [].

Definition older : Mongoose.Image :=
  Mongoose.mkImage "id-1" "img-1.png" "a.png" "/app/uploads/img-1.png"
                   10 "image/png" 100.

Definition newer : Mongoose.Image :=
  Mongoose.mkImage "id-2" "img-2.gif" "b.gif" "/app/uploads/img-2.gif"
                   20 "image/gif" 200.

Definition two_images : State := mkState [] [older; newer].

End Sample.

(** * More of the servers *)

(** ** Strings of JavaScript *)

Module JsString.

(** [s.split(sep)] for a one-character separator: the pieces between the
    separators, the empty ones included; the empty string gives one empty
    piece. *)
Fixpoint split (sep : ascii) (s : string) : list string :=
  match s with
  | EmptyString => [EmptyString]
  | String c s' =>
      if Ascii.eqb c sep then EmptyString :: split sep s'
      else match split sep s' with
           | [] => [String c EmptyString]
           | piece :: pieces => String c piece :: pieces
           end
  end.

(** [arr.join(sep)]. *)
Definition join (sep : string) (arr : list string) : string :=
  String.concat sep arr.

End JsString.

(** ** server.js: the CORS origin check *)

Module ServerJsCors.

(** [config.ALLOWED_ORIGINS], from the environment variable of that
    name. *)
Definition ALLOWED_ORIGINS (env_ALLOWED_ORIGINS : option string) : list string :=
  match env_ALLOWED_ORIGINS with
  | Some s =>
      if String.eqb s ""
      then ["http://localhost:3000"; "https://cicd-frontend-alpha.vercel.app"]
      else JsString.split "," s
  | None => ["http://localhost:3000"; "https://cicd-frontend-alpha.vercel.app"]
  end.

(** The [origin] function handed to [cors]: what it passes to its
    callback for the request's [Origin] header. *)
Definition origin (allowed : list string) (header : option string)
  : option Js.error * bool :=
  match header with
  | None => (None, true)
  | Some o =>
      if String.eqb o "" || Js.includes allowed o
      then (None, true)
      else (Some (Js.Error "Not allowed by CORS"), false)
  end.

End ServerJsCors.

(** ** Reading the upload directory *)

(** The bytes stored under [path], if any. *)
Definition fs_read (path : string) (d : Fs.t) : option (list Byte.byte) :=
  option_map snd (find (fun e => String.eqb (fst e) path) d).

(** ** Further vocabulary *)

(** The files of a request, in order: the parts multer does not skip. *)
Definition files_of (req : Http.Request) : list Http.Part :=
  filter is_file (Http.parts req).

(** The byte length of a part. *)
Definition byte_length (p : Http.Part) : N :=
  N.of_nat (List.length (Http.content p)).

(** The stored file multer makes of part [p] under options [o]. *)
Definition stored_file (o : Multer.options) (rt : Runtime.t) (p : Http.Part)
  : Multer.File :=
  Multer.mkFile (Http.fieldname p) (Http.originalname p) (Http.encoding p)
                (Http.mimetype p) (Multer.destination o)
                (Multer.filename o rt p)
                (Path.join (Multer.destination o) (Multer.filename o rt p))
                (byte_length p).

(** A record as an upload under options [o] makes it: an allowed media
    type, a size within the limit, and a path directly under the upload
    directory. *)
Definition well_formed_record (o : Multer.options) (img : Mongoose.Image) : Prop :=
  In (Mongoose.mimetype img) allow_list
  /\ (Mongoose.size img <= Multer.fileSize o)%N
  /\ Mongoose.path img = Path.join (Multer.destination o) (Mongoose.filename img)
  /\ Mongoose.originalname img <> "".

(** The same for a stored file. *)
Definition well_formed_file (o : Multer.options) (f : Multer.File) : Prop :=
  In (Multer.file_mimetype f) allow_list
  /\ (Multer.file_size f <= Multer.fileSize o)%N
  /\ Multer.file_path f = Path.join (Multer.destination o) (Multer.file_filename f)
  /\ Multer.file_originalname f <> "".

(** No character of [s] is a slash. *)
Fixpoint no_slash (s : string) : bool :=
  match s with
  | EmptyString => true
  | String c s' => negb (Ascii.eqb c "/") && no_slash s'
  end.

(** A name that is a plain entry of a directory: not empty, no slash in
    it, and not beginning with a dot. *)
Definition plain_file_name (s : string) : bool :=
  match s with
  | EmptyString => false
  | String c _ => negb (Ascii.eqb c ".") && no_slash s
  end.

(** The runtime with the messages of its failures replaced: a failure
    stays a failure, only its text changes. *)
Definition relabel (w s f : string) (rt : Runtime.t) : Runtime.t :=
  Runtime.mk (Runtime.Date_now_filename rt) (Runtime.random_1e9 rt)
             (option_map (fun _ => w) (Runtime.write_failure rt))
             (Runtime.ObjectId rt) (Runtime.Date_now_default rt)
             (option_map (fun _ => s) (Runtime.save_failure rt))
             (option_map (fun _ => f) (Runtime.find_failure rt))
             (Runtime.limit_on_reaching rt).

(** How many of the responses are 201. *)
Definition count_created (rs : list Http.Response) : nat :=
  List.length (filter (fun r => N.eqb (Http.status r) 201) rs).

(** The paths an upload under [o] may write or remove: one per part of
    the request. *)
Definition own_paths (o : Multer.options) (rt : Runtime.t) (req : Http.Request)
  : list string :=
  map (fun p => Path.join (Multer.destination o) (Multer.filename o rt p))
      (Http.parts req).

(** No piece contains the separator. *)
Fixpoint free_of (sep : ascii) (s : string) : bool :=
  match s with
  | EmptyString => true
  | String c s' => negb (Ascii.eqb c sep) && free_of sep s'
  end.

Module Sample2.

Import Http.



Definition rt_write_fails : Runtime.t :=
  Runtime.mk 1700000000000 42 (Some "EACCES: permission denied")
             "65a1f0c2e4b0a1b2c3d4e5f6" 1700000000005 None None true.

Definition stranger : State :=
  mkState [("/app/uploads/keep.gif", [Byte.x47])] [Sample.older].

End Sample2.

(** * Properties *)

(** ** The library models on examples *)

Example extname_png : Path.extname "photo.png" = ".png".
Proof. reflexivity. Qed.

Example extname_two_dots : Path.extname "a.tar.gz" = ".gz".
Proof. reflexivity. Qed.

Example extname_none : Path.extname "README" = "".
Proof. reflexivity. Qed.

Example extname_hidden : Path.extname ".bashrc" = "".
Proof. reflexivity. Qed.

Example extname_trailing_dot : Path.extname "a." = ".".
Proof. reflexivity. Qed.

Example extname_dotdot : Path.extname ".." = "".
Proof. reflexivity. Qed.

Example extname_dir : Path.extname "dir.d/file" = "".
Proof. reflexivity. Qed.

Example extname_trailing_slash : Path.extname "a.txt/" = ".txt".
Proof. reflexivity. Qed.

Example number_to_string_zero : Js.number_to_string 0 = "0".
Proof. reflexivity. Qed.

Example number_to_string_ms : Js.number_to_string 1700000000000 = "1700000000000".
Proof. reflexivity. Qed.

(** ** The upload validator *)

Lemma includes_In (arr : list string) (s : string) :
  Js.includes arr s = true <-> In s arr.
Proof.
  unfold Js.includes. rewrite existsb_exists. split.
  - intros [x [Hin Heq]]. apply String.eqb_eq in Heq. now subst.
  - intros Hin. exists s. split; [assumption | apply String.eqb_refl].
Qed.

Lemma includes_not_In (arr : list string) (s : string) :
  Js.includes arr s = false <-> ~ In s arr.
Proof.
  rewrite <- includes_In. destruct (Js.includes arr s); split; intros H;
    try discriminate; try reflexivity; try (intro; discriminate).
  exfalso. now apply H.
Qed.

Lemma accepted_not_rejected (v : Multer.verdict) :
  accepted v -> ~ rejected v.
Proof.
  unfold accepted, rejected. intros -> [msg [H _]]. discriminate.
Qed.

Ltac filter_cases file :=
  destruct (Js.includes _ (Http.mimetype file)) eqn:Hinc;
  [ apply includes_In in Hinc | apply includes_not_In in Hinc ].

Lemma ServerJs_fileFilter_spec (req : Http.Request) (file : Http.Part) :
  (accepted (ServerJs.fileFilter req file) <-> In (Http.mimetype file) allow_list)
  /\ (accepted (ServerJs.fileFilter req file) \/ rejected (ServerJs.fileFilter req file)).
Proof.
  unfold ServerJs.fileFilter, accepted, rejected.
  change ServerJs.allowedTypes with allow_list.
  filter_cases file.
  - split; [tauto | now left].
  - split.
    + split; [discriminate | contradiction].
    + right. eexists. split; [reflexivity | discriminate].
Qed.

Lemma Part000_fileFilter_spec (req : Http.Request) (file : Http.Part) :
  (accepted (Part000.fileFilter req file) <-> In (Http.mimetype file) allow_list)
  /\ (accepted (Part000.fileFilter req file) \/ rejected (Part000.fileFilter req file)).
Proof.
  unfold Part000.fileFilter, accepted, rejected.
  change Part000.allowedTypes with allow_list.
  filter_cases file.
  - split; [tauto | now left].
  - split.
    + split; [discriminate | contradiction].
    + right. eexists. split; [reflexivity | discriminate].
Qed.

Lemma Part001_fileFilter_spec (req : Http.Request) (file : Http.Part) :
  (accepted (Part001.fileFilter req file) <-> In (Http.mimetype file) allow_list)
  /\ (accepted (Part001.fileFilter req file) \/ rejected (Part001.fileFilter req file)).
Proof.
  unfold Part001.fileFilter, accepted, rejected.
  change Part001.allowedTypes with allow_list.
  filter_cases file.
  - split; [tauto | now left].
  - split.
    + split; [discriminate | contradiction].
    + right. eexists. split; [reflexivity | discriminate].
Qed.

(** C1. In each of the three servers the upload validator lets a file
    through exactly when its declared media type is one of image/jpeg,
    image/png, image/gif, image/webp; every other file is refused with an
    error that carries a message. *)
Theorem fileFilter_accepts_exactly_allow_list :
  forall (req : Http.Request) (file : Http.Part),
    ((accepted (ServerJs.fileFilter req file) <-> In (Http.mimetype file) allow_list)
     /\ (accepted (ServerJs.fileFilter req file) \/ rejected (ServerJs.fileFilter req file)))
    /\ ((accepted (Part000.fileFilter req file) <-> In (Http.mimetype file) allow_list)
        /\ (accepted (Part000.fileFilter req file) \/ rejected (Part000.fileFilter req file)))
    /\ ((accepted (Part001.fileFilter req file) <-> In (Http.mimetype file) allow_list)
        /\ (accepted (Part001.fileFilter req file) \/ rejected (Part001.fileFilter req file))).
Proof.
  intros req file. split; [| split].
  - apply ServerJs_fileFilter_spec.
  - apply Part000_fileFilter_spec.
  - apply Part001_fileFilter_spec.
Qed.

(** C10. The validator's verdict depends on the declared media type and
    on nothing else: two files with the same declared media type get the
    same verdict, whatever their contents, sizes, names, or the requests
    they arrive in. *)
Theorem fileFilter_depends_on_mimetype_only :
  forall (req1 req2 : Http.Request) (file1 file2 : Http.Part),
    Http.mimetype file1 = Http.mimetype file2 ->
    ServerJs.fileFilter req1 file1 = ServerJs.fileFilter req2 file2
    /\ Part000.fileFilter req1 file1 = Part000.fileFilter req2 file2
    /\ Part001.fileFilter req1 file1 = Part001.fileFilter req2 file2.
Proof.
  intros req1 req2 file1 file2 Hmt.
  unfold ServerJs.fileFilter, Part000.fileFilter, Part001.fileFilter.
  rewrite Hmt. repeat split.
Qed.

(** C10 at two files that share nothing but the declared type. *)
Lemma fileFilter_depends_on_mimetype_only_witness :
  Http.mimetype Sample.photo_png = Http.mimetype Sample.other_png
  /\ ServerJs.fileFilter (Sample.request []) Sample.photo_png
     = ServerJs.fileFilter (Sample.request [Sample.notes_txt]) Sample.other_png
  /\ Part000.fileFilter (Sample.request []) Sample.photo_png
     = Part000.fileFilter (Sample.request [Sample.notes_txt]) Sample.other_png
  /\ Part001.fileFilter (Sample.request []) Sample.photo_png
     = Part001.fileFilter (Sample.request [Sample.notes_txt]) Sample.other_png.
Proof.
  split; [reflexivity |].
  apply (fileFilter_depends_on_mimetype_only
           (Sample.request []) (Sample.request [Sample.notes_txt])
           Sample.photo_png Sample.other_png).
  reflexivity.
Defined.

(** ** multer's pass over the parts *)

Lemma receive_no_file_in_field (o : Multer.options) (rt : Runtime.t)
      (req : Http.Request) (field : string) (ps : list Http.Part)
      (n : nat) (d : Fs.t) :
  existsb (fun p => String.eqb (Http.fieldname p) field && is_file p) ps = false ->
  Multer.receive o rt req field ps n [] d
  = (d, if forallb (fun p => negb (is_file p)) ps
        then Multer.Done []
        else Multer.Failed Multer.LIMIT_UNEXPECTED_FILE).
Proof.
  induction ps as [| p ps IH]; intros Hno; simpl in *.
  - reflexivity.
  - apply orb_false_elim in Hno. destruct Hno as [Hp Hps].
    unfold is_file in *.
    destruct (String.eqb (Http.originalname p) "") eqn:Hname; simpl in *.
    + now apply IH.
    + rewrite andb_true_r in Hp. rewrite Hp. reflexivity.
Qed.

Lemma receive_first_file_refused (o : Multer.options) (rt : Runtime.t)
      (req : Http.Request) (field : string) (ps : list Http.Part)
      (n : nat) (d : Fs.t) (p : Http.Part) (e : Js.error) (b : bool) :
  find is_file ps = Some p ->
  Http.fieldname p = field ->
  Multer.fileFilter o req p = (Some e, b) ->
  Multer.receive o rt req field ps (S n) [] d = (d, Multer.Failed e).
Proof.
  intros Hfind Hfield Hfilter.
  induction ps as [| q ps IH]; simpl in *; [discriminate |].
  unfold is_file in Hfind at 1.
  destruct (String.eqb (Http.originalname q) "") eqn:Hname; simpl in *.
  - now apply IH.
  - injection Hfind as ->. rewrite Hfield, String.eqb_refl. simpl.
    rewrite Hfilter. reflexivity.
Qed.

Lemma state_eta (st : State) : mkState (disk st) (images st) = st.
Proof. now destruct st. Qed.

(** ** Requests without a file in the field [image] *)

Section NoImageFile.

Variables (rt : Runtime.t) (req : Http.Request) (st : State).
Hypothesis Hno : carries_file "image" req = false.

Lemma single_no_image_file (o : Multer.options) :
  Multer.single o "image" rt req (disk st)
  = (disk st, if no_file_at_all req
              then Multer.Next None
              else Multer.NextErr Multer.LIMIT_UNEXPECTED_FILE).
Proof.
  unfold Multer.single. rewrite receive_no_file_in_field by exact Hno.
  unfold no_file_at_all. now destruct (forallb _ _).
Qed.

Lemma ServerJs_no_image_file (cfg : ServerJs.Config) :
  ServerJs.post_api_upload cfg rt req st
  = (st, Http.mkResponse 400
           (Js.VObj [("success", Js.VBool false);
                     ("error", Js.VStr (if no_file_at_all req
                                        then "No file uploaded or invalid file type"
                                        else "Unexpected field"))])).
Proof.
  unfold ServerJs.post_api_upload. rewrite single_no_image_file.
  destruct (no_file_at_all req); simpl; now rewrite state_eta.
Qed.

Lemma Part000_no_image_file (cfg : Part000.Config) :
  Part000.post_api_upload cfg rt req st
  = (st, Http.mkResponse 400
           (if no_file_at_all req
            then Js.VObj [("error", Js.VStr "No file uploaded")]
            else Js.VObj [("success", Js.VBool false);
                          ("error", Js.VStr "Unexpected field")])).
Proof.
  unfold Part000.post_api_upload. rewrite single_no_image_file.
  destruct (no_file_at_all req); simpl; now rewrite state_eta.
Qed.

Lemma Part001_no_image_file (cfg : Part001.Config) :
  Part001.post_api_upload cfg rt req st
  = (st, Http.mkResponse 400
           (Js.VObj [("success", Js.VBool false);
                     ("error", Js.VStr (if no_file_at_all req
                                        then "No file uploaded or file type not allowed"
                                        else "Unexpected field"))])).
Proof.
  unfold Part001.post_api_upload. rewrite single_no_image_file.
  destruct (no_file_at_all req); simpl; now rewrite state_eta.
Qed.

End NoImageFile.

(** C7, as the code has it.  When no field named [image] carries a file,
    each server answers 400 and leaves disk and collection alone.  The
    error message is the server's own when the request carries no file
    at all ("No file uploaded or invalid file type" in server.js, "No
    file uploaded" in part_000, "No file uploaded or file type not
    allowed" in part_001) and multer's "Unexpected field" when a file
    arrives under another field name. *)
Theorem no_image_file_answers_400 :
  forall (rt : Runtime.t) (req : Http.Request) (st : State)
         (cfgS : ServerJs.Config) (cfg0 : Part000.Config) (cfg1 : Part001.Config),
    carries_file "image" req = false ->
    (let (st', res) := ServerJs.post_api_upload cfgS rt req st in
     st' = st /\ Http.status res = 400%N
     /\ Js.get "error" (Http.body res)
        = Some (Js.VStr (if no_file_at_all req
                         then "No file uploaded or invalid file type"
                         else "Unexpected field")))
    /\ (let (st', res) := Part000.post_api_upload cfg0 rt req st in
        st' = st /\ Http.status res = 400%N
        /\ Js.get "error" (Http.body res)
           = Some (Js.VStr (if no_file_at_all req
                            then "No file uploaded"
                            else "Unexpected field")))
    /\ (let (st', res) := Part001.post_api_upload cfg1 rt req st in
        st' = st /\ Http.status res = 400%N
        /\ Js.get "error" (Http.body res)
           = Some (Js.VStr (if no_file_at_all req
                            then "No file uploaded or file type not allowed"
                            else "Unexpected field"))).
Proof.
  intros rt req st cfgS cfg0 cfg1 Hno.
  rewrite (ServerJs_no_image_file rt req st Hno),
          (Part000_no_image_file rt req st Hno),
          (Part001_no_image_file rt req st Hno).
  destruct (no_file_at_all req); simpl; repeat split.
Qed.

(** C7 on a request without any part, and on one whose only file sits
    in a field called [avatar]. *)
Lemma no_image_file_answers_400_witness :
  carries_file "image" (Sample.request [Sample.avatar_field]) = false
  /\ Http.status
       (snd (ServerJs.post_api_upload (ServerJs.config Sample.production) Sample.rt
               (Sample.request [Sample.avatar_field]) Sample.empty)) = 400%N.
Proof.
  split; [reflexivity |].
  pose proof (no_image_file_answers_400 Sample.rt
                (Sample.request [Sample.avatar_field]) Sample.empty
                (ServerJs.config Sample.production)
                (Part000.config Sample.production)
                (Part001.config Sample.production) eq_refl) as [H _].
  destruct (ServerJs.post_api_upload _ _ _ _) as [st' res].
  simpl. apply H.
Defined.

(** C7 as worded fails on server.js: a request that carries no file is
    answered 400, but with the message "No file uploaded or invalid file
    type", not "No file uploaded".  And in part_000, whose own message
    is "No file uploaded", a file sent under the field name [avatar]
    leaves the field [image] without a file and is answered 400 with
    multer's "Unexpected field". *)
Lemma server_js_no_file_message_differs :
  carries_file "image" (Sample.request []) = false
  /\ ServerJs.post_api_upload (ServerJs.config Sample.production) Sample.rt
       (Sample.request []) Sample.empty
     = (Sample.empty,
        Http.mkResponse 400
          (Js.VObj [("success", Js.VBool false);
                    ("error", Js.VStr "No file uploaded or invalid file type")]))
  /\ Js.get "error"
       (Http.body (snd (ServerJs.post_api_upload
                          (ServerJs.config Sample.production) Sample.rt
                          (Sample.request []) Sample.empty)))
     <> Some (Js.VStr "No file uploaded")
  /\ carries_file "image" (Sample.request [Sample.avatar_field]) = false
  /\ Part000.post_api_upload (Part000.config Sample.production) Sample.rt
       (Sample.request [Sample.avatar_field]) Sample.empty
     = (Sample.empty,
        Http.mkResponse 400
          (Js.VObj [("success", Js.VBool false);
                    ("error", Js.VStr "Unexpected field")])).
Proof.
  split; [reflexivity |]. split; [reflexivity |].
  split; [vm_compute; discriminate |]. split; reflexivity.
Qed.

Example part_000_no_file :
  Part000.post_api_upload (Part000.config Sample.production) Sample.rt
    (Sample.request []) Sample.empty
  = (Sample.empty,
     Http.mkResponse 400 (Js.VObj [("error", Js.VStr "No file uploaded")])).
Proof. reflexivity. Qed.

Example second_file_is_unexpected :
  ServerJs.post_api_upload (ServerJs.config Sample.production) Sample.rt
    (Sample.request [Sample.photo_png; Sample.other_png]) Sample.empty
  = (Sample.empty,
     Http.mkResponse 400
       (Js.VObj [("success", Js.VBool false);
                 ("error", Js.VStr "Unexpected field")])).
Proof. reflexivity. Qed.

Example file_over_the_limit :
  ServerJs.post_api_upload (ServerJs.mkConfig "/app/uploads" 3 "production")
    Sample.rt (Sample.request [Sample.photo_png]) Sample.empty
  = (Sample.empty,
     Http.mkResponse 400
       (Js.VObj [("success", Js.VBool false);
                 ("error", Js.VStr "File too large")])).
Proof. reflexivity. Qed.

(** ** Requests whose file has a media type outside the allow-list *)

Section DisallowedType.

Variables (rt : Runtime.t) (req : Http.Request) (st : State) (p : Http.Part).
Hypothesis Hfirst : first_file req = Some p.
Hypothesis Hfield : Http.fieldname p = "image".
Hypothesis Hout : ~ In (Http.mimetype p) allow_list.

(** The filter's plain [Error] is not a [MulterError], so the error
    middleware takes its second branch. *)
Lemma ServerJs_disallowed_type (cfg : ServerJs.Config) :
  ServerJs.post_api_upload cfg rt req st
  = (st, Http.status_json 500
           (Js.VObj [("success", Js.VBool false);
                     ("error", Js.VStr "Internal server error");
                     ("details",
                      ServerJs.details cfg
                        (Js.Error "Invalid file type. Only images are allowed (JPEG, PNG, GIF, WEBP)"))])).
Proof.
  assert (Hf : Multer.fileFilter (ServerJs.upload cfg) req p
               = (Some (Js.Error "Invalid file type. Only images are allowed (JPEG, PNG, GIF, WEBP)"),
                  false)).
  { simpl. unfold ServerJs.fileFilter. apply includes_not_In in Hout.
    change ServerJs.allowedTypes with allow_list. now rewrite Hout. }
  unfold ServerJs.post_api_upload, Multer.single.
  rewrite (receive_first_file_refused _ rt req "image" _ 0 (disk st) p _ _
             Hfirst Hfield Hf).
  unfold ServerJs.error_middleware. cbn [Js.instanceof_MulterError].
  now rewrite state_eta.
Qed.

Lemma Part000_disallowed_type (cfg : Part000.Config) :
  Part000.post_api_upload cfg rt req st
  = (st, Http.mkResponse 500
           (Js.VObj [("success", Js.VBool false);
                     ("error", Js.VStr "Something went wrong")])).
Proof.
  assert (Hf : Multer.fileFilter (Part000.upload cfg) req p
               = (Some (Js.Error "Only JPG, PNG, GIF, or WEBP images are allowed"), false)).
  { simpl. unfold Part000.fileFilter. apply includes_not_In in Hout.
    change Part000.allowedTypes with allow_list. now rewrite Hout. }
  unfold Part000.post_api_upload, Multer.single.
  rewrite (receive_first_file_refused _ rt req "image" _ 0 (disk st) p _ _
             Hfirst Hfield Hf).
  simpl. now rewrite state_eta.
Qed.

Lemma Part001_disallowed_type (cfg : Part001.Config) :
  Part001.post_api_upload cfg rt req st
  = (st, Http.mkResponse 500
           (Js.VObj [("success", Js.VBool false);
                     ("error", Js.VStr "Internal server error")])).
Proof.
  assert (Hf : Multer.fileFilter (Part001.upload cfg) req p
               = (Some (Js.Error "Invalid file type. Only JPG, PNG, GIF, or WEBP images are allowed"), false)).
  { simpl. unfold Part001.fileFilter. apply includes_not_In in Hout.
    change Part001.allowedTypes with allow_list. now rewrite Hout. }
  unfold Part001.post_api_upload, Multer.single.
  rewrite (receive_first_file_refused _ rt req "image" _ 0 (disk st) p _ _
             Hfirst Hfield Hf).
  simpl. now rewrite state_eta.
Qed.

End DisallowedType.

(** What the servers do with a file of a disallowed type, in general:
    the request is answered 500, and disk and collection stay as they
    were. *)
Lemma disallowed_type_answers_500 :
  forall (rt : Runtime.t) (req : Http.Request) (st : State) (p : Http.Part)
         (cfgS : ServerJs.Config) (cfg0 : Part000.Config) (cfg1 : Part001.Config),
    first_file req = Some p ->
    Http.fieldname p = "image" ->
    ~ In (Http.mimetype p) allow_list ->
    (fst (ServerJs.post_api_upload cfgS rt req st) = st
     /\ Http.status (snd (ServerJs.post_api_upload cfgS rt req st)) = 500%N)
    /\ (fst (Part000.post_api_upload cfg0 rt req st) = st
        /\ Http.status (snd (Part000.post_api_upload cfg0 rt req st)) = 500%N)
    /\ (fst (Part001.post_api_upload cfg1 rt req st) = st
        /\ Http.status (snd (Part001.post_api_upload cfg1 rt req st)) = 500%N).
Proof.
  intros rt req st p cfgS cfg0 cfg1 H1 H2 H3.
  rewrite (ServerJs_disallowed_type rt req st p H1 H2 H3),
          (Part000_disallowed_type rt req st p H1 H2 H3),
          (Part001_disallowed_type rt req st p H1 H2 H3).
  simpl. repeat split.
Qed.

(** C2 at the upload of [notes.txt], declared [text/plain], in the field
    [image]: no file is written and no record is created, as the claim
    says, but the status is 500 in all three servers where the claim
    says 400. *)
Theorem text_plain_upload_answers_500 :
  ServerJs.post_api_upload (ServerJs.config Sample.production) Sample.rt
      (Sample.request [Sample.notes_txt]) Sample.empty
  = (Sample.empty,
     Http.mkResponse 500
       (Js.VObj [("success", Js.VBool false);
                 ("error", Js.VStr "Internal server error")]))
  /\ Part000.post_api_upload (Part000.config Sample.production) Sample.rt
       (Sample.request [Sample.notes_txt]) Sample.empty
     = (Sample.empty,
        Http.mkResponse 500
          (Js.VObj [("success", Js.VBool false);
                    ("error", Js.VStr "Something went wrong")]))
  /\ Part001.post_api_upload (Part001.config Sample.production) Sample.rt
       (Sample.request [Sample.notes_txt]) Sample.empty
     = (Sample.empty,
        Http.mkResponse 500
          (Js.VObj [("success", Js.VBool false);
                    ("error", Js.VStr "Internal server error")])).
Proof. repeat split. Qed.

(** ** Successful uploads *)

Lemma public_projection_keys (url : string) (img : Mongoose.Image) :
  Js.keys (public_projection url img) = projection_keys.
Proof. reflexivity. Qed.

Lemma stringify_public_projection (url : string) (img : Mongoose.Image) :
  Js.stringify (public_projection url img) = public_projection url img.
Proof. reflexivity. Qed.

Section SuccessfulUpload.

Variables (rt : Runtime.t) (req : Http.Request) (st : State).
Variables (d : Fs.t) (f : Multer.File).
Hypothesis Hsave : Runtime.save_failure rt = None.

Lemma save_created_record (c : Mongoose.collection) :
  Mongoose.save rt f c = (c ++ [created_record rt f], inr (created_record rt f)).
Proof. unfold Mongoose.save. now rewrite Hsave. Qed.

Lemma ServerJs_successful_upload (cfg : ServerJs.Config) :
  Multer.single (ServerJs.upload cfg) "image" rt req (disk st)
  = (d, Multer.Next (Some f)) ->
  ServerJs.post_api_upload cfg rt req st
  = (mkState d (images st ++ [created_record rt f]),
     Http.mkResponse 201
       (Js.VObj [("success", Js.VBool true);
                 ("message", Js.VStr "Image uploaded successfully");
                 ("data",
                  public_projection
                    (ServerJs.imageUrl req (Multer.file_filename f))
                    (created_record rt f))])).
Proof.
  intros Hm. unfold ServerJs.post_api_upload. rewrite Hm.
  unfold ServerJs.upload_handler. rewrite save_created_record. reflexivity.
Qed.

Lemma Part000_successful_upload (cfg : Part000.Config) :
  Multer.single (Part000.upload cfg) "image" rt req (disk st)
  = (d, Multer.Next (Some f)) ->
  Part000.post_api_upload cfg rt req st
  = (mkState d (images st ++ [created_record rt f]),
     Http.mkResponse 201
       (Js.VObj [("success", Js.VBool true);
                 ("message", Js.VStr "Image uploaded successfully");
                 ("image",
                  public_projection
                    (Part000.imageUrl cfg (Multer.file_filename f))
                    (created_record rt f))])).
Proof.
  intros Hm. unfold Part000.post_api_upload. rewrite Hm.
  unfold Part000.upload_handler. rewrite save_created_record. reflexivity.
Qed.

Lemma Part001_successful_upload (cfg : Part001.Config) :
  Multer.single (Part001.upload cfg) "image" rt req (disk st)
  = (d, Multer.Next (Some f)) ->
  Part001.post_api_upload cfg rt req st
  = (mkState d (images st ++ [created_record rt f]),
     Http.mkResponse 201
       (Js.VObj [("success", Js.VBool true);
                 ("message", Js.VStr "Image uploaded successfully");
                 ("data",
                  public_projection
                    (Part001.imageUrl req (Multer.file_filename f))
                    (created_record rt f))])).
Proof.
  intros Hm. unfold Part001.post_api_upload. rewrite Hm.
  unfold Part001.upload_handler. rewrite save_created_record. reflexivity.
Qed.

End SuccessfulUpload.

(** C4. An upload succeeds when multer hands the handler a stored file
    and the save is not rejected.  Each server then answers 201, adds
    exactly the created record to the collection, and its body carries
    (under [data] in server.js and part_001, under [image] in part_000)
    the public projection of that record: the keys id, name, url, size,
    uploadedAt and no others, with name the original name, size the
    stored size and uploadedAt the creation time. *)
Theorem successful_upload_answers_201 :
  forall (rt : Runtime.t) (req : Http.Request) (st : State)
         (cfgS : ServerJs.Config) (cfg0 : Part000.Config) (cfg1 : Part001.Config),
    Runtime.save_failure rt = None ->
    (forall d f,
        Multer.single (ServerJs.upload cfgS) "image" rt req (disk st)
        = (d, Multer.Next (Some f)) ->
        let (st', res) := ServerJs.post_api_upload cfgS rt req st in
        images st' = images st ++ [created_record rt f]
        /\ Http.status res = 201%N
        /\ Js.get "data" (Http.body res)
           = Some (public_projection
                     (ServerJs.imageUrl req (Multer.file_filename f))
                     (created_record rt f)))
    /\ (forall d f,
           Multer.single (Part000.upload cfg0) "image" rt req (disk st)
           = (d, Multer.Next (Some f)) ->
           let (st', res) := Part000.post_api_upload cfg0 rt req st in
           images st' = images st ++ [created_record rt f]
           /\ Http.status res = 201%N
           /\ Js.get "image" (Http.body res)
              = Some (public_projection
                        (Part000.imageUrl cfg0 (Multer.file_filename f))
                        (created_record rt f)))
    /\ (forall d f,
           Multer.single (Part001.upload cfg1) "image" rt req (disk st)
           = (d, Multer.Next (Some f)) ->
           let (st', res) := Part001.post_api_upload cfg1 rt req st in
           images st' = images st ++ [created_record rt f]
           /\ Http.status res = 201%N
           /\ Js.get "data" (Http.body res)
              = Some (public_projection
                        (Part001.imageUrl req (Multer.file_filename f))
                        (created_record rt f)))
    /\ (forall url img,
           Js.keys (public_projection url img) = projection_keys
           /\ Js.get "name" (public_projection url img)
              = Some (Js.VStr (Mongoose.originalname img))
           /\ Js.get "size" (public_projection url img)
              = Some (Js.VNum (Mongoose.size img))
           /\ Js.get "uploadedAt" (public_projection url img)
              = Some (Js.VDate (Mongoose.createdAt img))).
Proof.
  intros rt req st cfgS cfg0 cfg1 Hsave.
  split; [| split; [| split]].
  - intros d f Hm.
    rewrite (ServerJs_successful_upload rt req st d f Hsave cfgS Hm).
    repeat split.
  - intros d f Hm.
    rewrite (Part000_successful_upload rt req st d f Hsave cfg0 Hm).
    repeat split.
  - intros d f Hm.
    rewrite (Part001_successful_upload rt req st d f Hsave cfg1 Hm).
    repeat split.
  - intros url img. repeat split.
Qed.

(** C4 at the upload of [photo.png], four bytes declared [image/png]. *)
Lemma successful_upload_answers_201_witness :
  Runtime.save_failure Sample.rt = None
  /\ Http.status
       (snd (ServerJs.post_api_upload (ServerJs.config Sample.production)
               Sample.rt (Sample.request [Sample.photo_png]) Sample.empty)) = 201%N
  /\ Http.status
       (snd (Part000.post_api_upload (Part000.config Sample.production)
               Sample.rt (Sample.request [Sample.photo_png]) Sample.empty)) = 201%N
  /\ Http.status
       (snd (Part001.post_api_upload (Part001.config Sample.production)
               Sample.rt (Sample.request [Sample.photo_png]) Sample.empty)) = 201%N.
Proof.
  split; [reflexivity |].
  destruct (successful_upload_answers_201 Sample.rt
              (Sample.request [Sample.photo_png]) Sample.empty
              (ServerJs.config Sample.production)
              (Part000.config Sample.production)
              (Part001.config Sample.production) eq_refl)
    as [HS [H0 [H1 _]]].
  split; [| split].
  - specialize (HS _ _ eq_refl).
    destruct (ServerJs.post_api_upload _ _ _ _) as [st' res]. apply HS.
  - specialize (H0 _ _ eq_refl).
    destruct (Part000.post_api_upload _ _ _ _) as [st' res]. apply H0.
  - specialize (H1 _ _ eq_refl).
    destruct (Part001.post_api_upload _ _ _ _) as [st' res]. apply H1.
Defined.

Example photo_png_upload_body :
  snd (ServerJs.post_api_upload (ServerJs.config Sample.production)
         Sample.rt (Sample.request [Sample.photo_png]) Sample.empty)
  = Http.mkResponse 201
      (Js.VObj [("success", Js.VBool true);
                ("message", Js.VStr "Image uploaded successfully");
                ("data",
                 Js.VObj [("id", Js.VId "65a1f0c2e4b0a1b2c3d4e5f6");
                          ("name", Js.VStr "photo.png");
                          ("url", Js.VStr "https://img.example.com/uploads/1700000000000-42.png");
                          ("size", Js.VNum 4);
                          ("uploadedAt", Js.VDate 1700000000005)])]).
Proof. reflexivity. Qed.

Example photo_png_upload_state :
  fst (ServerJs.post_api_upload (ServerJs.config Sample.production)
         Sample.rt (Sample.request [Sample.photo_png]) Sample.empty)
  = mkState [("/app/uploads/1700000000000-42.png", Sample.png_bytes)]
            [Mongoose.mkImage "65a1f0c2e4b0a1b2c3d4e5f6" "1700000000000-42.png"
                              "photo.png" "/app/uploads/1700000000000-42.png"
                              4 "image/png" 1700000000005].
Proof. reflexivity. Qed.

(** ** Listing *)

Lemma stringify_projections (url : Mongoose.Image -> string)
      (l : list Mongoose.Image) :
  map (fun x => if Js.is_undefined x then Js.VNull else Js.stringify x)
      (map (fun img => public_projection (url img) img) l)
  = map (fun img => public_projection (url img) img) l.
Proof. rewrite map_map. apply map_ext. reflexivity. Qed.

Section SuccessfulList.

Variables (rt : Runtime.t) (req : Http.Request) (st : State).
Hypothesis Hfind : Runtime.find_failure rt = None.

Lemma find_sorted_ok :
  Mongoose.find_sorted rt (images st) = inr (Mongoose.sort_desc (images st)).
Proof. unfold Mongoose.find_sorted. now rewrite Hfind. Qed.

Lemma ServerJs_list (cfg : ServerJs.Config) :
  ServerJs.get_api_images cfg rt req st
  = Http.mkResponse 200
      (Js.VObj
         [("success", Js.VBool true);
          ("count", Js.VNum (N.of_nat (List.length (Mongoose.sort_desc (images st)))));
          ("images",
           Js.VArr (map (fun img =>
                           public_projection
                             (ServerJs.imageUrl req (Mongoose.filename img)) img)
                        (Mongoose.sort_desc (images st))))]).
Proof.
  unfold ServerJs.get_api_images. rewrite find_sorted_ok.
  unfold Http.json, Http.status_json. rewrite length_map. simpl.
  change (fun img : Mongoose.Image => Js.VObj _)
    with (fun img => public_projection
                       (ServerJs.imageUrl req (Mongoose.filename img)) img).
  now rewrite stringify_projections.
Qed.

Lemma Part000_list (cfg : Part000.Config) :
  Part000.get_api_images cfg rt req st
  = Http.mkResponse 200
      (Js.VObj
         [("success", Js.VBool true);
          ("count", Js.VNum (N.of_nat (List.length (Mongoose.sort_desc (images st)))));
          ("images",
           Js.VArr (map (fun img =>
                           public_projection
                             (Part000.imageUrl cfg (Mongoose.filename img)) img)
                        (Mongoose.sort_desc (images st))))]).
Proof.
  unfold Part000.get_api_images. rewrite find_sorted_ok.
  unfold Http.json, Http.status_json. simpl.
  change (fun img : Mongoose.Image => Js.VObj _)
    with (fun img => public_projection
                       (Part000.imageUrl cfg (Mongoose.filename img)) img).
  now rewrite stringify_projections.
Qed.

Lemma Part001_list (cfg : Part001.Config) :
  Part001.get_api_images cfg rt req st
  = Http.mkResponse 200
      (Js.VObj
         [("success", Js.VBool true);
          ("count", Js.VNum (N.of_nat (List.length (Mongoose.sort_desc (images st)))));
          ("data",
           Js.VArr (map (fun img =>
                           public_projection
                             (Part001.imageUrl req (Mongoose.filename img)) img)
                        (Mongoose.sort_desc (images st))))]).
Proof.
  unfold Part001.get_api_images. rewrite find_sorted_ok.
  unfold Http.json, Http.status_json. rewrite length_map. simpl.
  change (fun img : Mongoose.Image => Js.VObj _)
    with (fun img => public_projection
                       (Part001.imageUrl req (Mongoose.filename img)) img).
  now rewrite stringify_projections.
Qed.

End SuccessfulList.

(** C6, as the code has it.  A list request whose query is not rejected
    is answered 200 with a body of exactly three keys: success, count,
    and the array of per-record projections [{id, name, url, size,
    uploadedAt}], newest first.  The array sits under [images] in
    server.js and part_000 and under [data] in part_001; count is the
    number of its elements. *)
Theorem list_answers_200_with_projections :
  forall (rt : Runtime.t) (req : Http.Request) (st : State)
         (cfgS : ServerJs.Config) (cfg0 : Part000.Config) (cfg1 : Part001.Config),
    Runtime.find_failure rt = None ->
    (let res := ServerJs.get_api_images cfgS rt req st in
     let items := map (fun img =>
                         public_projection
                           (ServerJs.imageUrl req (Mongoose.filename img)) img)
                      (Mongoose.sort_desc (images st)) in
     Http.status res = 200%N
     /\ Js.keys (Http.body res) = ["success"; "count"; "images"]
     /\ Js.get "success" (Http.body res) = Some (Js.VBool true)
     /\ Js.get "images" (Http.body res) = Some (Js.VArr items)
     /\ Js.get "count" (Http.body res)
        = Some (Js.VNum (N.of_nat (List.length items))))
    /\ (let res := Part000.get_api_images cfg0 rt req st in
        let items := map (fun img =>
                            public_projection
                              (Part000.imageUrl cfg0 (Mongoose.filename img)) img)
                         (Mongoose.sort_desc (images st)) in
        Http.status res = 200%N
        /\ Js.keys (Http.body res) = ["success"; "count"; "images"]
        /\ Js.get "success" (Http.body res) = Some (Js.VBool true)
        /\ Js.get "images" (Http.body res) = Some (Js.VArr items)
        /\ Js.get "count" (Http.body res)
           = Some (Js.VNum (N.of_nat (List.length items))))
    /\ (let res := Part001.get_api_images cfg1 rt req st in
        let items := map (fun img =>
                            public_projection
                              (Part001.imageUrl req (Mongoose.filename img)) img)
                         (Mongoose.sort_desc (images st)) in
        Http.status res = 200%N
        /\ Js.keys (Http.body res) = ["success"; "count"; "data"]
        /\ Js.get "success" (Http.body res) = Some (Js.VBool true)
        /\ Js.get "data" (Http.body res) = Some (Js.VArr items)
        /\ Js.get "count" (Http.body res)
           = Some (Js.VNum (N.of_nat (List.length items)))).
Proof.
  intros rt req st cfgS cfg0 cfg1 Hfind.
  rewrite (ServerJs_list rt req st Hfind), (Part000_list rt req st Hfind),
          (Part001_list rt req st Hfind).
  cbv zeta. rewrite !length_map. simpl. repeat split.
Qed.

(** C6 on a collection of two records. *)
Lemma list_answers_200_with_projections_witness :
  Runtime.find_failure Sample.rt = None
  /\ Js.get "count"
       (Http.body (ServerJs.get_api_images (ServerJs.config Sample.production)
                     Sample.rt (Sample.request []) Sample.two_images))
     = Some (Js.VNum 2).
Proof.
  split; [reflexivity |].
  destruct (list_answers_200_with_projections Sample.rt (Sample.request [])
              Sample.two_images (ServerJs.config Sample.production)
              (Part000.config Sample.production)
              (Part001.config Sample.production) eq_refl)
    as [[_ [_ [_ [_ Hcount]]]] _].
  exact Hcount.
Defined.

(** C6 as worded fails on part_001: the body of a successful list has no
    [images] key; the projections sit under [data]. *)
Lemma part_001_list_has_no_images_key :
  Runtime.find_failure Sample.rt = None
  /\ Http.status (Part001.get_api_images (Part001.config Sample.production)
                    Sample.rt (Sample.request []) Sample.two_images) = 200%N
  /\ Js.get "images"
       (Http.body (Part001.get_api_images (Part001.config Sample.production)
                     Sample.rt (Sample.request []) Sample.two_images))
     = None
  /\ Js.keys
       (Http.body (Part001.get_api_images (Part001.config Sample.production)
                     Sample.rt (Sample.request []) Sample.two_images))
     = ["success"; "count"; "data"].
Proof. repeat split. Qed.

Example list_two_images :
  ServerJs.get_api_images (ServerJs.config Sample.production)
    Sample.rt (Sample.request []) Sample.two_images
  = Http.mkResponse 200
      (Js.VObj
         [("success", Js.VBool true);
          ("count", Js.VNum 2);
          ("images",
           Js.VArr
             [Js.VObj [("id", Js.VId "id-2"); ("name", Js.VStr "b.gif");
                       ("url", Js.VStr "https://img.example.com/uploads/img-2.gif");
                       ("size", Js.VNum 20); ("uploadedAt", Js.VDate 200)];
              Js.VObj [("id", Js.VId "id-1"); ("name", Js.VStr "a.png");
                       ("url", Js.VStr "https://img.example.com/uploads/img-1.png");
                       ("size", Js.VNum 10); ("uploadedAt", Js.VDate 100)]])]).
Proof. reflexivity. Qed.

Example list_query_rejected :
  ServerJs.get_api_images (ServerJs.config Sample.development)
    Sample.rt_find_fails (Sample.request []) Sample.two_images
  = Http.mkResponse 500
      (Js.VObj [("success", Js.VBool false);
                ("error", Js.VStr "Failed to fetch images");
                ("details", Js.VStr "connection lost")]).
Proof. reflexivity. Qed.

Example list_empty :
  ServerJs.get_api_images (ServerJs.config Sample.production)
    Sample.rt (Sample.request []) Sample.empty
  = Http.mkResponse 200
      (Js.VObj [("success", Js.VBool true); ("count", Js.VNum 0);
                ("images", Js.VArr [])]).
Proof. reflexivity. Qed.

(** ** Error details *)

Lemma ServerJs_config_NODE_ENV (pe : Process.env) (mode : string) :
  Process.NODE_ENV pe = Some mode -> mode <> "" ->
  ServerJs.NODE_ENV (ServerJs.config pe) = mode.
Proof.
  intros H Hne. simpl. rewrite H. simpl.
  destruct (String.eqb mode "") eqn:E; [| reflexivity].
  apply String.eqb_eq in E. contradiction.
Qed.

Lemma ServerJs_config_default_mode (pe : Process.env) :
  Process.NODE_ENV pe = None ->
  ServerJs.NODE_ENV (ServerJs.config pe) = "development".
Proof. intros H. simpl. now rewrite H. Qed.

Lemma ServerJs_details_hidden (cfg : ServerJs.Config) (err : Js.error) :
  ServerJs.NODE_ENV cfg = "production" ->
  ServerJs.details cfg err = Js.VUndefined.
Proof. intros H. unfold ServerJs.details. now rewrite H. Qed.

Lemma ServerJs_details_shown (cfg : ServerJs.Config) (err : Js.error) :
  ServerJs.NODE_ENV cfg = "development" ->
  ServerJs.details cfg err = Js.VStr (Js.message err).
Proof. intros H. unfold ServerJs.details. now rewrite H. Qed.

Lemma ServerJs_no_details (cfg : ServerJs.Config) (rt : Runtime.t)
      (req : Http.Request) (st : State) (err : Js.error) :
  ServerJs.NODE_ENV cfg = "production" ->
  Js.get "details" (Http.body (snd (ServerJs.post_api_upload cfg rt req st))) = None
  /\ Js.get "details" (Http.body (ServerJs.get_api_images cfg rt req st)) = None
  /\ Js.get "details" (Http.body (ServerJs.error_middleware cfg err)) = None.
Proof.
  intros Hmode.
  assert (Hmw : forall e,
             Js.get "details" (Http.body (ServerJs.error_middleware cfg e)) = None).
  { intros e. unfold ServerJs.error_middleware.
    rewrite ServerJs_details_hidden by assumption. now destruct e. }
  split; [| split].
  - unfold ServerJs.post_api_upload.
    destruct (Multer.single _ _ _ _ _) as [d [file | e]]; [| apply Hmw].
    unfold ServerJs.upload_handler, Mongoose.save.
    destruct file as [f |]; [| reflexivity].
    destruct (Runtime.save_failure rt) as [msg |]; [| reflexivity].
    simpl. now rewrite ServerJs_details_hidden.
  - unfold ServerJs.get_api_images, Mongoose.find_sorted.
    destruct (Runtime.find_failure rt) as [msg |]; [| reflexivity].
    simpl. now rewrite ServerJs_details_hidden.
  - apply Hmw.
Qed.

Lemma Part000_no_details (cfg : Part000.Config) (rt : Runtime.t)
      (req : Http.Request) (st : State) (err : Js.error) :
  Js.get "details" (Http.body (snd (Part000.post_api_upload cfg rt req st))) = None
  /\ Js.get "details" (Http.body (Part000.get_api_images cfg rt req st)) = None
  /\ Js.get "details" (Http.body (Part000.error_middleware cfg err)) = None.
Proof.
  split; [| split].
  - unfold Part000.post_api_upload.
    destruct (Multer.single _ _ _ _ _) as [d [file | e]]; [| now destruct e].
    unfold Part000.upload_handler, Mongoose.save.
    destruct file as [f |]; [| reflexivity].
    now destruct (Runtime.save_failure rt).
  - unfold Part000.get_api_images, Mongoose.find_sorted.
    now destruct (Runtime.find_failure rt).
  - now destruct err.
Qed.

Lemma Part001_no_details (cfg : Part001.Config) (rt : Runtime.t)
      (req : Http.Request) (st : State) (err : Js.error) :
  Js.get "details" (Http.body (snd (Part001.post_api_upload cfg rt req st))) = None
  /\ Js.get "details" (Http.body (Part001.get_api_images cfg rt req st)) = None
  /\ Js.get "details" (Http.body (Part001.error_middleware cfg err)) = None.
Proof.
  split; [| split].
  - unfold Part001.post_api_upload.
    destruct (Multer.single _ _ _ _ _) as [d [file | e]]; [| now destruct e].
    unfold Part001.upload_handler, Mongoose.save.
    destruct file as [f |]; [| reflexivity].
    now destruct (Runtime.save_failure rt).
  - unfold Part001.get_api_images, Mongoose.find_sorted.
    now destruct (Runtime.find_failure rt).
  - now destruct err.
Qed.

(** C8. With [NODE_ENV=production] no response of any of the three
    servers has a [details] field, whichever error lies underneath: not
    the answers of the upload route (its own catch branch included), not
    those of the list route, not those of the error middleware.  The
    field is therefore the same, namely absent, for any two underlying
    errors.  Outside production the raw message may show: server.js in
    development mode (also the default when [NODE_ENV] is unset) puts
    [err.message] into [details] in the catch branch of the upload
    handler and in the error middleware. *)
Theorem details_suppressed_in_production :
  forall (pe : Process.env) (rt : Runtime.t) (req : Http.Request) (st : State)
         (err : Js.error),
    Process.NODE_ENV pe = Some "production" ->
    (Js.get "details"
       (Http.body (snd (ServerJs.post_api_upload (ServerJs.config pe) rt req st))) = None
     /\ Js.get "details"
          (Http.body (ServerJs.get_api_images (ServerJs.config pe) rt req st)) = None
     /\ Js.get "details"
          (Http.body (ServerJs.error_middleware (ServerJs.config pe) err)) = None)
    /\ (Js.get "details"
          (Http.body (snd (Part000.post_api_upload (Part000.config pe) rt req st))) = None
        /\ Js.get "details"
             (Http.body (Part000.get_api_images (Part000.config pe) rt req st)) = None
        /\ Js.get "details"
             (Http.body (Part000.error_middleware (Part000.config pe) err)) = None)
    /\ (Js.get "details"
          (Http.body (snd (Part001.post_api_upload (Part001.config pe) rt req st))) = None
        /\ Js.get "details"
             (Http.body (Part001.get_api_images (Part001.config pe) rt req st)) = None
        /\ Js.get "details"
             (Http.body (Part001.error_middleware (Part001.config pe) err)) = None)
    /\ (forall (pe' : Process.env) (msg : string) (f : Multer.File)
               (c : Mongoose.collection),
           Process.NODE_ENV pe' = Some "development" \/ Process.NODE_ENV pe' = None ->
           Runtime.save_failure rt = Some msg ->
           Js.get "details"
             (Http.body (snd (ServerJs.upload_handler (ServerJs.config pe') rt req
                                (Some f) c)))
           = Some (Js.VStr msg)
           /\ Js.get "details"
                (Http.body (ServerJs.error_middleware (ServerJs.config pe')
                              (Js.Error msg)))
              = Some (Js.VStr msg)).
Proof.
  intros pe rt req st err Hprod.
  split; [| split; [| split]].
  - apply ServerJs_no_details.
    apply ServerJs_config_NODE_ENV; [assumption | discriminate].
  - apply Part000_no_details.
  - apply Part001_no_details.
  - intros pe' msg f c Hdev Hfail.
    assert (Hmode : ServerJs.NODE_ENV (ServerJs.config pe') = "development").
    { destruct Hdev as [Hdev | Hdev].
      - apply ServerJs_config_NODE_ENV; [assumption | discriminate].
      - now apply ServerJs_config_default_mode. }
    split.
    + unfold ServerJs.upload_handler, Mongoose.save. rewrite Hfail.
      cbn [snd]. unfold Http.status_json. cbn [Http.body].
      rewrite ServerJs_details_shown by assumption. reflexivity.
    + unfold ServerJs.error_middleware. cbn [Js.instanceof_MulterError].
      unfold Http.status_json. cbn [Http.body].
      rewrite ServerJs_details_shown by assumption. reflexivity.
Qed.

(** C8 at a production deployment whose database rejects the save. *)
Lemma details_suppressed_in_production_witness :
  Process.NODE_ENV Sample.production = Some "production"
  /\ Http.status
       (snd (ServerJs.post_api_upload (ServerJs.config Sample.production)
               Sample.rt_save_fails (Sample.request [Sample.photo_png])
               Sample.empty)) = 500%N
  /\ Js.get "details"
       (Http.body
          (snd (ServerJs.post_api_upload (ServerJs.config Sample.production)
                  Sample.rt_save_fails (Sample.request [Sample.photo_png])
                  Sample.empty))) = None.
Proof.
  split; [reflexivity |]. split; [reflexivity |].
  apply (details_suppressed_in_production Sample.production Sample.rt_save_fails
           (Sample.request [Sample.photo_png]) Sample.empty
           (Js.Error "connection lost") eq_refl).
Defined.

Example development_shows_details :
  snd (ServerJs.post_api_upload (ServerJs.config Sample.development)
         Sample.rt_save_fails (Sample.request [Sample.photo_png]) Sample.empty)
  = Http.mkResponse 500
      (Js.VObj [("success", Js.VBool false);
                ("error", Js.VStr "Server error during upload");
                ("details", Js.VStr "connection lost")]).
Proof. reflexivity. Qed.

Example part_000_shows_message_as_error :
  snd (Part000.post_api_upload (Part000.config Sample.production)
         Sample.rt_save_fails (Sample.request [Sample.photo_png]) Sample.empty)
  = Http.mkResponse 500
      (Js.VObj [("success", Js.VBool false);
                ("error", Js.VStr "connection lost")]).
Proof. reflexivity. Qed.

(** ** The list operation *)

Lemma insert_desc_perm (x : Mongoose.Image) (l : list Mongoose.Image) :
  Permutation (x :: l) (Mongoose.insert_desc x l).
Proof.
  induction l as [| y l IH]; simpl.
  - apply Permutation_refl.
  - destruct (N.leb _ _).
    + apply Permutation_refl.
    + eapply perm_trans; [apply perm_swap |]. now apply perm_skip.
Qed.

Lemma sort_desc_perm (l : list Mongoose.Image) :
  Permutation l (Mongoose.sort_desc l).
Proof.
  induction l as [| x l IH]; simpl.
  - apply perm_nil.
  - eapply perm_trans; [apply perm_skip, IH | apply insert_desc_perm].
Qed.

Lemma sort_desc_length (l : list Mongoose.Image) :
  List.length (Mongoose.sort_desc l) = List.length l.
Proof. symmetry. apply Permutation_length, sort_desc_perm. Qed.

Lemma insert_desc_sorted (x : Mongoose.Image) (l : list Mongoose.Image) :
  StronglySorted newer_or_same l ->
  StronglySorted newer_or_same (Mongoose.insert_desc x l).
Proof.
  induction 1 as [| y l Hsorted IH Hall]; simpl.
  - repeat constructor.
  - destruct (N.leb (Mongoose.createdAt y) (Mongoose.createdAt x)) eqn:Hle.
    + apply N.leb_le in Hle. constructor.
      * now constructor.
      * constructor; [exact Hle |].
        eapply Forall_impl; [| exact Hall].
        unfold newer_or_same. intros z Hz. lia.
    + apply N.leb_gt in Hle. constructor; [exact IH |].
      eapply Permutation_Forall; [apply insert_desc_perm |].
      constructor; [unfold newer_or_same; lia | exact Hall].
Qed.

Lemma sort_desc_sorted (l : list Mongoose.Image) :
  StronglySorted newer_or_same (Mongoose.sort_desc l).
Proof.
  induction l as [| x l IH]; simpl.
  - constructor.
  - now apply insert_desc_sorted.
Qed.

Lemma ServerJs_counts_records (cfg : ServerJs.Config) :
  counts_records (ServerJs.post_api_upload cfg).
Proof.
  intros rt req st. unfold ServerJs.post_api_upload.
  destruct (Multer.single _ _ _ _ _) as [d [file | e]].
  - unfold ServerJs.upload_handler, Mongoose.save.
    destruct file as [f |]; [| discriminate].
    destruct (Runtime.save_failure rt); [discriminate |].
    simpl. intros _. rewrite length_app. simpl. lia.
  - unfold ServerJs.error_middleware. destruct e; discriminate.
Qed.

Lemma Part000_counts_records (cfg : Part000.Config) :
  counts_records (Part000.post_api_upload cfg).
Proof.
  intros rt req st. unfold Part000.post_api_upload.
  destruct (Multer.single _ _ _ _ _) as [d [file | e]].
  - unfold Part000.upload_handler, Mongoose.save.
    destruct file as [f |]; [| discriminate].
    destruct (Runtime.save_failure rt); [discriminate |].
    simpl. intros _. rewrite length_app. simpl. lia.
  - unfold Part000.error_middleware. destruct e; discriminate.
Qed.

Lemma Part001_counts_records (cfg : Part001.Config) :
  counts_records (Part001.post_api_upload cfg).
Proof.
  intros rt req st. unfold Part001.post_api_upload.
  destruct (Multer.single _ _ _ _ _) as [d [file | e]].
  - unfold Part001.upload_handler, Mongoose.save.
    destruct file as [f |]; [| discriminate].
    destruct (Runtime.save_failure rt); [discriminate |].
    simpl. intros _. rewrite length_app. simpl. lia.
  - unfold Part001.error_middleware. destruct e; discriminate.
Qed.

Lemma run_uploads_count
      (post : Runtime.t -> Http.Request -> State -> State * Http.Response) :
  counts_records post ->
  forall reqs st,
    Forall (fun res => Http.status res = 201%N) (snd (run_uploads post reqs st)) ->
    List.length (images (fst (run_uploads post reqs st)))
    = List.length (images st) + List.length reqs.
Proof.
  intros Hpost reqs. induction reqs as [| [rt req] reqs IH]; intros st Hall; simpl in *.
  - lia.
  - specialize (Hpost rt req st).
    destruct (post rt req st) as [st1 r] eqn:E1.
    specialize (IH st1).
    destruct (run_uploads post reqs st1) as [st2 rs] eqn:E2.
    simpl in *. inversion Hall as [| ? ? H201 Hrest]; subst.
    rewrite IH by assumption. rewrite Hpost by assumption. lia.
Qed.

(** C3. A list query that is not rejected returns every stored record,
    each once (the result is a permutation of the collection), ordered
    by [createdAt] descending.  The list route of each server answers
    200 with exactly these records in exactly this order: its array
    (under [images] in server.js and part_000, under [data] in part_001)
    holds, position by position, the public fields of a permutation of
    the collection that is sorted newest first.  After N uploads
    answered 201 on an empty collection the query returns exactly N
    records, and the list route of the same server reports the count N
    and an array of N items. *)
Theorem listAll_newest_first_and_complete :
  forall (rt : Runtime.t),
    Runtime.find_failure rt = None ->
    (forall c : Mongoose.collection,
        exists l,
          Mongoose.find_sorted rt c = inr l
          /\ Permutation c l
          /\ StronglySorted newer_or_same l
          /\ List.length l = List.length c)
    /\ (forall (st : State) (req : Http.Request)
               (cfgS : ServerJs.Config) (cfg0 : Part000.Config)
               (cfg1 : Part001.Config),
           exists l,
             Permutation (images st) l
             /\ StronglySorted newer_or_same l
             /\ Http.status (ServerJs.get_api_images cfgS rt req st) = 200%N
             /\ Js.get "images" (Http.body (ServerJs.get_api_images cfgS rt req st))
                = Some (Js.VArr
                          (map (fun img =>
                                  public_projection
                                    (ServerJs.imageUrl req (Mongoose.filename img)) img)
                               l))
             /\ Http.status (Part000.get_api_images cfg0 rt req st) = 200%N
             /\ Js.get "images" (Http.body (Part000.get_api_images cfg0 rt req st))
                = Some (Js.VArr
                          (map (fun img =>
                                  public_projection
                                    (Part000.imageUrl cfg0 (Mongoose.filename img)) img)
                               l))
             /\ Http.status (Part001.get_api_images cfg1 rt req st) = 200%N
             /\ Js.get "data" (Http.body (Part001.get_api_images cfg1 rt req st))
                = Some (Js.VArr
                          (map (fun img =>
                                  public_projection
                                    (Part001.imageUrl req (Mongoose.filename img)) img)
                               l)))
    /\ (forall (reqs : list (Runtime.t * Http.Request)) (st : State)
               (req : Http.Request)
               (cfgS : ServerJs.Config) (cfg0 : Part000.Config)
               (cfg1 : Part001.Config),
           images st = [] ->
           (Forall (fun res => Http.status res = 201%N)
                   (snd (run_uploads (ServerJs.post_api_upload cfgS) reqs st)) ->
            let st' := fst (run_uploads (ServerJs.post_api_upload cfgS) reqs st) in
            (exists l, Mongoose.find_sorted rt (images st') = inr l
                       /\ List.length l = List.length reqs)
            /\ Js.get "count" (Http.body (ServerJs.get_api_images cfgS rt req st'))
               = Some (Js.VNum (N.of_nat (List.length reqs)))
            /\ (exists items,
                   Js.get "images" (Http.body (ServerJs.get_api_images cfgS rt req st'))
                   = Some (Js.VArr items)
                   /\ List.length items = List.length reqs))
           /\ (Forall (fun res => Http.status res = 201%N)
                   (snd (run_uploads (Part000.post_api_upload cfg0) reqs st)) ->
            let st' := fst (run_uploads (Part000.post_api_upload cfg0) reqs st) in
            (exists l, Mongoose.find_sorted rt (images st') = inr l
                       /\ List.length l = List.length reqs)
            /\ Js.get "count" (Http.body (Part000.get_api_images cfg0 rt req st'))
               = Some (Js.VNum (N.of_nat (List.length reqs)))
            /\ (exists items,
                   Js.get "images" (Http.body (Part000.get_api_images cfg0 rt req st'))
                   = Some (Js.VArr items)
                   /\ List.length items = List.length reqs))
           /\ (Forall (fun res => Http.status res = 201%N)
                   (snd (run_uploads (Part001.post_api_upload cfg1) reqs st)) ->
            let st' := fst (run_uploads (Part001.post_api_upload cfg1) reqs st) in
            (exists l, Mongoose.find_sorted rt (images st') = inr l
                       /\ List.length l = List.length reqs)
            /\ Js.get "count" (Http.body (Part001.get_api_images cfg1 rt req st'))
               = Some (Js.VNum (N.of_nat (List.length reqs)))
            /\ (exists items,
                   Js.get "data" (Http.body (Part001.get_api_images cfg1 rt req st'))
                   = Some (Js.VArr items)
                   /\ List.length items = List.length reqs))).
Proof.
  intros rt Hfind. split; [| split].
  - intros c. exists (Mongoose.sort_desc c).
    unfold Mongoose.find_sorted. rewrite Hfind.
    repeat split.
    + apply sort_desc_perm.
    + apply sort_desc_sorted.
    + apply sort_desc_length.
  - intros st req cfgS cfg0 cfg1. exists (Mongoose.sort_desc (images st)).
    rewrite (ServerJs_list rt req st Hfind cfgS),
            (Part000_list rt req st Hfind cfg0),
            (Part001_list rt req st Hfind cfg1).
    split; [apply sort_desc_perm |]. split; [apply sort_desc_sorted |].
    repeat split.
  - intros reqs st req cfgS cfg0 cfg1 Hempty.
    split; [| split]; intros Hall; cbv zeta.
    + pose proof (run_uploads_count _ (ServerJs_counts_records cfgS) reqs st Hall) as Hn.
      rewrite Hempty in Hn. simpl in Hn. split; [| split].
      * exists (Mongoose.sort_desc
                  (images (fst (run_uploads (ServerJs.post_api_upload cfgS) reqs st)))).
        unfold Mongoose.find_sorted. rewrite Hfind.
        split; [reflexivity |]. now rewrite sort_desc_length.
      * rewrite (ServerJs_list rt req _ Hfind). simpl.
        now rewrite sort_desc_length, Hn.
      * rewrite (ServerJs_list rt req _ Hfind). simpl.
        eexists. split; [reflexivity |].
        now rewrite length_map, sort_desc_length.
    + pose proof (run_uploads_count _ (Part000_counts_records cfg0) reqs st Hall) as Hn.
      rewrite Hempty in Hn. simpl in Hn. split; [| split].
      * exists (Mongoose.sort_desc
                  (images (fst (run_uploads (Part000.post_api_upload cfg0) reqs st)))).
        unfold Mongoose.find_sorted. rewrite Hfind.
        split; [reflexivity |]. now rewrite sort_desc_length.
      * rewrite (Part000_list rt req _ Hfind). simpl.
        now rewrite sort_desc_length, Hn.
      * rewrite (Part000_list rt req _ Hfind). simpl.
        eexists. split; [reflexivity |].
        now rewrite length_map, sort_desc_length.
    + pose proof (run_uploads_count _ (Part001_counts_records cfg1) reqs st Hall) as Hn.
      rewrite Hempty in Hn. simpl in Hn. split; [| split].
      * exists (Mongoose.sort_desc
                  (images (fst (run_uploads (Part001.post_api_upload cfg1) reqs st)))).
        unfold Mongoose.find_sorted. rewrite Hfind.
        split; [reflexivity |]. now rewrite sort_desc_length.
      * rewrite (Part001_list rt req _ Hfind). simpl.
        now rewrite sort_desc_length, Hn.
      * rewrite (Part001_list rt req _ Hfind). simpl.
        eexists. split; [reflexivity |].
        now rewrite length_map, sort_desc_length.
Qed.

(** C3 after two uploads of [photo.png] at different times: the list
    route names the later upload first. *)
Lemma listAll_newest_first_and_complete_witness :
  Runtime.find_failure Sample.rt = None
  /\ images Sample.empty = []
  /\ Forall (fun res => Http.status res = 201%N)
            (snd (run_uploads (ServerJs.post_api_upload (ServerJs.config Sample.production))
                    [(Sample.rt, Sample.request [Sample.photo_png]);
                     (Sample.rt_later, Sample.request [Sample.other_png])]
                    Sample.empty))
  /\ Js.get "count"
       (Http.body
          (ServerJs.get_api_images (ServerJs.config Sample.production) Sample.rt
             (Sample.request [])
             (fst (run_uploads (ServerJs.post_api_upload (ServerJs.config Sample.production))
                     [(Sample.rt, Sample.request [Sample.photo_png]);
                      (Sample.rt_later, Sample.request [Sample.other_png])]
                     Sample.empty))))
     = Some (Js.VNum 2)
  /\ (exists l,
        Permutation [Sample.older; Sample.newer; Sample.older] l
        /\ StronglySorted newer_or_same l
        /\ Js.get "data"
             (Http.body
                (Part001.get_api_images (Part001.config Sample.production) Sample.rt
                   (Sample.request [])
                   (mkState [] [Sample.older; Sample.newer; Sample.older])))
           = Some (Js.VArr
                     (map (fun img =>
                             public_projection
                               (Part001.imageUrl (Sample.request [])
                                  (Mongoose.filename img)) img)
                          l))).
Proof.
  split; [reflexivity |]. split; [reflexivity |].
  assert (Hall : Forall (fun res => Http.status res = 201%N)
            (snd (run_uploads (ServerJs.post_api_upload (ServerJs.config Sample.production))
                    [(Sample.rt, Sample.request [Sample.photo_png]);
                     (Sample.rt_later, Sample.request [Sample.other_png])]
                    Sample.empty))).
  { repeat constructor. }
  split; [exact Hall |].
  destruct (listAll_newest_first_and_complete Sample.rt eq_refl)
    as (_ & Hlist & Hruns).
  split.
  - destruct (Hruns [(Sample.rt, Sample.request [Sample.photo_png]);
                     (Sample.rt_later, Sample.request [Sample.other_png])]
                    Sample.empty (Sample.request [])
                    (ServerJs.config Sample.production)
                    (Part000.config Sample.production)
                    (Part001.config Sample.production) eq_refl)
      as [HS _].
    exact (proj1 (proj2 (HS Hall))).
  - destruct (Hlist (mkState [] [Sample.older; Sample.newer; Sample.older])
                    (Sample.request [])
                    (ServerJs.config Sample.production)
                    (Part000.config Sample.production)
                    (Part001.config Sample.production))
      as (l & Hperm & Hsorted & _ & _ & _ & _ & _ & Hdata).
    exists l. now split; [| split].
Defined.

Example sort_desc_example :
  Mongoose.sort_desc [Sample.older; Sample.newer; Sample.older]
  = [Sample.newer; Sample.older; Sample.older].
Proof. reflexivity. Qed.

(** ** Decimal numerals *)

Lemma span_digits_uint (d : Decimal.uint) (s : string) :
  starts_without_digit s = true ->
  span_digits (NilEmpty.string_of_uint d ++ s)%string = (NilEmpty.string_of_uint d, s).
Proof.
  intros Hs. induction d; simpl;
    try (rewrite IHd; reflexivity).
  destruct s as [| c s]; simpl in *; [reflexivity |].
  apply negb_true_iff in Hs. now rewrite Hs.
Qed.

Lemma span_digits_number (n : N) (s : string) :
  starts_without_digit s = true ->
  span_digits (Js.number_to_string n ++ s)%string = (Js.number_to_string n, s).
Proof. apply span_digits_uint. Qed.

Lemma string_of_uint_inj (d d' : Decimal.uint) :
  NilEmpty.string_of_uint d = NilEmpty.string_of_uint d' -> d = d'.
Proof.
  intros H.
  assert (E : Some d = Some d').
  { rewrite <- (NilEmpty.usu d), <- (NilEmpty.usu d'). now rewrite H. }
  now injection E.
Qed.

Lemma number_to_string_inj (n n' : N) :
  Js.number_to_string n = Js.number_to_string n' -> n = n'.
Proof.
  intros H. apply DecimalN.Unsigned.to_uint_inj. now apply string_of_uint_inj.
Qed.

(** Two numerals followed by tails that do not start with a digit are
    equal only if the numbers and the tails are. *)
Lemma numeral_then_tail_inj (n n' : N) (s s' : string) :
  starts_without_digit s = true ->
  starts_without_digit s' = true ->
  (Js.number_to_string n ++ s = Js.number_to_string n' ++ s')%string ->
  n = n' /\ s = s'.
Proof.
  intros Hs Hs' H.
  pose proof (span_digits_number n s Hs) as E.
  rewrite H, (span_digits_number n' s' Hs') in E.
  injection E as E1 E2. split; [| now symmetry].
  symmetry. now apply number_to_string_inj.
Qed.

(** ** The shape of what [Path.extname] returns *)

Lemma scan_inv_init (path : string) :
  scan_inv path (String.length path) Path.scan0.
Proof.
  unfold scan_inv, Path.scan0; simpl.
  split; [reflexivity |]. split; [reflexivity |].
  split; [congruence |]. split; [| congruence].
  intros j c Hj1 Hj2. lia.
Qed.

Lemma extname_step_inv (path : string) (i : nat) (c : ascii) (st : Path.scan) :
  String.get i path = Some c ->
  scan_inv path (S i) st ->
  scan_inv path i (Path.extname_step (Z.of_nat i) c st)
  \/ (Path.stopped (Path.extname_step (Z.of_nat i) c st) = true
      /\ scan_inv path (S i) (Path.extname_step (Z.of_nat i) c st)).
Proof.
  intros Hget. destruct st as [sd sp en ms pd stp].
  unfold scan_inv, Path.extname_step; simpl.
  intros (Hm & H1 & Hn & H2 & H3).
  destruct (Ascii.eqb_spec c "/") as [Hslash | Hslash].
  - destruct ms; simpl.
    + left. specialize (Hm eq_refl). specialize (H1 Hm). subst en sd.
      split; [reflexivity |]. split; [reflexivity |].
      split; [congruence |]. split; [| congruence].
      intros j c' Hj1 Hj2. lia.
    + right. split; [reflexivity |]. repeat (split; [assumption |]). assumption.
  - left.
    assert (Hat : forall j c', (i <= j)%nat -> String.get j path = Some c' ->
                               (j = i /\ c' = c) \/ (S i <= j)%nat).
    { intros j c' Hj Hgj. destruct (Nat.eq_dec j i) as [-> | Hne].
      - left. split; [reflexivity | congruence].
      - right. lia. }
    destruct (Z.eqb_spec en (-1)) as [Hend | Hend]; simpl.
    + specialize (H1 Hend). subst en sd. simpl.
      destruct (Ascii.eqb_spec c ".") as [Hdot | Hdot]; simpl.
      * split; [discriminate |]. split; [lia |]. split; [lia |]. split.
        -- intros j c' Hj1 Hj2 Hgj.
           destruct (Hat j c' Hj1 Hgj) as [[-> ->] | Hlt]; [| lia].
           split; [assumption | lia].
        -- intros _. split; [lia |]. rewrite Nat2Z.id. congruence.
      * split; [discriminate |]. split; [lia |]. split; [lia |]. split.
        -- intros j c' Hj1 Hj2 Hgj.
           destruct (Hat j c' Hj1 Hgj) as [[-> ->] | Hlt]; [| lia].
           split; [assumption | intros _; assumption].
        -- congruence.
    + specialize (Hn Hend).
      destruct (Ascii.eqb_spec c ".") as [Hdot | Hdot]; simpl.
      * destruct (Z.eqb_spec sd (-1)) as [Hsd | Hsd]; simpl.
        -- subst sd.
           split; [assumption |]. split; [congruence |]. split; [lia |]. split.
           ++ intros j c' Hj1 Hj2 Hgj.
              destruct (Hat j c' Hj1 Hgj) as [[-> ->] | Hlt].
              ** split; [assumption | lia].
              ** destruct (H2 j c' Hlt Hj2 Hgj) as [Ha Hb].
                 split; [assumption | intros _; apply Hb; now left].
           ++ intros _. split; [lia |]. rewrite Nat2Z.id. congruence.
        -- destruct (H3 Hsd) as [Hrange Hgd].
           destruct (negb (pd =? 1)%Z); simpl;
             (split; [assumption |]; split; [congruence |]; split; [lia |]; split;
              [ intros j c' Hj1 Hj2 Hgj;
                destruct (Hat j c' Hj1 Hgj) as [[-> ->] | Hlt];
                [ split; [assumption | lia]
                | exact (H2 j c' Hlt Hj2 Hgj) ]
              | intros _; split; [lia | assumption] ]).
      * destruct (Z.eqb_spec sd (-1)) as [Hsd | Hsd]; simpl;
          (split; [assumption |]; split; [congruence |]; split; [lia |]; split;
           [ intros j c' Hj1 Hj2 Hgj;
             destruct (Hat j c' Hj1 Hgj) as [[-> ->] | Hlt];
             [ split; [assumption | intros _; assumption]
             | exact (H2 j c' Hlt Hj2 Hgj) ]
           | intros Hsd'; destruct (H3 Hsd') as [Hrange Hgd];
             split; [lia | assumption] ]).
Qed.

Lemma extname_loop_inv (path : string) (n : nat) (st : Path.scan) :
  scan_inv path n st ->
  exists m, scan_inv path m (Path.extname_loop path n st).
Proof.
  revert st. induction n as [| i IH]; intros st Hinv; simpl.
  - now exists 0%nat.
  - destruct (String.get i path) as [c |] eqn:Hget; [| now exists (S i)].
    destruct (extname_step_inv path i c st Hget Hinv) as [Hi | [Hstop HSi]].
    + destruct (Path.stopped _); [now exists i | now apply IH].
    + rewrite Hstop. now exists (S i).
Qed.

Lemma all_plain_get (s : string) :
  (forall p c, String.get p s = Some c -> plain c = true) ->
  all_plain s = true.
Proof.
  induction s as [| a s IH]; intros H; simpl; [reflexivity |].
  rewrite (H 0%nat a eq_refl). simpl.
  apply IH. intros p c Hp. exact (H (S p) c Hp).
Qed.

Lemma get_all_plain (s : string) :
  all_plain s = true ->
  forall p c, String.get p s = Some c -> plain c = true.
Proof.
  induction s as [| a s IH]; simpl; intros H p c Hp; [discriminate |].
  apply andb_prop in H. destruct H as [Ha Hs].
  destruct p as [| p]; [congruence | now apply (IH Hs p)].
Qed.

Lemma plain_iff (c : ascii) :
  plain c = true <-> c <> "."%char /\ c <> "/"%char.
Proof.
  unfold plain.
  destruct (Ascii.eqb_spec c "."), (Ascii.eqb_spec c "/"); simpl; split;
    try tauto; try discriminate; intros [? ?]; congruence.
Qed.

Lemma is_extension_substring (path : string) (a len : nat) :
  (0 < len)%nat ->
  String.get a path = Some "."%char ->
  (forall p c, (S p < len)%nat -> String.get (S p + a) path = Some c ->
               plain c = true) ->
  is_extension (String.substring a len path) = true.
Proof.
  intros Hlen Hdot Hrest.
  pose proof (String.substring_correct1 path a len) as Hin.
  pose proof (String.substring_correct2 path a len) as Hout.
  destruct (String.substring a len path) as [| c t]; [reflexivity |].
  simpl. apply andb_true_intro. split.
  - specialize (Hin 0%nat Hlen). simpl in Hin.
    rewrite Hdot in Hin. injection Hin as ->. reflexivity.
  - apply all_plain_get. intros p c' Hp.
    destruct (Nat.lt_ge_cases (S p) len) as [Hlt | Hge].
    + apply (Hrest p c' Hlt). rewrite <- (Hin (S p) Hlt). exact Hp.
    + specialize (Hout (S p) Hge). simpl in Hout. congruence.
Qed.

(** What [path.extname] returns is empty, or a dot followed by neither
    dots nor slashes. *)
Lemma extname_is_extension (path : string) :
  is_extension (Path.extname path) = true.
Proof.
  unfold Path.extname.
  destruct (extname_loop_inv path _ _ (scan_inv_init path))
    as [m (Hm & H1 & Hn & H2 & H3)].
  destruct (Path.extname_loop path (String.length path) Path.scan0)
    as [sd sp en ms pd stp]; simpl in *.
  destruct (Z.eqb_spec sd (-1)) as [Hsd | Hsd]; [reflexivity |].
  destruct (Z.eqb_spec en (-1)) as [Hen | Hen]; [reflexivity |].
  simpl.
  destruct ((pd =? 0)%Z || _); [reflexivity |].
  destruct (H3 Hsd) as [Hrange Hdot].
  apply is_extension_substring; [lia | assumption |].
  intros p c Hp Hget. apply plain_iff.
  destruct (H2 (S p + Z.to_nat sd)%nat c) as [Hslash Hnd]; [lia | lia | assumption |].
  split; [apply Hnd; right; lia | assumption].
Qed.

Lemma is_extension_starts_without_digit (e : string) :
  is_extension e = true -> starts_without_digit e = true.
Proof.
  destruct e as [| c t]; simpl; [reflexivity |].
  intros H. apply andb_prop in H. destruct H as [Hc _].
  apply Ascii.eqb_eq in Hc. now subst c.
Qed.

Lemma extname_starts_without_digit (path : string) :
  starts_without_digit (Path.extname path) = true.
Proof. apply is_extension_starts_without_digit, extname_is_extension. Qed.

(** ** The extension of a generated name *)

Lemma get_append (s1 s2 : string) (i : nat) :
  String.get i (s1 ++ s2)
  = if (i <? String.length s1)%nat then String.get i s1
    else String.get (i - String.length s1) s2.
Proof.
  destruct (Nat.ltb_spec i (String.length s1)) as [Hlt | Hge].
  - symmetry. now apply String.append_correct1.
  - rewrite (String.append_correct2 s1 s2 (i - String.length s1)).
    f_equal. lia.
Qed.

Lemma get_lt (s : string) (i : nat) :
  (i < String.length s)%nat -> exists c, String.get i s = Some c.
Proof.
  revert i. induction s as [| a s IH]; simpl; intros i Hi; [lia |].
  destruct i as [| i]; [now exists a | apply IH; lia].
Qed.

Lemma length_append (s1 s2 : string) :
  String.length (s1 ++ s2) = (String.length s1 + String.length s2)%nat.
Proof. induction s1 as [| a s1 IH]; simpl; [reflexivity | now rewrite IH]. Qed.

Lemma substring_append_right (s1 s2 : string) :
  String.substring (String.length s1) (String.length s2) (s1 ++ s2) = s2.
Proof.
  induction s1 as [| a s1 IH]; simpl; [| exact IH].
  induction s2 as [| b s2 IH2]; simpl; [reflexivity | now rewrite IH2].
Qed.

Lemma all_plain_append (s1 s2 : string) :
  all_plain (s1 ++ s2) = all_plain s1 && all_plain s2.
Proof.
  induction s1 as [| a s1 IH]; simpl; [reflexivity |].
  now rewrite IH, andb_assoc.
Qed.

Lemma extname_loop_follows (path : string) (f : nat -> Path.scan) :
  (forall i, (i < String.length path)%nat ->
             exists c, String.get i path = Some c
                       /\ Path.extname_step (Z.of_nat i) c (f (S i)) = f i
                       /\ Path.stopped (f i) = false) ->
  forall n, (n <= String.length path)%nat ->
            Path.extname_loop path n (f n) = f 0%nat.
Proof.
  intros Hstep n. induction n as [| i IH]; intros Hn; simpl; [reflexivity |].
  destruct (Hstep i Hn) as [c (Hget & Hnext & Hgo)].
  rewrite Hget, Hnext, Hgo. apply IH. lia.
Qed.

Ltac plain_char H :=
  apply plain_iff in H; destruct H as [?Hnd ?Hns];
  repeat match goal with
         | |- context [Ascii.eqb ?c "/"] =>
             destruct (Ascii.eqb_spec c "/"); [congruence |]
         | |- context [Ascii.eqb ?c "."] =>
             destruct (Ascii.eqb_spec c "."); [congruence |]
         end.

Ltac nat_cases :=
  repeat match goal with
         | |- context [(?x <=? ?y)%nat] => destruct (Nat.leb_spec x y); try lia
         | |- context [(?x <? ?y)%nat] => destruct (Nat.ltb_spec x y); try lia
         | |- context [(?x =? ?y)%nat] => destruct (Nat.eqb_spec x y); try lia
         end.

Ltac z_cases :=
  repeat match goal with
         | |- context [(?x =? ?y)%Z] =>
             destruct (Z.eqb_spec x y); simpl in *; try lia
         end.

Ltac scan_step :=
  nat_cases; simpl; z_cases; simpl;
  (split; [f_equal; lia | reflexivity]).

Lemma extname_plain (stem : string) :
  all_plain stem = true -> Path.extname stem = "".
Proof.
  intros Hplain. unfold Path.extname.
  assert (Hloop : Path.extname_loop stem (String.length stem)
                    (scan_at_plain (String.length stem) (String.length stem))
                  = scan_at_plain (String.length stem) 0).
  { apply extname_loop_follows; [| lia].
    intros i Hi. destruct (get_lt stem i Hi) as [c Hc]. exists c.
    pose proof (get_all_plain stem Hplain i c Hc) as Hpc.
    split; [assumption |].
    unfold scan_at_plain, Path.extname_step, Path.scan0.
    plain_char Hpc. scan_step. }
  unfold scan_at_plain at 1 in Hloop. rewrite Nat.leb_refl in Hloop.
  rewrite Hloop. unfold scan_at_plain.
  destruct (Nat.leb_spec (String.length stem) 0); reflexivity.
Qed.

Lemma extname_dotted (stem t : string) :
  stem <> "" -> all_plain stem = true -> all_plain t = true ->
  Path.extname (stem ++ String "." t) = String "." t.
Proof.
  intros Hne Hstem Ht. unfold Path.extname.
  set (path := (stem ++ String "." t)%string).
  set (a := String.length stem).
  set (L := String.length path).
  assert (HL : L = (a + S (String.length t))%nat).
  { unfold L, path, a. now rewrite length_append. }
  assert (Ha : (0 < a)%nat).
  { unfold a. destruct stem; [congruence | simpl; lia]. }
  assert (Hloop : Path.extname_loop path L (scan_at_dotted a L L)
                  = scan_at_dotted a L 0).
  { apply extname_loop_follows; [| unfold L; lia].
    intros i Hi. fold L in Hi. unfold path. rewrite get_append. fold a.
    destruct (Nat.ltb_spec i a) as [Hlt | Hge].
    - destruct (get_lt stem i Hlt) as [c Hc]. exists c.
      pose proof (get_all_plain stem Hstem i c Hc) as Hpc.
      split; [assumption |].
      unfold scan_at_dotted, Path.extname_step, Path.scan0.
      plain_char Hpc. scan_step.
    - destruct (i - a)%nat as [| k] eqn:Hk; simpl.
      + exists "."%char. split; [reflexivity |].
        assert (i = a) by lia. subst i.
        unfold scan_at_dotted, Path.extname_step, Path.scan0.
        scan_step.
      + assert (Hkt : (k < String.length t)%nat) by lia.
        destruct (get_lt t k Hkt) as [c Hc]. exists c.
        pose proof (get_all_plain t Ht k c Hc) as Hpc.
        split; [assumption |].
        unfold scan_at_dotted, Path.extname_step, Path.scan0.
        plain_char Hpc. scan_step. }
  unfold scan_at_dotted at 1 in Hloop. rewrite Nat.leb_refl in Hloop.
  rewrite Hloop. unfold scan_at_dotted.
  nat_cases; simpl; z_cases; simpl.
  replace (Z.to_nat (Z.of_nat L - Z.of_nat a)) with (String.length (String "." t))
    by (simpl; lia).
  rewrite Nat2Z.id. apply substring_append_right.
Qed.

(** A stem of plain characters in front of an extension does not change
    the extension. *)
Lemma extname_stem_extension (stem e : string) :
  stem <> "" -> all_plain stem = true -> is_extension e = true ->
  Path.extname (stem ++ e) = e.
Proof.
  intros Hne Hstem He. destruct e as [| c t].
  - rewrite extname_plain; [reflexivity |].
    now rewrite all_plain_append, Hstem.
  - simpl in He. apply andb_prop in He. destruct He as [Hc Ht].
    apply Ascii.eqb_eq in Hc. subst c. now apply extname_dotted.
Qed.

(** ** Generated file names *)

Lemma all_plain_uint (d : Decimal.uint) :
  all_plain (NilEmpty.string_of_uint d) = true.
Proof. induction d; simpl; auto. Qed.

Lemma all_plain_number (n : N) : all_plain (Js.number_to_string n) = true.
Proof. apply all_plain_uint. Qed.

Lemma append_assoc (s1 s2 s3 : string) :
  ((s1 ++ s2) ++ s3 = s1 ++ (s2 ++ s3))%string.
Proof. induction s1 as [| a s1 IH]; simpl; [reflexivity | now rewrite IH]. Qed.

Lemma append_not_empty_r (s1 s2 : string) :
  s2 <> "" -> (s1 ++ s2)%string <> "".
Proof. destruct s1; simpl; [tauto | discriminate]. Qed.

Section FileNames.

Variables (rt1 rt2 : Runtime.t) (file1 file2 : Http.Part).

Let ext1 := Path.extname (Http.originalname file1).
Let ext2 := Path.extname (Http.originalname file2).

Lemma ServerJs_filename_eq :
  ServerJs.storage_filename rt1 file1 = ServerJs.storage_filename rt2 file2
  <-> Runtime.Date_now_filename rt1 = Runtime.Date_now_filename rt2
      /\ Runtime.random_1e9 rt1 = Runtime.random_1e9 rt2
      /\ ext1 = ext2.
Proof.
  unfold ServerJs.storage_filename. fold ext1 ext2. split.
  - intros H.
    apply numeral_then_tail_inj in H; [| reflexivity | reflexivity].
    destruct H as [Hnow Htail]. simpl in Htail. injection Htail as Htail.
    apply numeral_then_tail_inj in Htail;
      [| apply extname_starts_without_digit
       | apply extname_starts_without_digit].
    tauto.
  - intros (-> & -> & ->). reflexivity.
Qed.

Lemma Part000_filename_eq :
  Part000.storage_filename rt1 file1 = Part000.storage_filename rt2 file2
  <-> Runtime.Date_now_filename rt1 = Runtime.Date_now_filename rt2
      /\ ext1 = ext2.
Proof.
  unfold Part000.storage_filename. fold ext1 ext2. split.
  - intros H. simpl in H. injection H as H.
    apply numeral_then_tail_inj in H;
      [| apply extname_starts_without_digit
       | apply extname_starts_without_digit].
    exact H.
  - intros (-> & ->). reflexivity.
Qed.

Lemma Part001_filename_eq :
  Part001.storage_filename rt1 file1 = Part001.storage_filename rt2 file2
  <-> Runtime.Date_now_filename rt1 = Runtime.Date_now_filename rt2
      /\ ext1 = ext2.
Proof. exact Part000_filename_eq. Qed.

Lemma ServerJs_filename_extname :
  Path.extname (ServerJs.storage_filename rt1 file1) = ext1.
Proof.
  unfold ServerJs.storage_filename. fold ext1.
  change (Js.number_to_string (Runtime.Date_now_filename rt1) ++ "-"
            ++ Js.number_to_string (Runtime.random_1e9 rt1) ++ ext1)%string
    with (Js.number_to_string (Runtime.Date_now_filename rt1)
            ++ ("-" ++ Js.number_to_string (Runtime.random_1e9 rt1)) ++ ext1)%string.
  rewrite <- append_assoc.
  apply extname_stem_extension.
  - apply append_not_empty_r. discriminate.
  - rewrite all_plain_append. simpl. now rewrite !all_plain_number.
  - apply extname_is_extension.
Qed.

Lemma Part000_filename_extname :
  Path.extname (Part000.storage_filename rt1 file1) = ext1.
Proof.
  unfold Part000.storage_filename. fold ext1.
  rewrite <- append_assoc.
  apply extname_stem_extension.
  - discriminate.
  - simpl. apply all_plain_number.
  - apply extname_is_extension.
Qed.

Lemma Part001_filename_extname :
  Path.extname (Part001.storage_filename rt1 file1) = ext1.
Proof. exact Part000_filename_extname. Qed.

End FileNames.

(** C9, as the code has it.  The generated name keeps the extension of
    the original name: [path.extname] of the stored name is
    [path.extname] of the original.  Names are distinct whenever the
    readings they are built from differ: in server.js two names are
    equal exactly when the millisecond, the random integer and the
    extension are all equal; in part_000 and part_001 exactly when the
    millisecond and the extension are equal. *)
Theorem generated_name_keeps_extension_and_separates_readings :
  forall (rt1 rt2 : Runtime.t) (file1 file2 : Http.Part),
    (Path.extname (ServerJs.storage_filename rt1 file1)
     = Path.extname (Http.originalname file1)
     /\ Path.extname (Part000.storage_filename rt1 file1)
        = Path.extname (Http.originalname file1)
     /\ Path.extname (Part001.storage_filename rt1 file1)
        = Path.extname (Http.originalname file1))
    /\ (ServerJs.storage_filename rt1 file1 = ServerJs.storage_filename rt2 file2
        <-> Runtime.Date_now_filename rt1 = Runtime.Date_now_filename rt2
            /\ Runtime.random_1e9 rt1 = Runtime.random_1e9 rt2
            /\ Path.extname (Http.originalname file1)
               = Path.extname (Http.originalname file2))
    /\ (Part000.storage_filename rt1 file1 = Part000.storage_filename rt2 file2
        <-> Runtime.Date_now_filename rt1 = Runtime.Date_now_filename rt2
            /\ Path.extname (Http.originalname file1)
               = Path.extname (Http.originalname file2))
    /\ (Part001.storage_filename rt1 file1 = Part001.storage_filename rt2 file2
        <-> Runtime.Date_now_filename rt1 = Runtime.Date_now_filename rt2
            /\ Path.extname (Http.originalname file1)
               = Path.extname (Http.originalname file2)).
Proof.
  intros rt1 rt2 file1 file2.
  split; [split; [| split] | split; [| split]].
  - apply ServerJs_filename_extname.
  - apply Part000_filename_extname.
  - apply Part001_filename_extname.
  - apply ServerJs_filename_eq.
  - apply Part000_filename_eq.
  - apply Part001_filename_eq.
Qed.

(** C9 as worded fails: two uploads of distinct files get the same
    stored name when they fall into the same millisecond (part_000,
    part_001) and draw the same random integer (server.js).  In part_000
    both uploads are answered 201, the second file overwrites the first,
    and two records name the one file that is left. *)
Lemma same_millisecond_same_name :
  Sample.photo_png <> Sample.other_png
  /\ ServerJs.storage_filename Sample.rt Sample.photo_png
     = ServerJs.storage_filename Sample.rt_twin Sample.other_png
  /\ Part000.storage_filename Sample.rt Sample.photo_png
     = Part000.storage_filename Sample.rt_same_ms Sample.other_png
  /\ Part001.storage_filename Sample.rt Sample.photo_png
     = Part001.storage_filename Sample.rt_same_ms Sample.other_png
  /\ map Http.status
         (snd (run_uploads (Part000.post_api_upload (Part000.config Sample.production))
                 [(Sample.rt, Sample.request [Sample.photo_png]);
                  (Sample.rt_same_ms, Sample.request [Sample.other_png])]
                 Sample.empty))
     = [201%N; 201%N]
  /\ disk (fst (run_uploads (Part000.post_api_upload (Part000.config Sample.production))
                  [(Sample.rt, Sample.request [Sample.photo_png]);
                   (Sample.rt_same_ms, Sample.request [Sample.other_png])]
                  Sample.empty))
     = [("/app/uploads/img-1700000000000.png", [Byte.x00])]
  /\ map Mongoose.filename
         (images (fst (run_uploads (Part000.post_api_upload (Part000.config Sample.production))
                         [(Sample.rt, Sample.request [Sample.photo_png]);
                          (Sample.rt_same_ms, Sample.request [Sample.other_png])]
                         Sample.empty)))
     = ["img-1700000000000.png"; "img-1700000000000.png"].
Proof.
  split; [discriminate |]. repeat split.
Qed.

Example stored_name_server_js :
  ServerJs.storage_filename Sample.rt Sample.photo_png = "1700000000000-42.png".
Proof. reflexivity. Qed.

Example stored_name_part_000 :
  Part000.storage_filename Sample.rt Sample.photo_png = "img-1700000000000.png".
Proof. reflexivity. Qed.

(** ** The URL of a stored file, and what a response does not show *)

Lemma over_limit_same_size (o1 o2 : Multer.options) (rt : Runtime.t) (n : N) :
  Multer.fileSize o1 = Multer.fileSize o2 ->
  Multer.over_limit o1 rt n = Multer.over_limit o2 rt n.
Proof. intros H. unfold Multer.over_limit. now rewrite H. Qed.

(** Two parsers that differ in the destination only end alike: with
    files that differ in their location only, or with errors that are
    the same or name two paths that could not be opened. *)
Lemma receive_located (o1 o2 : Multer.options) (rt : Runtime.t)
      (req : Http.Request) (field : string) :
  Multer.filename o1 = Multer.filename o2 ->
  Multer.fileSize o1 = Multer.fileSize o2 ->
  Multer.fileFilter o1 = Multer.fileFilter o2 ->
  forall ps n stored1 stored2 d1 d2,
    map erase_location stored1 = map erase_location stored2 ->
    alike_parsed rt (snd (Multer.receive o1 rt req field ps n stored1 d1))
                    (snd (Multer.receive o2 rt req field ps n stored2 d2)).
Proof.
  intros Hname Hsize Hfilter ps.
  induction ps as [| p ps IH]; intros n stored1 stored2 d1 d2 Hstored; simpl.
  - exact Hstored.
  - destruct (String.eqb (Http.originalname p) ""); [now apply IH |].
    destruct (negb (String.eqb (Http.fieldname p) field)); [now left |].
    destruct n as [| n]; [now left |].
    rewrite Hfilter.
    destruct (Multer.fileFilter o2 req p) as [[err |] [|]]; try (now left).
    + destruct (Runtime.write_failure rt) as [reason |] eqn:Hw.
      * right. now exists reason,
          (Path.join (Multer.destination o1) (Multer.filename o1 rt p)),
          (Path.join (Multer.destination o2) (Multer.filename o2 rt p)).
      * rewrite (over_limit_same_size o1 o2 rt _ Hsize).
        destruct (Multer.over_limit o2 rt _); [now left |].
        apply IH. rewrite !map_app, Hstored, Hname. reflexivity.
    + now apply IH.
Qed.

Lemma hd_error_map_erase (files : list Multer.File) :
  hd_error (map erase_location files) = option_map erase_location (hd_error files).
Proof. now destruct files. Qed.

Lemma single_located (o1 o2 : Multer.options) (rt : Runtime.t)
      (req : Http.Request) (d1 d2 : Fs.t) :
  Multer.filename o1 = Multer.filename o2 ->
  Multer.fileSize o1 = Multer.fileSize o2 ->
  Multer.fileFilter o1 = Multer.fileFilter o2 ->
  alike_outcome rt (snd (Multer.single o1 "image" rt req d1))
                   (snd (Multer.single o2 "image" rt req d2)).
Proof.
  intros Hname Hsize Hfilter. unfold Multer.single.
  pose proof (receive_located o1 o2 rt req "image" Hname Hsize Hfilter
                (Http.parts req) 1 [] [] d1 d2 eq_refl) as H.
  destruct (Multer.receive o1 _ _ _ _ _ _ _) as [da [fa | ea]];
    destruct (Multer.receive o2 _ _ _ _ _ _ _) as [db [fb | eb]];
    cbn [snd alike_parsed alike_outcome] in *; try contradiction.
  - now rewrite <- !hd_error_map_erase, H.
  - exact H.
Qed.

Lemma erase_location_fields (f1 f2 : Multer.File) :
  erase_location f1 = erase_location f2 ->
  Multer.file_originalname f1 = Multer.file_originalname f2
  /\ Multer.file_filename f1 = Multer.file_filename f2
  /\ Multer.file_size f1 = Multer.file_size f2.
Proof. unfold erase_location. intros H. injection H. tauto. Qed.

Lemma ServerJs_handler_public (cfg : ServerJs.Config) (rt : Runtime.t)
      (req : Http.Request) (file1 file2 : option Multer.File)
      (c1 c2 : Mongoose.collection) :
  option_map erase_location file1 = option_map erase_location file2 ->
  snd (ServerJs.upload_handler cfg rt req file1 c1)
  = snd (ServerJs.upload_handler cfg rt req file2 c2).
Proof.
  intros H. destruct file1 as [f1 |], file2 as [f2 |];
    cbn [option_map] in H; try discriminate; [| reflexivity].
  assert (He : erase_location f1 = erase_location f2) by congruence.
  destruct (erase_location_fields f1 f2 He) as (Ho & Hf & Hs).
  unfold ServerJs.upload_handler, Mongoose.save.
  destruct (Runtime.save_failure rt); simpl; [reflexivity |].
  now rewrite Ho, Hf, Hs.
Qed.

Lemma Part000_handler_public (cfg : Part000.Config) (rt : Runtime.t)
      (req : Http.Request) (file1 file2 : option Multer.File)
      (c1 c2 : Mongoose.collection) :
  option_map erase_location file1 = option_map erase_location file2 ->
  snd (Part000.upload_handler cfg rt req file1 c1)
  = snd (Part000.upload_handler cfg rt req file2 c2).
Proof.
  intros H. destruct file1 as [f1 |], file2 as [f2 |];
    cbn [option_map] in H; try discriminate; [| reflexivity].
  assert (He : erase_location f1 = erase_location f2) by congruence.
  destruct (erase_location_fields f1 f2 He) as (Ho & Hf & Hs).
  unfold Part000.upload_handler, Mongoose.save.
  destruct (Runtime.save_failure rt); simpl; [reflexivity |].
  now rewrite Ho, Hf, Hs.
Qed.

Lemma Part001_handler_public (cfg : Part001.Config) (rt : Runtime.t)
      (req : Http.Request) (file1 file2 : option Multer.File)
      (c1 c2 : Mongoose.collection) :
  option_map erase_location file1 = option_map erase_location file2 ->
  snd (Part001.upload_handler cfg rt req file1 c1)
  = snd (Part001.upload_handler cfg rt req file2 c2).
Proof.
  intros H. destruct file1 as [f1 |], file2 as [f2 |];
    cbn [option_map] in H; try discriminate; [| reflexivity].
  assert (He : erase_location f1 = erase_location f2) by congruence.
  destruct (erase_location_fields f1 f2 He) as (Ho & Hf & Hs).
  unfold Part001.upload_handler, Mongoose.save.
  destruct (Runtime.save_failure rt); simpl; [reflexivity |].
  now rewrite Ho, Hf, Hs.
Qed.

Ltac located_outcomes H :=
  match type of H with
  | alike_outcome _ (snd ?a) (snd ?b) =>
      destruct a as [?d [?file | ?e]]; destruct b as [?d [?file | ?e]];
      cbn [snd alike_outcome] in H; try contradiction
  end.

Lemma ServerJs_upload_hides_dirname (pe : Process.env) (dir : string)
      (rt : Runtime.t) (req : Http.Request) (st st' : State) :
  ServerJs.NODE_ENV (ServerJs.config pe) <> "development"
  \/ Runtime.write_failure rt = None ->
  snd (ServerJs.post_api_upload (ServerJs.config pe) rt req st)
  = snd (ServerJs.post_api_upload (ServerJs.config (with_dirname dir pe)) rt req st').
Proof.
  intros Hsafe. unfold ServerJs.post_api_upload.
  pose proof (single_located (ServerJs.upload (ServerJs.config pe))
                (ServerJs.upload (ServerJs.config (with_dirname dir pe)))
                rt req (disk st) (disk st') eq_refl eq_refl eq_refl) as H.
  located_outcomes H.
  - pose proof (ServerJs_handler_public (ServerJs.config pe) rt req file file0
                  (images st) (images st') H) as Hh.
    change (ServerJs.config (with_dirname dir pe))
      with (ServerJs.mkConfig (Path.join dir "uploads")
              (ServerJs.MAX_FILE_SIZE (ServerJs.config pe))
              (ServerJs.NODE_ENV (ServerJs.config pe))).
    destruct (ServerJs.upload_handler (ServerJs.config pe) _ _ file _) as [ca ra].
    revert Hh. unfold ServerJs.upload_handler, ServerJs.details.
    cbn [ServerJs.NODE_ENV].
    destruct file0 as [f |]; [destruct (Mongoose.save _ _ _) as [cb [eb | ib]] |];
      simpl; intros <-; reflexivity.
  - destruct H as [<- | (reason & pa & pb & Hw & -> & ->)]; [reflexivity |].
    destruct Hsafe as [Hmode | Hnone]; [| congruence].
    unfold ServerJs.error_middleware, Multer.open_error, ServerJs.details.
    cbn [Js.instanceof_MulterError snd].
    change (ServerJs.NODE_ENV (ServerJs.config (with_dirname dir pe)))
      with (ServerJs.NODE_ENV (ServerJs.config pe)).
    destruct (String.eqb_spec (ServerJs.NODE_ENV (ServerJs.config pe)) "development");
      [contradiction | reflexivity].
Qed.

Lemma Part000_upload_hides_dirname (pe : Process.env) (dir : string)
      (rt : Runtime.t) (req : Http.Request) (st st' : State) :
  snd (Part000.post_api_upload (Part000.config pe) rt req st)
  = snd (Part000.post_api_upload (Part000.config (with_dirname dir pe)) rt req st').
Proof.
  unfold Part000.post_api_upload.
  pose proof (single_located (Part000.upload (Part000.config pe))
                (Part000.upload (Part000.config (with_dirname dir pe)))
                rt req (disk st) (disk st') eq_refl eq_refl eq_refl) as H.
  located_outcomes H.
  - pose proof (Part000_handler_public (Part000.config pe) rt req file file0
                  (images st) (images st') H) as Hh.
    change (Part000.config (with_dirname dir pe))
      with (Part000.mkConfig (Path.join dir "uploads")
              (Part000.MAX_FILE_SIZE (Part000.config pe))
              (Part000.BASE_URL (Part000.config pe))).
    destruct (Part000.upload_handler (Part000.config pe) _ _ file _) as [ca ra].
    revert Hh. unfold Part000.upload_handler, Part000.imageUrl.
    cbn [Part000.BASE_URL].
    destruct file0 as [f |]; [destruct (Mongoose.save _ _ _) as [cb [eb | ib]] |];
      simpl; intros <-; reflexivity.
  - destruct H as [<- | (reason & pa & pb & Hw & -> & ->)]; reflexivity.
Qed.

Lemma Part001_upload_hides_dirname (pe : Process.env) (dir : string)
      (rt : Runtime.t) (req : Http.Request) (st st' : State) :
  snd (Part001.post_api_upload (Part001.config pe) rt req st)
  = snd (Part001.post_api_upload (Part001.config (with_dirname dir pe)) rt req st').
Proof.
  unfold Part001.post_api_upload.
  pose proof (single_located (Part001.upload (Part001.config pe))
                (Part001.upload (Part001.config (with_dirname dir pe)))
                rt req (disk st) (disk st') eq_refl eq_refl eq_refl) as H.
  located_outcomes H.
  - pose proof (Part001_handler_public (Part001.config pe) rt req file file0
                  (images st) (images st') H) as Hh.
    destruct (Part001.upload_handler (Part001.config pe) _ _ file _) as [ca ra].
    revert Hh. unfold Part001.upload_handler.
    destruct file0 as [f |]; [destruct (Mongoose.save _ _ _) as [cb [eb | ib]] |];
      simpl; intros <-; reflexivity.
  - destruct H as [<- | (reason & pa & pb & Hw & -> & ->)]; reflexivity.
Qed.

Lemma insert_desc_map (f : Mongoose.Image -> Mongoose.Image)
      (x : Mongoose.Image) (l : list Mongoose.Image) :
  (forall y, Mongoose.createdAt (f y) = Mongoose.createdAt y) ->
  Mongoose.insert_desc (f x) (map f l) = map f (Mongoose.insert_desc x l).
Proof.
  intros Hf. induction l as [| y l IH]; simpl; [reflexivity |].
  rewrite !Hf. destruct (N.leb _ _); simpl; [reflexivity | now rewrite IH].
Qed.

Lemma sort_desc_map (f : Mongoose.Image -> Mongoose.Image)
      (l : list Mongoose.Image) :
  (forall y, Mongoose.createdAt (f y) = Mongoose.createdAt y) ->
  Mongoose.sort_desc (map f l) = map f (Mongoose.sort_desc l).
Proof.
  intros Hf. induction l as [| x l IH]; simpl; [reflexivity |].
  rewrite IH. now apply insert_desc_map.
Qed.

Section ListHidesPath.

Variables (rt : Runtime.t) (req : Http.Request) (d : Fs.t).
Variable g : Mongoose.Image -> string.
Variable c : Mongoose.collection.

Let moved := map (fun img => with_path (g img) img) c.

Lemma find_sorted_moved :
  Mongoose.find_sorted rt moved
  = match Mongoose.find_sorted rt c with
    | inl e => inl e
    | inr l => inr (map (fun img => with_path (g img) img) l)
    end.
Proof.
  unfold Mongoose.find_sorted, moved.
  destruct (Runtime.find_failure rt); [reflexivity |].
  now rewrite sort_desc_map.
Qed.

Lemma ServerJs_list_hides_path (cfg : ServerJs.Config) :
  ServerJs.get_api_images cfg rt req (mkState d moved)
  = ServerJs.get_api_images cfg rt req (mkState d c).
Proof.
  unfold ServerJs.get_api_images. cbn [images]. rewrite find_sorted_moved.
  destruct (Mongoose.find_sorted rt c) as [e | l]; [reflexivity |].
  cbv zeta. now rewrite map_map.
Qed.

Lemma Part000_list_hides_path (cfg : Part000.Config) :
  Part000.get_api_images cfg rt req (mkState d moved)
  = Part000.get_api_images cfg rt req (mkState d c).
Proof.
  unfold Part000.get_api_images. cbn [images]. rewrite find_sorted_moved.
  destruct (Mongoose.find_sorted rt c) as [e | l]; [reflexivity |].
  now rewrite map_map, length_map.
Qed.

Lemma Part001_list_hides_path (cfg : Part001.Config) :
  Part001.get_api_images cfg rt req (mkState d moved)
  = Part001.get_api_images cfg rt req (mkState d c).
Proof.
  unfold Part001.get_api_images. cbn [images]. rewrite find_sorted_moved.
  destruct (Mongoose.find_sorted rt c) as [e | l]; [reflexivity |].
  cbv zeta. now rewrite map_map.
Qed.

End ListHidesPath.

(** C5, as the code has it.  In server.js and part_001 the URL of a
    stored file is [<scheme>://<host>/uploads/<filename>] with scheme and
    host those of the request; a request without a [Host] header gets the
    text "undefined" for the host.  In part_000 the URL is
    [<BASE_URL>/uploads/<filename>], with [BASE_URL] taken from the
    configuration and not from the request.  The stored path does not
    show in a response of part_000 or part_001, nor of server.js outside
    development mode or when the file can be opened: what the upload
    route answers is then the same wherever the upload directory lies,
    and what the list route answers is the same whatever paths the
    records hold.  (Server.js in development mode, on a file that cannot
    be opened, is the exception: see the lemma that follows.) *)
Theorem url_from_request_or_base_url_and_path_hidden :
  forall (req : Http.Request) (filename : string),
    (forall h,
        Http.host req = Some h ->
        ServerJs.imageUrl req filename
        = (Http.protocol req ++ "://" ++ h ++ "/uploads/" ++ filename)%string
        /\ Part001.imageUrl req filename
           = (Http.protocol req ++ "://" ++ h ++ "/uploads/" ++ filename)%string)
    /\ (Http.host req = None ->
        ServerJs.imageUrl req filename
        = (Http.protocol req ++ "://undefined/uploads/" ++ filename)%string
        /\ Part001.imageUrl req filename
           = (Http.protocol req ++ "://undefined/uploads/" ++ filename)%string)
    /\ (forall pe : Process.env,
           Part000.imageUrl (Part000.config pe) filename
           = (Js.or_else (Process.BASE_URL pe)
                         ("http://localhost:" ++ Js.or_else (Process.PORT pe) "3001")
              ++ "/uploads/" ++ filename)%string)
    /\ (forall (pe : Process.env) (dir : string) (rt : Runtime.t) (st st' : State),
           (ServerJs.NODE_ENV (ServerJs.config pe) <> "development"
            \/ Runtime.write_failure rt = None ->
            snd (ServerJs.post_api_upload (ServerJs.config pe) rt req st)
            = snd (ServerJs.post_api_upload
                     (ServerJs.config (with_dirname dir pe)) rt req st'))
           /\ snd (Part000.post_api_upload (Part000.config pe) rt req st)
              = snd (Part000.post_api_upload
                       (Part000.config (with_dirname dir pe)) rt req st')
           /\ snd (Part001.post_api_upload (Part001.config pe) rt req st)
              = snd (Part001.post_api_upload
                       (Part001.config (with_dirname dir pe)) rt req st'))
    /\ (forall (rt : Runtime.t) (d : Fs.t) (g : Mongoose.Image -> string)
               (c : Mongoose.collection)
               (cfgS : ServerJs.Config) (cfg0 : Part000.Config)
               (cfg1 : Part001.Config),
           ServerJs.get_api_images cfgS rt req
             (mkState d (map (fun img => with_path (g img) img) c))
           = ServerJs.get_api_images cfgS rt req (mkState d c)
           /\ Part000.get_api_images cfg0 rt req
                (mkState d (map (fun img => with_path (g img) img) c))
              = Part000.get_api_images cfg0 rt req (mkState d c)
           /\ Part001.get_api_images cfg1 rt req
                (mkState d (map (fun img => with_path (g img) img) c))
              = Part001.get_api_images cfg1 rt req (mkState d c)).
Proof.
  intros req filename.
  split; [| split; [| split; [| split]]].
  - intros h Hhost. unfold ServerJs.imageUrl, Part001.imageUrl.
    rewrite Hhost. now split.
  - intros Hhost. unfold ServerJs.imageUrl, Part001.imageUrl.
    rewrite Hhost. now split.
  - intros pe. reflexivity.
  - intros pe dir rt st st'. split; [| split].
    + apply ServerJs_upload_hides_dirname.
    + apply Part000_upload_hides_dirname.
    + apply Part001_upload_hides_dirname.
  - intros rt d g c cfgS cfg0 cfg1. split; [| split].
    + apply ServerJs_list_hides_path.
    + apply Part000_list_hides_path.
    + apply Part001_list_hides_path.
Qed.

(** C5 at a request made over https to img.example.com, at one without
    a [Host] header, and at a production deployment moved from [/app] to
    [/srv] whose upload directory cannot be written to. *)
Lemma url_from_request_or_base_url_and_path_hidden_witness :
  Http.host (Sample.request []) = Some "img.example.com"
  /\ ServerJs.imageUrl (Sample.request []) "img-1.png"
     = "https://img.example.com/uploads/img-1.png"
  /\ ServerJs.imageUrl (Http.mkRequest "http" None []) "img-1.png"
     = "http://undefined/uploads/img-1.png"
  /\ ServerJs.NODE_ENV (ServerJs.config Sample.production) <> "development"
  /\ snd (ServerJs.post_api_upload (ServerJs.config Sample.production)
            Sample2.rt_write_fails (Sample.request [Sample.photo_png]) Sample.empty)
     = snd (ServerJs.post_api_upload
              (ServerJs.config (with_dirname "/srv" Sample.production))
              Sample2.rt_write_fails (Sample.request [Sample.photo_png])
              Sample.empty).
Proof.
  split; [reflexivity |]. split.
  { destruct (url_from_request_or_base_url_and_path_hidden
                (Sample.request []) "img-1.png") as [Hsome _].
    apply (Hsome "img.example.com"). reflexivity. }
  split.
  { destruct (url_from_request_or_base_url_and_path_hidden
                (Http.mkRequest "http" None []) "img-1.png") as (_ & Hnone & _).
    apply Hnone. reflexivity. }
  assert (Hmode : ServerJs.NODE_ENV (ServerJs.config Sample.production)
                  <> "development") by discriminate.
  split; [exact Hmode |].
  destruct (url_from_request_or_base_url_and_path_hidden
              (Sample.request [Sample.photo_png]) "") as (_ & _ & _ & Hdir & _).
  destruct (Hdir Sample.production "/srv" Sample2.rt_write_fails
                 Sample.empty Sample.empty) as [Hserver _].
  apply Hserver. now left.
Defined.

(** C5 as worded fails twice.  On part_000 the request comes over https
    to img.example.com, and the URL in the answer is built from the
    configured base URL, here the default http://localhost:3001.  On
    server.js in development mode (the default when [NODE_ENV] is unset)
    a file that cannot be opened is answered with node's message in
    [details], and that message names the stored path: the answer
    changes with the place of the upload directory. *)
Lemma url_ignores_request_and_details_name_path :
  Http.protocol (Sample.request [Sample.photo_png]) = "https"
  /\ Http.host (Sample.request [Sample.photo_png]) = Some "img.example.com"
  /\ snd (Part000.post_api_upload (Part000.config Sample.production) Sample.rt
            (Sample.request [Sample.photo_png]) Sample.empty)
     = Http.mkResponse 201
         (Js.VObj [("success", Js.VBool true);
                   ("message", Js.VStr "Image uploaded successfully");
                   ("image",
                    Js.VObj [("id", Js.VId "65a1f0c2e4b0a1b2c3d4e5f6");
                             ("name", Js.VStr "photo.png");
                             ("url", Js.VStr "http://localhost:3001/uploads/img-1700000000000.png");
                             ("size", Js.VNum 4);
                             ("uploadedAt", Js.VDate 1700000000005)])])
  /\ Part000.imageUrl (Part000.config Sample.production) "img-1700000000000.png"
     <> "https://img.example.com/uploads/img-1700000000000.png"
  /\ snd (ServerJs.post_api_upload (ServerJs.config Sample.development)
            Sample2.rt_write_fails (Sample.request [Sample.photo_png]) Sample.empty)
     = Http.mkResponse 500
         (Js.VObj [("success", Js.VBool false);
                   ("error", Js.VStr "Internal server error");
                   ("details",
                    Js.VStr "EACCES: permission denied, open '/app/uploads/1700000000000-42.png'")])
  /\ snd (ServerJs.post_api_upload
            (ServerJs.config (with_dirname "/srv" Sample.development))
            Sample2.rt_write_fails (Sample.request [Sample.photo_png]) Sample.empty)
     <> snd (ServerJs.post_api_upload (ServerJs.config Sample.development)
               Sample2.rt_write_fails (Sample.request [Sample.photo_png])
               Sample.empty).
Proof.
  split; [reflexivity |]. split; [reflexivity |]. split; [reflexivity |].
  split; [discriminate |]. split; [reflexivity |].
  vm_compute. discriminate.
Qed.


(** * Further properties *)

(** ** The upload directory as a store *)

Lemma find_unlink_same (path : string) (d : Fs.t) :
  find (fun e => String.eqb (fst e) path) (Fs.unlink path d) = None.
Proof.
  unfold Fs.unlink. induction d as [| e d IH]; simpl; [reflexivity |].
  destruct (String.eqb (fst e) path) eqn:E; simpl; [exact IH |].
  now rewrite E.
Qed.

Lemma find_unlink_other (path q : string) (d : Fs.t) :
  q <> path ->
  find (fun e => String.eqb (fst e) q) (Fs.unlink path d)
  = find (fun e => String.eqb (fst e) q) d.
Proof.
  intros Hne. unfold Fs.unlink. induction d as [| e d IH]; simpl; [reflexivity |].
  destruct (String.eqb (fst e) path) eqn:E; simpl.
  - apply String.eqb_eq in E.
    destruct (String.eqb (fst e) q) eqn:E'; [| exact IH].
    apply String.eqb_eq in E'. congruence.
  - destruct (String.eqb (fst e) q); [reflexivity | exact IH].
Qed.

Lemma find_app_none {A : Type} (f : A -> bool) (l1 l2 : list A) :
  find f l1 = None -> find f (l1 ++ l2) = find f l2.
Proof.
  induction l1 as [| x l1 IH]; simpl; [reflexivity |].
  destruct (f x); [discriminate | exact IH].
Qed.

Lemma find_app_some {A : Type} (f : A -> bool) (l1 l2 : list A) (x : A) :
  find f l1 = Some x -> find f (l1 ++ l2) = Some x.
Proof.
  induction l1 as [| y l1 IH]; simpl; [discriminate |].
  destruct (f y); [trivial | exact IH].
Qed.


Lemma fs_read_unlink_other (path q : string) (d : Fs.t) :
  q <> path -> fs_read q (Fs.unlink path d) = fs_read q d.
Proof. intros H. unfold fs_read. now rewrite find_unlink_other. Qed.

Lemma fs_read_write_same (path : string) (bytes : list Byte.byte) (d : Fs.t) :
  fs_read path (Fs.write path bytes d) = Some bytes.
Proof.
  unfold fs_read, Fs.write.
  rewrite find_app_none by apply find_unlink_same.
  simpl. now rewrite String.eqb_refl.
Qed.

Lemma fs_read_write_other (path q : string) (bytes : list Byte.byte) (d : Fs.t) :
  q <> path -> fs_read q (Fs.write path bytes d) = fs_read q d.
Proof.
  intros Hne. unfold fs_read, Fs.write.
  destruct (find (fun e => String.eqb (fst e) q) (Fs.unlink path d)) as [e |] eqn:E.
  - rewrite (find_app_some _ _ _ _ E). rewrite find_unlink_other in E by assumption.
    now rewrite E.
  - rewrite (find_app_none _ _ _ E). rewrite find_unlink_other in E by assumption.
    rewrite E. simpl.
    destruct (String.eqb path q) eqn:E'; [| reflexivity].
    apply String.eqb_eq in E'. congruence.
Qed.


(** ** The size limit *)


Lemma over_limit_below (o : Multer.options) (rt : Runtime.t) (n : N) :
  (n < Multer.fileSize o)%N -> Multer.over_limit o rt n = false.
Proof.
  intros H. unfold Multer.over_limit.
  destruct (N.ltb_spec (Multer.fileSize o) n); [lia |].
  destruct (N.eqb_spec n (Multer.fileSize o)); [lia | reflexivity].
Qed.

Lemma over_limit_false (o : Multer.options) (rt : Runtime.t) (n : N) :
  Multer.over_limit o rt n = false -> (n <= Multer.fileSize o)%N.
Proof.
  unfold Multer.over_limit. intros H.
  apply orb_false_iff in H. destruct H as [H _]. now apply N.ltb_ge in H.
Qed.

(** ** multer on the files of a request *)

Lemma receive_files_only (o : Multer.options) (rt : Runtime.t)
      (req : Http.Request) (field : string) (ps : list Http.Part) :
  forall n stored d,
    Multer.receive o rt req field ps n stored d
    = Multer.receive o rt req field (filter is_file ps) n stored d.
Proof.
  induction ps as [| p ps IH]; intros n stored d; simpl; [reflexivity |].
  unfold is_file at 1.
  destruct (String.eqb (Http.originalname p) "") eqn:Hname; simpl.
  - apply IH.
  - rewrite Hname.
    destruct (negb (String.eqb (Http.fieldname p) field)); [reflexivity |].
    destruct n as [| n]; [reflexivity |].
    destruct (Multer.fileFilter o req p) as [[err |] [|]]; try reflexivity.
    + destruct (Runtime.write_failure rt); [reflexivity |].
      destruct (Multer.over_limit _ _ _); [reflexivity |]. apply IH.
    + apply IH.
Qed.

Lemma filter_is_file_head (ps : list Http.Part) (p : Http.Part)
      (rest : list Http.Part) :
  filter is_file ps = p :: rest ->
  String.eqb (Http.originalname p) "" = false.
Proof.
  intros H.
  assert (Hin : In p (filter is_file ps)) by (rewrite H; now left).
  apply filter_In in Hin. destruct Hin as [_ Hp].
  unfold is_file in Hp. now apply negb_true_iff in Hp.
Qed.

Section OneGoodFile.

Variables (o : Multer.options) (rt : Runtime.t) (req : Http.Request).
Variables (p : Http.Part) (rest : list Http.Part) (d : Fs.t).
Hypothesis Hfiles : files_of req = p :: rest.
Hypothesis Hfield : Http.fieldname p = "image".
Hypothesis Haccept : Multer.fileFilter o req p = (None, true).
Hypothesis Hwrite : Runtime.write_failure rt = None.

Let path := Path.join (Multer.destination o) (Multer.filename o rt p).


Lemma single_only_file :
  rest = [] ->
  (byte_length p < Multer.fileSize o)%N ->
  Multer.single o "image" rt req d
  = (Fs.write path (Http.content p) d, Multer.Next (Some (stored_file o rt p))).
Proof.
  intros -> Hsmall. unfold Multer.single. rewrite receive_files_only.
  fold (files_of req). rewrite Hfiles. simpl.
  rewrite (filter_is_file_head _ _ _ Hfiles), Hfield. simpl.
  rewrite Haccept, Hwrite.
  apply (over_limit_below o rt) in Hsmall. unfold byte_length in Hsmall.
  rewrite Hsmall.
  unfold stored_file, byte_length. now rewrite Hfield.
Qed.


End OneGoodFile.

(** ** What the filters let through *)

Lemma ServerJs_filter_accepts (cfg : ServerJs.Config) (req : Http.Request) (p : Http.Part) :
  In (Http.mimetype p) allow_list ->
  Multer.fileFilter (ServerJs.upload cfg) req p = (None, true).
Proof.
  intros Hin. unfold ServerJs.upload. cbn [Multer.fileFilter].
  unfold ServerJs.fileFilter. change ServerJs.allowedTypes with allow_list.
  apply includes_In in Hin. now rewrite Hin.
Qed.

Lemma ServerJs_filter_accepts_only (cfg : ServerJs.Config) (req : Http.Request) (p : Http.Part) :
  Multer.fileFilter (ServerJs.upload cfg) req p = (None, true) ->
  In (Http.mimetype p) allow_list.
Proof.
  unfold ServerJs.upload. cbn [Multer.fileFilter]. unfold ServerJs.fileFilter.
  change ServerJs.allowedTypes with allow_list.
  destruct (Js.includes allow_list (Http.mimetype p)) eqn:E; [| discriminate].
  intros _. now apply includes_In.
Qed.

Lemma Part000_filter_accepts (cfg : Part000.Config) (req : Http.Request) (p : Http.Part) :
  In (Http.mimetype p) allow_list ->
  Multer.fileFilter (Part000.upload cfg) req p = (None, true).
Proof.
  intros Hin. unfold Part000.upload. cbn [Multer.fileFilter].
  unfold Part000.fileFilter. change Part000.allowedTypes with allow_list.
  apply includes_In in Hin. now rewrite Hin.
Qed.

Lemma Part000_filter_accepts_only (cfg : Part000.Config) (req : Http.Request) (p : Http.Part) :
  Multer.fileFilter (Part000.upload cfg) req p = (None, true) ->
  In (Http.mimetype p) allow_list.
Proof.
  unfold Part000.upload. cbn [Multer.fileFilter]. unfold Part000.fileFilter.
  change Part000.allowedTypes with allow_list.
  destruct (Js.includes allow_list (Http.mimetype p)) eqn:E; [| discriminate].
  intros _. now apply includes_In.
Qed.

Lemma Part001_filter_accepts (cfg : Part001.Config) (req : Http.Request) (p : Http.Part) :
  In (Http.mimetype p) allow_list ->
  Multer.fileFilter (Part001.upload cfg) req p = (None, true).
Proof.
  intros Hin. unfold Part001.upload. cbn [Multer.fileFilter].
  unfold Part001.fileFilter. change Part001.allowedTypes with allow_list.
  apply includes_In in Hin. now rewrite Hin.
Qed.

Lemma Part001_filter_accepts_only (cfg : Part001.Config) (req : Http.Request) (p : Http.Part) :
  Multer.fileFilter (Part001.upload cfg) req p = (None, true) ->
  In (Http.mimetype p) allow_list.
Proof.
  unfold Part001.upload. cbn [Multer.fileFilter]. unfold Part001.fileFilter.
  change Part001.allowedTypes with allow_list.
  destruct (Js.includes allow_list (Http.mimetype p)) eqn:E; [| discriminate].
  intros _. now apply includes_In.
Qed.

(** ** One good file *)

Section GoodUpload.

Variables (rt : Runtime.t) (req : Http.Request) (st : State) (p : Http.Part).
Variable rest : list Http.Part.
Hypothesis Hfiles : files_of req = p :: rest.
Hypothesis Hfield : Http.fieldname p = "image".
Hypothesis Hallowed : In (Http.mimetype p) allow_list.
Hypothesis Hwrite : Runtime.write_failure rt = None.



Lemma ServerJs_only_file_stored (cfg : ServerJs.Config) :
  rest = [] ->
  (byte_length p < ServerJs.MAX_FILE_SIZE cfg)%N ->
  Multer.single (ServerJs.upload cfg) "image" rt req (disk st)
  = (Fs.write (Path.join (ServerJs.UPLOAD_DIR cfg) (ServerJs.storage_filename rt p))
              (Http.content p) (disk st),
     Multer.Next (Some (stored_file (ServerJs.upload cfg) rt p))).
Proof.
  intros Hrest Hsmall.
  exact (single_only_file (ServerJs.upload cfg) rt req p rest (disk st)
           Hfiles Hfield (ServerJs_filter_accepts cfg req p Hallowed) Hwrite
           Hrest Hsmall).
Qed.



Lemma Part000_only_file_stored (cfg : Part000.Config) :
  rest = [] ->
  (byte_length p < Part000.MAX_FILE_SIZE cfg)%N ->
  Multer.single (Part000.upload cfg) "image" rt req (disk st)
  = (Fs.write (Path.join (Part000.UPLOAD_DIR cfg) (Part000.storage_filename rt p))
              (Http.content p) (disk st),
     Multer.Next (Some (stored_file (Part000.upload cfg) rt p))).
Proof.
  intros Hrest Hsmall.
  exact (single_only_file (Part000.upload cfg) rt req p rest (disk st)
           Hfiles Hfield (Part000_filter_accepts cfg req p Hallowed) Hwrite
           Hrest Hsmall).
Qed.



Lemma Part001_only_file_stored (cfg : Part001.Config) :
  rest = [] ->
  (byte_length p < Part001.MAX_FILE_SIZE cfg)%N ->
  Multer.single (Part001.upload cfg) "image" rt req (disk st)
  = (Fs.write (Path.join (Part001.UPLOAD_DIR cfg) (Part001.storage_filename rt p))
              (Http.content p) (disk st),
     Multer.Next (Some (stored_file (Part001.upload cfg) rt p))).
Proof.
  intros Hrest Hsmall.
  exact (single_only_file (Part001.upload cfg) rt req p rest (disk st)
           Hfiles Hfield (Part001_filter_accepts cfg req p Hallowed) Hwrite
           Hrest Hsmall).
Qed.

Lemma ServerJs_save_rejected (cfg : ServerJs.Config) (msg : string) :
  rest = [] ->
  (byte_length p < ServerJs.MAX_FILE_SIZE cfg)%N ->
  Runtime.save_failure rt = Some msg ->
  ServerJs.post_api_upload cfg rt req st
  = (mkState (Fs.write (Path.join (ServerJs.UPLOAD_DIR cfg) (ServerJs.storage_filename rt p))
                       (Http.content p) (disk st))
             (images st),
     Http.mkResponse 500
             (Js.stringify
                (Js.VObj [("success", Js.VBool false);
                          ("error", Js.VStr "Server error during upload");
                          ("details", ServerJs.details cfg (Js.Error msg))]))).
Proof.
  intros Hrest Hsmall Hsave. unfold ServerJs.post_api_upload.
  rewrite (ServerJs_only_file_stored cfg Hrest Hsmall).
  unfold ServerJs.upload_handler, Mongoose.save. rewrite Hsave. reflexivity.
Qed.

Lemma Part000_save_rejected (cfg : Part000.Config) (msg : string) :
  rest = [] ->
  (byte_length p < Part000.MAX_FILE_SIZE cfg)%N ->
  Runtime.save_failure rt = Some msg ->
  Part000.post_api_upload cfg rt req st
  = (mkState (Fs.write (Path.join (Part000.UPLOAD_DIR cfg) (Part000.storage_filename rt p))
                       (Http.content p) (disk st))
             (images st),
     Http.mkResponse 500
             (Js.VObj [("success", Js.VBool false); ("error", Js.VStr msg)])).
Proof.
  intros Hrest Hsmall Hsave. unfold Part000.post_api_upload.
  rewrite (Part000_only_file_stored cfg Hrest Hsmall).
  unfold Part000.upload_handler, Mongoose.save. rewrite Hsave. reflexivity.
Qed.

Lemma Part001_save_rejected (cfg : Part001.Config) (msg : string) :
  rest = [] ->
  (byte_length p < Part001.MAX_FILE_SIZE cfg)%N ->
  Runtime.save_failure rt = Some msg ->
  Part001.post_api_upload cfg rt req st
  = (mkState (Fs.write (Path.join (Part001.UPLOAD_DIR cfg) (Part001.storage_filename rt p))
                       (Http.content p) (disk st))
             (images st),
     Http.mkResponse 500
             (Js.VObj [("success", Js.VBool false); ("error", Js.VStr "Server error during upload")])).
Proof.
  intros Hrest Hsmall Hsave. unfold Part001.post_api_upload.
  rewrite (Part001_only_file_stored cfg Hrest Hsmall).
  unfold Part001.upload_handler, Mongoose.save. rewrite Hsave. reflexivity.
Qed.

End GoodUpload.

(** X1. A request whose only file sits in the field [image], has an
    allowed media type and fewer than 5 MiB, and meets no failure of
    disk or database, is answered 201 by each server.  Exactly one record is
    added; the record's path lies directly under the upload directory,
    the bytes found there are the bytes sent, and the record's size is
    their number. *)
Theorem one_good_file_is_stored_and_recorded :
  forall (pe : Process.env) (rt : Runtime.t) (req : Http.Request) (st : State)
         (p : Http.Part),
    files_of req = [p] ->
    Http.fieldname p = "image" ->
    In (Http.mimetype p) allow_list ->
    (byte_length p < 5 * 1024 * 1024)%N ->
    Runtime.write_failure rt = None ->
    Runtime.save_failure rt = None ->
    (let doc := created_record rt (stored_file (ServerJs.upload (ServerJs.config pe)) rt p) in
     let (st', res) := ServerJs.post_api_upload (ServerJs.config pe) rt req st in
     Http.status res = 201%N
     /\ images st' = images st ++ [doc]
     /\ fs_read (Mongoose.path doc) (disk st') = Some (Http.content p)
     /\ Mongoose.path doc
        = Path.join (Path.join (Process.dirname pe) "uploads")
                    (ServerJs.storage_filename rt p)
     /\ Mongoose.size doc = byte_length p
     /\ Mongoose.mimetype doc = Http.mimetype p
     /\ Mongoose.originalname doc = Http.originalname p)
    /\ (let doc := created_record rt (stored_file (Part000.upload (Part000.config pe)) rt p) in
        let (st', res) := Part000.post_api_upload (Part000.config pe) rt req st in
        Http.status res = 201%N
        /\ images st' = images st ++ [doc]
        /\ fs_read (Mongoose.path doc) (disk st') = Some (Http.content p)
        /\ Mongoose.path doc
           = Path.join (Path.join (Process.dirname pe) "uploads")
                       (Part000.storage_filename rt p)
        /\ Mongoose.size doc = byte_length p
        /\ Mongoose.mimetype doc = Http.mimetype p
        /\ Mongoose.originalname doc = Http.originalname p)
    /\ (let doc := created_record rt (stored_file (Part001.upload (Part001.config pe)) rt p) in
        let (st', res) := Part001.post_api_upload (Part001.config pe) rt req st in
        Http.status res = 201%N
        /\ images st' = images st ++ [doc]
        /\ fs_read (Mongoose.path doc) (disk st') = Some (Http.content p)
        /\ Mongoose.path doc
           = Path.join (Path.join (Process.dirname pe) "uploads")
                       (Part001.storage_filename rt p)
        /\ Mongoose.size doc = byte_length p
        /\ Mongoose.mimetype doc = Http.mimetype p
        /\ Mongoose.originalname doc = Http.originalname p).
Proof.
  intros pe rt req st p Hfiles Hfield Hallowed Hsmall Hwrite Hsave.
  split; [| split]; cbv zeta.
  - rewrite (ServerJs_successful_upload rt req st _ _ Hsave _
               (ServerJs_only_file_stored rt req st p [] Hfiles Hfield Hallowed
                  Hwrite (ServerJs.config pe) eq_refl Hsmall)).
    cbn [disk images]. repeat split. apply fs_read_write_same.
  - rewrite (Part000_successful_upload rt req st _ _ Hsave _
               (Part000_only_file_stored rt req st p [] Hfiles Hfield Hallowed
                  Hwrite (Part000.config pe) eq_refl Hsmall)).
    cbn [disk images]. repeat split. apply fs_read_write_same.
  - rewrite (Part001_successful_upload rt req st _ _ Hsave _
               (Part001_only_file_stored rt req st p [] Hfiles Hfield Hallowed
                  Hwrite (Part001.config pe) eq_refl Hsmall)).
    cbn [disk images]. repeat split. apply fs_read_write_same.
Qed.

(** X1 at the upload of [photo.png] into a directory that holds another
    file already. *)
Lemma one_good_file_is_stored_and_recorded_witness :
  files_of (Sample.request [Sample.photo_png]) = [Sample.photo_png]
  /\ In (Http.mimetype Sample.photo_png) allow_list
  /\ fs_read "/app/uploads/1700000000000-42.png"
       (disk (fst (ServerJs.post_api_upload (ServerJs.config Sample.production)
                     Sample.rt (Sample.request [Sample.photo_png])
                     Sample2.stranger)))
     = Some Sample.png_bytes.
Proof.
  split; [reflexivity |]. split; [simpl; tauto |].
  assert (Hin : In (Http.mimetype Sample.photo_png) allow_list) by (simpl; tauto).
  assert (Hsize : (byte_length Sample.photo_png < 5 * 1024 * 1024)%N)
    by reflexivity.
  destruct (one_good_file_is_stored_and_recorded Sample.production Sample.rt
              (Sample.request [Sample.photo_png]) Sample2.stranger
              Sample.photo_png eq_refl eq_refl Hin Hsize eq_refl eq_refl)
    as [HS _].
  cbv zeta in HS.
  destruct (ServerJs.post_api_upload _ _ _ _) as [st' res].
  exact (proj1 (proj2 (proj2 HS))).
Defined.



(** X3. When a file of fewer than 5 MiB is stored but the save is
    rejected, each server
    answers 500 and adds no record, while the file stays on disk: an
    orphan.  The error text is fixed in server.js and part_001; part_000
    sends the database's own message. *)
Theorem rejected_save_answers_500_and_orphans_the_file :
  forall (pe : Process.env) (rt : Runtime.t) (req : Http.Request) (st : State)
         (p : Http.Part) (msg : string),
    files_of req = [p] ->
    Http.fieldname p = "image" ->
    In (Http.mimetype p) allow_list ->
    (byte_length p < 5 * 1024 * 1024)%N ->
    Runtime.write_failure rt = None ->
    Runtime.save_failure rt = Some msg ->
    (let (st', res) := ServerJs.post_api_upload (ServerJs.config pe) rt req st in
     Http.status res = 500%N
     /\ Js.get "error" (Http.body res) = Some (Js.VStr "Server error during upload")
     /\ images st' = images st
     /\ fs_read (Path.join (Path.join (Process.dirname pe) "uploads")
                           (ServerJs.storage_filename rt p))
                (disk st') = Some (Http.content p))
    /\ (let (st', res) := Part000.post_api_upload (Part000.config pe) rt req st in
        Http.status res = 500%N
        /\ Js.get "error" (Http.body res) = Some (Js.VStr msg)
        /\ images st' = images st
        /\ fs_read (Path.join (Path.join (Process.dirname pe) "uploads")
                              (Part000.storage_filename rt p))
                   (disk st') = Some (Http.content p))
    /\ (let (st', res) := Part001.post_api_upload (Part001.config pe) rt req st in
        Http.status res = 500%N
        /\ Js.get "error" (Http.body res) = Some (Js.VStr "Server error during upload")
        /\ images st' = images st
        /\ fs_read (Path.join (Path.join (Process.dirname pe) "uploads")
                              (Part001.storage_filename rt p))
                   (disk st') = Some (Http.content p)).
Proof.
  intros pe rt req st p msg Hfiles Hfield Hallowed Hsmall Hwrite Hsave.
  split; [| split].
  - rewrite (ServerJs_save_rejected rt req st p [] Hfiles Hfield Hallowed Hwrite
               (ServerJs.config pe) msg eq_refl Hsmall Hsave).
    unfold ServerJs.details.
    destruct (String.eqb (ServerJs.NODE_ENV (ServerJs.config pe)) "development");
      cbn [disk images]; repeat split; apply fs_read_write_same.
  - rewrite (Part000_save_rejected rt req st p [] Hfiles Hfield Hallowed Hwrite
               (Part000.config pe) msg eq_refl Hsmall Hsave).
    cbn [disk images]. repeat split. apply fs_read_write_same.
  - rewrite (Part001_save_rejected rt req st p [] Hfiles Hfield Hallowed Hwrite
               (Part001.config pe) msg eq_refl Hsmall Hsave).
    cbn [disk images]. repeat split. apply fs_read_write_same.
Qed.

(** X3 at a database that has lost its connection. *)
Lemma rejected_save_answers_500_and_orphans_the_file_witness :
  Runtime.save_failure Sample.rt_save_fails = Some "connection lost"
  /\ fst (Part000.post_api_upload (Part000.config Sample.production)
            Sample.rt_save_fails (Sample.request [Sample.photo_png]) Sample.empty)
     = mkState [("/app/uploads/img-1700000000000.png", Sample.png_bytes)] []
  /\ Js.get "error"
       (Http.body
          (snd (Part000.post_api_upload (Part000.config Sample.production)
                  Sample.rt_save_fails (Sample.request [Sample.photo_png])
                  Sample.empty)))
     = Some (Js.VStr "connection lost").
Proof.
  split; [reflexivity |]. split; [reflexivity |].
  assert (Hin : In (Http.mimetype Sample.photo_png) allow_list) by (simpl; tauto).
  assert (Hsize : (byte_length Sample.photo_png < 5 * 1024 * 1024)%N)
    by reflexivity.
  destruct (rejected_save_answers_500_and_orphans_the_file Sample.production
              Sample.rt_save_fails (Sample.request [Sample.photo_png]) Sample.empty
              Sample.photo_png "connection lost" eq_refl eq_refl Hin Hsize
              eq_refl eq_refl)
    as [_ [H0 _]].
  destruct (Part000.post_api_upload _ _ _ _) as [st' res].
  exact (proj1 (proj2 H0)).
Defined.



(** ** What an upload can do to the collection *)

Lemma ServerJs_upload_outcomes (cfg : ServerJs.Config) (rt : Runtime.t)
      (req : Http.Request) (st : State) :
  (Http.status (snd (ServerJs.post_api_upload cfg rt req st)) = 201%N
   /\ exists doc, images (fst (ServerJs.post_api_upload cfg rt req st)) = images st ++ [doc])
  \/ ((Http.status (snd (ServerJs.post_api_upload cfg rt req st)) = 400%N
       \/ Http.status (snd (ServerJs.post_api_upload cfg rt req st)) = 500%N)
      /\ images (fst (ServerJs.post_api_upload cfg rt req st)) = images st).
Proof.
  unfold ServerJs.post_api_upload.
  destruct (Multer.single _ _ _ _ _) as [d [file | e]].
  - unfold ServerJs.upload_handler, Mongoose.save.
    destruct file as [f |]; [| right; split; [now left | reflexivity]].
    destruct (Runtime.save_failure rt).
    + right. split; [now right | reflexivity].
    + left. split; [reflexivity | eexists; reflexivity].
  - right. unfold ServerJs.error_middleware.
    destruct e; split; try reflexivity; [now right | now left].
Qed.

Lemma Part000_upload_outcomes (cfg : Part000.Config) (rt : Runtime.t)
      (req : Http.Request) (st : State) :
  (Http.status (snd (Part000.post_api_upload cfg rt req st)) = 201%N
   /\ exists doc, images (fst (Part000.post_api_upload cfg rt req st)) = images st ++ [doc])
  \/ ((Http.status (snd (Part000.post_api_upload cfg rt req st)) = 400%N
       \/ Http.status (snd (Part000.post_api_upload cfg rt req st)) = 500%N)
      /\ images (fst (Part000.post_api_upload cfg rt req st)) = images st).
Proof.
  unfold Part000.post_api_upload.
  destruct (Multer.single _ _ _ _ _) as [d [file | e]].
  - unfold Part000.upload_handler, Mongoose.save.
    destruct file as [f |]; [| right; split; [now left | reflexivity]].
    destruct (Runtime.save_failure rt).
    + right. split; [now right | reflexivity].
    + left. split; [reflexivity | eexists; reflexivity].
  - right. unfold Part000.error_middleware.
    destruct e; split; try reflexivity; [now right | now left].
Qed.

Lemma Part001_upload_outcomes (cfg : Part001.Config) (rt : Runtime.t)
      (req : Http.Request) (st : State) :
  (Http.status (snd (Part001.post_api_upload cfg rt req st)) = 201%N
   /\ exists doc, images (fst (Part001.post_api_upload cfg rt req st)) = images st ++ [doc])
  \/ ((Http.status (snd (Part001.post_api_upload cfg rt req st)) = 400%N
       \/ Http.status (snd (Part001.post_api_upload cfg rt req st)) = 500%N)
      /\ images (fst (Part001.post_api_upload cfg rt req st)) = images st).
Proof.
  unfold Part001.post_api_upload.
  destruct (Multer.single _ _ _ _ _) as [d [file | e]].
  - unfold Part001.upload_handler, Mongoose.save.
    destruct file as [f |]; [| right; split; [now left | reflexivity]].
    destruct (Runtime.save_failure rt).
    + right. split; [now right | reflexivity].
    + left. split; [reflexivity | eexists; reflexivity].
  - right. unfold Part001.error_middleware.
    destruct e; split; try reflexivity; [now right | now left].
Qed.

(** X5. Whatever the request and whatever fails, each server answers an
    upload with 201, 400 or 500 and nothing else.  With 201 the
    collection is the old one followed by exactly one new record; with
    400 and 500 it is the old one: no record is ever changed, moved or
    removed. *)
Theorem upload_answers_201_400_or_500_and_only_appends :
  forall (rt : Runtime.t) (req : Http.Request) (st : State)
         (cfgS : ServerJs.Config) (cfg0 : Part000.Config) (cfg1 : Part001.Config),
    ((Http.status (snd (ServerJs.post_api_upload cfgS rt req st)) = 201%N
      /\ exists doc,
          images (fst (ServerJs.post_api_upload cfgS rt req st)) = images st ++ [doc])
     \/ ((Http.status (snd (ServerJs.post_api_upload cfgS rt req st)) = 400%N
          \/ Http.status (snd (ServerJs.post_api_upload cfgS rt req st)) = 500%N)
         /\ images (fst (ServerJs.post_api_upload cfgS rt req st)) = images st))
    /\ ((Http.status (snd (Part000.post_api_upload cfg0 rt req st)) = 201%N
         /\ exists doc,
             images (fst (Part000.post_api_upload cfg0 rt req st)) = images st ++ [doc])
        \/ ((Http.status (snd (Part000.post_api_upload cfg0 rt req st)) = 400%N
             \/ Http.status (snd (Part000.post_api_upload cfg0 rt req st)) = 500%N)
            /\ images (fst (Part000.post_api_upload cfg0 rt req st)) = images st))
    /\ ((Http.status (snd (Part001.post_api_upload cfg1 rt req st)) = 201%N
         /\ exists doc,
             images (fst (Part001.post_api_upload cfg1 rt req st)) = images st ++ [doc])
        \/ ((Http.status (snd (Part001.post_api_upload cfg1 rt req st)) = 400%N
             \/ Http.status (snd (Part001.post_api_upload cfg1 rt req st)) = 500%N)
            /\ images (fst (Part001.post_api_upload cfg1 rt req st)) = images st)).
Proof.
  intros rt req st cfgS cfg0 cfg1. split; [| split].
  - apply ServerJs_upload_outcomes.
  - apply Part000_upload_outcomes.
  - apply Part001_upload_outcomes.
Qed.

Lemma run_uploads_appends
      (post : Runtime.t -> Http.Request -> State -> State * Http.Response) :
  (forall rt req st,
      (Http.status (snd (post rt req st)) = 201%N
       /\ exists doc, images (fst (post rt req st)) = images st ++ [doc])
      \/ ((Http.status (snd (post rt req st)) = 400%N
           \/ Http.status (snd (post rt req st)) = 500%N)
          /\ images (fst (post rt req st)) = images st)) ->
  forall reqs st,
  exists added,
    images (fst (run_uploads post reqs st)) = images st ++ added
    /\ List.length added = count_created (snd (run_uploads post reqs st)).
Proof.
  intros Hpost reqs. induction reqs as [| [rt req] reqs IH]; intros st; simpl.
  - exists []. split; [now rewrite app_nil_r | reflexivity].
  - specialize (Hpost rt req st).
    destruct (post rt req st) as [st1 r]. simpl in Hpost.
    destruct (IH st1) as [added [Himg Hlen]].
    destruct (run_uploads post reqs st1) as [st2 rs]. simpl in *.
    unfold count_created in *. simpl.
    destruct Hpost as [[H201 [doc Hdoc]] | [Hother Hsame]].
    + exists (doc :: added). rewrite Himg, Hdoc, <- app_assoc. split; [reflexivity |].
      rewrite H201. simpl. now rewrite Hlen.
    + exists added. rewrite Himg, Hsame. split; [reflexivity |].
      destruct Hother as [-> | ->]; simpl; exact Hlen.
Qed.

(** X6. Over any run of upload requests, successful or not, the
    collection ends as the one it began with followed by one record for
    each 201 that was answered: failed uploads leave no record, and
    successful ones leave exactly one each. *)
Theorem records_added_equal_created_responses :
  forall (reqs : list (Runtime.t * Http.Request)) (st : State)
         (cfgS : ServerJs.Config) (cfg0 : Part000.Config) (cfg1 : Part001.Config),
    (exists added,
        images (fst (run_uploads (ServerJs.post_api_upload cfgS) reqs st))
        = images st ++ added
        /\ List.length added
           = count_created (snd (run_uploads (ServerJs.post_api_upload cfgS) reqs st)))
    /\ (exists added,
           images (fst (run_uploads (Part000.post_api_upload cfg0) reqs st))
           = images st ++ added
           /\ List.length added
              = count_created (snd (run_uploads (Part000.post_api_upload cfg0) reqs st)))
    /\ (exists added,
           images (fst (run_uploads (Part001.post_api_upload cfg1) reqs st))
           = images st ++ added
           /\ List.length added
              = count_created (snd (run_uploads (Part001.post_api_upload cfg1) reqs st))).
Proof.
  intros reqs st cfgS cfg0 cfg1. split; [| split].
  - apply run_uploads_appends. apply ServerJs_upload_outcomes.
  - apply run_uploads_appends. apply Part000_upload_outcomes.
  - apply run_uploads_appends. apply Part001_upload_outcomes.
Qed.

Example mixed_run_counts :
  let run := run_uploads (ServerJs.post_api_upload (ServerJs.config Sample.production))
               [(Sample.rt, Sample.request [Sample.photo_png]);
                (Sample.rt_later, Sample.request [Sample.notes_txt]);
                (Sample.rt_later, Sample.request []);
                (Sample.rt_later, Sample.request [Sample.other_png])]
               Sample.empty in
  map Http.status (snd run) = [201%N; 500%N; 400%N; 201%N]
  /\ map Mongoose.originalname (images (fst run)) = ["photo.png"; "holiday.png"].
Proof. split; reflexivity. Qed.

(** ** What every record looks like *)

Lemma receive_well_formed (o : Multer.options) (rt : Runtime.t)
      (req : Http.Request) (field : string) :
  (forall p, Multer.fileFilter o req p = (None, true) ->
             In (Http.mimetype p) allow_list) ->
  forall ps n stored d d' files,
    Forall (well_formed_file o) stored ->
    Multer.receive o rt req field ps n stored d = (d', Multer.Done files) ->
    Forall (well_formed_file o) files.
Proof.
  intros Hfilter ps.
  induction ps as [| p ps IH]; intros n stored d d' files Hstored; simpl.
  - intros H. injection H as _ <-. exact Hstored.
  - destruct (String.eqb (Http.originalname p) "") eqn:Hname; [now apply IH |].
    destruct (negb (String.eqb (Http.fieldname p) field)); [discriminate |].
    destruct n as [| n]; [discriminate |].
    destruct (Multer.fileFilter o req p) as [[err |] [|]] eqn:Hp; try discriminate.
    + destruct (Runtime.write_failure rt); [discriminate |].
      destruct (Multer.over_limit _ _ _) eqn:Hsize; [discriminate |].
      apply IH. apply Forall_app. split; [exact Hstored |].
      constructor; [| constructor].
      unfold well_formed_file. cbn.
      split; [now apply Hfilter |]. split; [now apply over_limit_false in Hsize |].
      split; [reflexivity |].
      intros Habs. rewrite Habs in Hname. discriminate.
    + now apply IH.
Qed.

Lemma single_well_formed (o : Multer.options) (rt : Runtime.t)
      (req : Http.Request) (d d' : Fs.t) (f : Multer.File) :
  (forall p, Multer.fileFilter o req p = (None, true) ->
             In (Http.mimetype p) allow_list) ->
  Multer.single o "image" rt req d = (d', Multer.Next (Some f)) ->
  well_formed_file o f.
Proof.
  intros Hfilter. unfold Multer.single.
  destruct (Multer.receive o rt req "image" (Http.parts req) 1 [] d)
    as [d1 [files | e]] eqn:E; [| discriminate].
  intros H. injection H as _ Hhd.
  pose proof (receive_well_formed o rt req "image" Hfilter _ _ _ _ _ _
                (Forall_nil _) E) as Hall.
  destruct files as [| f0 files]; [discriminate |].
  simpl in Hhd. injection Hhd as ->. now inversion Hall.
Qed.

Lemma created_record_well_formed (o : Multer.options) (rt : Runtime.t)
      (f : Multer.File) :
  well_formed_file o f -> well_formed_record o (created_record rt f).
Proof. intros H. exact H. Qed.

Lemma ServerJs_upload_keeps_records_well_formed (cfg : ServerJs.Config) (rt : Runtime.t)
      (req : Http.Request) (st : State) :
  Forall (well_formed_record (ServerJs.upload cfg)) (images st) ->
  Forall (well_formed_record (ServerJs.upload cfg))
         (images (fst (ServerJs.post_api_upload cfg rt req st))).
Proof.
  intros Hst. unfold ServerJs.post_api_upload.
  destruct (Multer.single _ _ _ _ _) as [d [file | e]] eqn:E; [| exact Hst].
  unfold ServerJs.upload_handler, Mongoose.save.
  destruct file as [f |]; [| exact Hst].
  destruct (Runtime.save_failure rt); [exact Hst |].
  cbn [fst images]. apply Forall_app. split; [exact Hst |].
  constructor; [| constructor].
  apply (created_record_well_formed _ rt f).
  apply (single_well_formed _ rt req (disk st) d f); [| exact E].
  intros p. apply ServerJs_filter_accepts_only.
Qed.

Lemma Part000_upload_keeps_records_well_formed (cfg : Part000.Config) (rt : Runtime.t)
      (req : Http.Request) (st : State) :
  Forall (well_formed_record (Part000.upload cfg)) (images st) ->
  Forall (well_formed_record (Part000.upload cfg))
         (images (fst (Part000.post_api_upload cfg rt req st))).
Proof.
  intros Hst. unfold Part000.post_api_upload.
  destruct (Multer.single _ _ _ _ _) as [d [file | e]] eqn:E; [| exact Hst].
  unfold Part000.upload_handler, Mongoose.save.
  destruct file as [f |]; [| exact Hst].
  destruct (Runtime.save_failure rt); [exact Hst |].
  cbn [fst images]. apply Forall_app. split; [exact Hst |].
  constructor; [| constructor].
  apply (created_record_well_formed _ rt f).
  apply (single_well_formed _ rt req (disk st) d f); [| exact E].
  intros p. apply Part000_filter_accepts_only.
Qed.

Lemma Part001_upload_keeps_records_well_formed (cfg : Part001.Config) (rt : Runtime.t)
      (req : Http.Request) (st : State) :
  Forall (well_formed_record (Part001.upload cfg)) (images st) ->
  Forall (well_formed_record (Part001.upload cfg))
         (images (fst (Part001.post_api_upload cfg rt req st))).
Proof.
  intros Hst. unfold Part001.post_api_upload.
  destruct (Multer.single _ _ _ _ _) as [d [file | e]] eqn:E; [| exact Hst].
  unfold Part001.upload_handler, Mongoose.save.
  destruct file as [f |]; [| exact Hst].
  destruct (Runtime.save_failure rt); [exact Hst |].
  cbn [fst images]. apply Forall_app. split; [exact Hst |].
  constructor; [| constructor].
  apply (created_record_well_formed _ rt f).
  apply (single_well_formed _ rt req (disk st) d f); [| exact E].
  intros p. apply Part001_filter_accepts_only.
Qed.

Lemma run_uploads_invariant
      (post : Runtime.t -> Http.Request -> State -> State * Http.Response)
      (P : Mongoose.Image -> Prop) :
  (forall rt req st,
      Forall P (images st) -> Forall P (images (fst (post rt req st)))) ->
  forall reqs st,
    Forall P (images st) -> Forall P (images (fst (run_uploads post reqs st))).
Proof.
  intros Hpost reqs. induction reqs as [| [rt req] reqs IH]; intros st Hst; simpl.
  - exact Hst.
  - specialize (Hpost rt req st Hst).
    destruct (post rt req st) as [st1 r]. simpl in Hpost.
    specialize (IH st1 Hpost).
    now destruct (run_uploads post reqs st1) as [st2 rs].
Qed.

(** X7. Every record an upload creates has a media type of the
    allow-list, a size within the configured limit, a non-empty original
    name, and a path that is its file name directly under the upload
    directory; a collection whose records are such stays so over any run
    of upload requests. *)
Theorem records_stay_well_formed :
  forall (reqs : list (Runtime.t * Http.Request)) (st : State)
         (cfgS : ServerJs.Config) (cfg0 : Part000.Config) (cfg1 : Part001.Config),
    (Forall (well_formed_record (ServerJs.upload cfgS)) (images st) ->
     Forall (well_formed_record (ServerJs.upload cfgS))
            (images (fst (run_uploads (ServerJs.post_api_upload cfgS) reqs st))))
    /\ (Forall (well_formed_record (Part000.upload cfg0)) (images st) ->
        Forall (well_formed_record (Part000.upload cfg0))
               (images (fst (run_uploads (Part000.post_api_upload cfg0) reqs st))))
    /\ (Forall (well_formed_record (Part001.upload cfg1)) (images st) ->
        Forall (well_formed_record (Part001.upload cfg1))
               (images (fst (run_uploads (Part001.post_api_upload cfg1) reqs st)))).
Proof.
  intros reqs st cfgS cfg0 cfg1. split; [| split].
  - apply run_uploads_invariant. intros rt req.
    apply ServerJs_upload_keeps_records_well_formed.
  - apply run_uploads_invariant. intros rt req.
    apply Part000_upload_keeps_records_well_formed.
  - apply run_uploads_invariant. intros rt req.
    apply Part001_upload_keeps_records_well_formed.
Qed.

(** X7 on an empty collection and a run of a good and a bad upload. *)
Lemma records_stay_well_formed_witness :
  Forall (well_formed_record (ServerJs.upload (ServerJs.config Sample.production)))
         (images Sample.empty)
  /\ Forall (well_formed_record (ServerJs.upload (ServerJs.config Sample.production)))
            (images (fst (run_uploads
                            (ServerJs.post_api_upload (ServerJs.config Sample.production))
                            [(Sample.rt, Sample.request [Sample.photo_png]);
                             (Sample.rt_later, Sample.request [Sample.notes_txt])]
                            Sample.empty))).
Proof.
  split; [constructor |].
  apply (records_stay_well_formed
           [(Sample.rt, Sample.request [Sample.photo_png]);
            (Sample.rt_later, Sample.request [Sample.notes_txt])]
           Sample.empty (ServerJs.config Sample.production)
           (Part000.config Sample.production) (Part001.config Sample.production)).
  constructor.
Defined.

(** ** What an upload can do to the directory *)

Lemma fs_read_after_abort (q : string) (stored : list Multer.File) (d : Fs.t)
      (err : Js.error) :
  (forall f, In f stored -> q <> Multer.file_path f) ->
  fs_read q (fst (Multer.abort stored d err)) = fs_read q d.
Proof.
  unfold Multer.abort. cbn [fst].
  induction stored as [| f stored IH]; intros Hq; simpl; [reflexivity |].
  rewrite fs_read_unlink_other by (apply Hq; now left).
  apply IH. intros f' Hf'. apply Hq. now right.
Qed.

Lemma receive_frame (o : Multer.options) (rt : Runtime.t) (req : Http.Request)
      (field q : string) :
  forall ps n stored d,
    (forall p, In p ps ->
               q <> Path.join (Multer.destination o) (Multer.filename o rt p)) ->
    (forall f, In f stored -> q <> Multer.file_path f) ->
    fs_read q (fst (Multer.receive o rt req field ps n stored d)) = fs_read q d.
Proof.
  induction ps as [| p ps IH]; intros n stored d Hps Hstored; simpl; [reflexivity |].
  assert (Hrest : forall p', In p' ps ->
            q <> Path.join (Multer.destination o) (Multer.filename o rt p'))
    by (intros p' Hp'; apply Hps; now right).
  assert (Hp : q <> Path.join (Multer.destination o) (Multer.filename o rt p))
    by (apply Hps; now left).
  destruct (String.eqb (Http.originalname p) ""); [now apply IH |].
  destruct (negb (String.eqb (Http.fieldname p) field));
    [now apply fs_read_after_abort |].
  destruct n as [| n]; [now apply fs_read_after_abort |].
  destruct (Multer.fileFilter o req p) as [[err |] [|]];
    try (now apply fs_read_after_abort); try (now apply IH).
  destruct (Runtime.write_failure rt); [now apply fs_read_after_abort |].
  destruct (Multer.over_limit _ _ _).
  - rewrite fs_read_after_abort by assumption. now apply fs_read_unlink_other.
  - rewrite IH; [now apply fs_read_write_other | assumption |].
    intros f Hf. apply in_app_or in Hf. destruct Hf as [Hf | [<- | []]].
    + now apply Hstored.
    + exact Hp.
Qed.

Lemma single_frame (o : Multer.options) (rt : Runtime.t) (req : Http.Request)
      (q : string) (d : Fs.t) :
  ~ In q (own_paths o rt req) ->
  fs_read q (fst (Multer.single o "image" rt req d)) = fs_read q d.
Proof.
  intros Hq. unfold Multer.single.
  pose proof (receive_frame o rt req "image" q (Http.parts req) 1 [] d) as H.
  destruct (Multer.receive o rt req "image" (Http.parts req) 1 [] d)
    as [d' [files | e]]; cbn [fst] in *; apply H;
    try (intros f []);
    intros p Hp Habs; apply Hq; unfold own_paths; rewrite Habs;
    now apply (in_map (fun p0 => Path.join (Multer.destination o)
                                           (Multer.filename o rt p0))).
Qed.

Lemma ServerJs_upload_frame (cfg : ServerJs.Config) (rt : Runtime.t) (req : Http.Request)
      (st : State) (q : string) :
  ~ In q (own_paths (ServerJs.upload cfg) rt req) ->
  fs_read q (disk (fst (ServerJs.post_api_upload cfg rt req st))) = fs_read q (disk st).
Proof.
  intros Hq. unfold ServerJs.post_api_upload.
  pose proof (single_frame (ServerJs.upload cfg) rt req q (disk st) Hq) as H.
  destruct (Multer.single _ _ _ _ _) as [d [file | e]]; cbn [fst] in H.
  - destruct (ServerJs.upload_handler cfg rt req file (images st)) as [c res].
    exact H.
  - exact H.
Qed.

Lemma Part000_upload_frame (cfg : Part000.Config) (rt : Runtime.t) (req : Http.Request)
      (st : State) (q : string) :
  ~ In q (own_paths (Part000.upload cfg) rt req) ->
  fs_read q (disk (fst (Part000.post_api_upload cfg rt req st))) = fs_read q (disk st).
Proof.
  intros Hq. unfold Part000.post_api_upload.
  pose proof (single_frame (Part000.upload cfg) rt req q (disk st) Hq) as H.
  destruct (Multer.single _ _ _ _ _) as [d [file | e]]; cbn [fst] in H.
  - destruct (Part000.upload_handler cfg rt req file (images st)) as [c res].
    exact H.
  - exact H.
Qed.

Lemma Part001_upload_frame (cfg : Part001.Config) (rt : Runtime.t) (req : Http.Request)
      (st : State) (q : string) :
  ~ In q (own_paths (Part001.upload cfg) rt req) ->
  fs_read q (disk (fst (Part001.post_api_upload cfg rt req st))) = fs_read q (disk st).
Proof.
  intros Hq. unfold Part001.post_api_upload.
  pose proof (single_frame (Part001.upload cfg) rt req q (disk st) Hq) as H.
  destruct (Multer.single _ _ _ _ _) as [d [file | e]]; cbn [fst] in H.
  - destruct (Part001.upload_handler cfg rt req file (images st)) as [c res].
    exact H.
  - exact H.
Qed.

(** X8. An upload touches the upload directory only at the paths it
    generates for the parts of its own request: what is stored under any
    other path is the same before and after, whether the upload
    succeeds, is refused, or fails half way. *)
Theorem upload_leaves_other_files_alone :
  forall (rt : Runtime.t) (req : Http.Request) (st : State) (q : string)
         (cfgS : ServerJs.Config) (cfg0 : Part000.Config) (cfg1 : Part001.Config),
    (~ In q (own_paths (ServerJs.upload cfgS) rt req) ->
     fs_read q (disk (fst (ServerJs.post_api_upload cfgS rt req st)))
     = fs_read q (disk st))
    /\ (~ In q (own_paths (Part000.upload cfg0) rt req) ->
        fs_read q (disk (fst (Part000.post_api_upload cfg0 rt req st)))
        = fs_read q (disk st))
    /\ (~ In q (own_paths (Part001.upload cfg1) rt req) ->
        fs_read q (disk (fst (Part001.post_api_upload cfg1 rt req st)))
        = fs_read q (disk st)).
Proof.
  intros rt req st q cfgS cfg0 cfg1. split; [| split].
  - apply ServerJs_upload_frame.
  - apply Part000_upload_frame.
  - apply Part001_upload_frame.
Qed.

(** X8 at a directory that holds [keep.gif] while [photo.png] comes in. *)
Lemma upload_leaves_other_files_alone_witness :
  ~ In "/app/uploads/keep.gif"
       (own_paths (ServerJs.upload (ServerJs.config Sample.production)) Sample.rt
                  (Sample.request [Sample.photo_png]))
  /\ fs_read "/app/uploads/keep.gif"
       (disk (fst (ServerJs.post_api_upload (ServerJs.config Sample.production)
                     Sample.rt (Sample.request [Sample.photo_png])
                     Sample2.stranger)))
     = Some [Byte.x47].
Proof.
  assert (Hq : ~ In "/app/uploads/keep.gif"
                    (own_paths (ServerJs.upload (ServerJs.config Sample.production))
                               Sample.rt (Sample.request [Sample.photo_png]))).
  { vm_compute. intros [H | []]. discriminate. }
  split; [exact Hq |].
  destruct (upload_leaves_other_files_alone Sample.rt
              (Sample.request [Sample.photo_png]) Sample2.stranger
              "/app/uploads/keep.gif" (ServerJs.config Sample.production)
              (Part000.config Sample.production)
              (Part001.config Sample.production)) as [HS _].
  rewrite (HS Hq). reflexivity.
Defined.

(** ** The shape of a generated name *)

Lemma no_slash_append (s1 s2 : string) :
  no_slash (s1 ++ s2) = no_slash s1 && no_slash s2.
Proof.
  induction s1 as [| a s1 IH]; simpl; [reflexivity |].
  now rewrite IH, andb_assoc.
Qed.

Lemma all_plain_no_slash (s : string) : all_plain s = true -> no_slash s = true.
Proof.
  induction s as [| a s IH]; simpl; [reflexivity |].
  intros H. apply andb_prop in H. destruct H as [Ha Hs].
  apply plain_iff in Ha. destruct Ha as [_ Ha].
  destruct (Ascii.eqb_spec a "/"); [contradiction |]. simpl. now apply IH.
Qed.

Lemma is_extension_no_slash (e : string) : is_extension e = true -> no_slash e = true.
Proof.
  destruct e as [| c t]; simpl; [reflexivity |].
  intros H. apply andb_prop in H. destruct H as [Hc Ht].
  apply Ascii.eqb_eq in Hc. subst c. simpl. now apply all_plain_no_slash.
Qed.

Lemma stem_extension_plain_file_name (stem e : string) :
  stem <> "" -> all_plain stem = true -> is_extension e = true ->
  plain_file_name (stem ++ e) = true.
Proof.
  intros Hne Hstem He.
  assert (Hns : no_slash (stem ++ e) = true).
  { rewrite no_slash_append, (all_plain_no_slash _ Hstem),
      (is_extension_no_slash _ He). reflexivity. }
  destruct stem as [| c stem]; [congruence |].
  simpl in *. rewrite Hns.
  apply andb_prop in Hstem. destruct Hstem as [Hc _].
  apply plain_iff in Hc. destruct Hc as [Hc _].
  destruct (Ascii.eqb_spec c "."); [contradiction | reflexivity].
Qed.

(** X9. Whatever the client sends as original name, the generated file
    name is a plain entry of the upload directory: it is not empty, holds
    no slash, and does not begin with a dot.  The original name reaches
    the stored name through its extension only, which has no slash in
    it. *)
Theorem generated_name_is_a_plain_file_name :
  forall (rt : Runtime.t) (file : Http.Part),
    plain_file_name (ServerJs.storage_filename rt file) = true
    /\ plain_file_name (Part000.storage_filename rt file) = true
    /\ plain_file_name (Part001.storage_filename rt file) = true.
Proof.
  intros rt file.
  assert (H0 : plain_file_name (Part000.storage_filename rt file) = true).
  { unfold Part000.storage_filename. rewrite <- append_assoc.
    apply stem_extension_plain_file_name.
    - discriminate.
    - simpl. apply all_plain_number.
    - apply extname_is_extension. }
  split; [| split; exact H0].
  unfold ServerJs.storage_filename.
  change (Js.number_to_string (Runtime.Date_now_filename rt) ++ "-"
            ++ Js.number_to_string (Runtime.random_1e9 rt)
            ++ Path.extname (Http.originalname file))%string
    with (Js.number_to_string (Runtime.Date_now_filename rt)
            ++ ("-" ++ Js.number_to_string (Runtime.random_1e9 rt))
            ++ Path.extname (Http.originalname file))%string.
  rewrite <- append_assoc.
  apply stem_extension_plain_file_name.
  - apply append_not_empty_r. discriminate.
  - rewrite all_plain_append. simpl. now rewrite !all_plain_number.
  - apply extname_is_extension.
Qed.

Example hostile_original_name :
  ServerJs.storage_filename Sample.rt
    (Http.mkPart "image" "../../etc/passwd.png" "7bit" "image/png" [])
  = "1700000000000-42.png".
Proof. reflexivity. Qed.

(** ** Upload, then list *)

Lemma sort_desc_snoc_newest (c : Mongoose.collection) (doc : Mongoose.Image) :
  (forall img, In img c -> (Mongoose.createdAt img < Mongoose.createdAt doc)%N) ->
  Mongoose.sort_desc (c ++ [doc]) = doc :: Mongoose.sort_desc c.
Proof.
  induction c as [| x c IH]; intros Hnew; simpl; [reflexivity |].
  rewrite IH by (intros img Himg; apply Hnew; now right).
  simpl.
  assert (Hx : (Mongoose.createdAt x < Mongoose.createdAt doc)%N)
    by (apply Hnew; now left).
  apply N.leb_gt in Hx. now rewrite Hx.
Qed.

Section UploadThenList.

Variables (rt rt' : Runtime.t) (req : Http.Request) (st : State).
Variables (d : Fs.t) (f : Multer.File).
Hypothesis Hsave : Runtime.save_failure rt = None.
Hypothesis Hfind : Runtime.find_failure rt' = None.

Lemma ServerJs_upload_then_list (cfg : ServerJs.Config) :
  Multer.single (ServerJs.upload cfg) "image" rt req (disk st)
  = (d, Multer.Next (Some f)) ->
  let data := public_projection (ServerJs.imageUrl req (Multer.file_filename f))
                                (created_record rt f) in
  let st' := fst (ServerJs.post_api_upload cfg rt req st) in
  Js.get "data" (Http.body (snd (ServerJs.post_api_upload cfg rt req st))) = Some data
  /\ (exists items,
         Js.get "images" (Http.body (ServerJs.get_api_images cfg rt' req st'))
         = Some (Js.VArr items)
         /\ In data items)
  /\ ((forall img, In img (images st) ->
                   (Mongoose.createdAt img < Runtime.Date_now_default rt)%N) ->
      forall before,
        Js.get "images" (Http.body (ServerJs.get_api_images cfg rt' req st))
        = Some (Js.VArr before) ->
        Js.get "images" (Http.body (ServerJs.get_api_images cfg rt' req st'))
        = Some (Js.VArr (data :: before))).
Proof.
  intros Hm. cbv zeta.
  rewrite (ServerJs_successful_upload rt req st d f Hsave cfg Hm).
  cbn [fst snd Http.body]. split; [reflexivity |]. split.
  - rewrite (ServerJs_list rt' req _ Hfind). cbn [images Http.body].
    eexists. split; [reflexivity |].
    apply (in_map (fun img => public_projection
                                (ServerJs.imageUrl req (Mongoose.filename img)) img)
                  _ (created_record rt f)).
    apply (Permutation_in _ (sort_desc_perm _)).
    apply in_or_app. right. now left.
  - intros Hnew before.
    rewrite (ServerJs_list rt' req _ Hfind), (ServerJs_list rt' req _ Hfind).
    cbn [images Http.body].
    rewrite sort_desc_snoc_newest by exact Hnew.
    simpl. intros H. injection H as <-. reflexivity.
Qed.

Lemma Part000_upload_then_list (cfg : Part000.Config) :
  Multer.single (Part000.upload cfg) "image" rt req (disk st)
  = (d, Multer.Next (Some f)) ->
  let data := public_projection (Part000.imageUrl cfg (Multer.file_filename f))
                                (created_record rt f) in
  let st' := fst (Part000.post_api_upload cfg rt req st) in
  Js.get "image" (Http.body (snd (Part000.post_api_upload cfg rt req st))) = Some data
  /\ (exists items,
         Js.get "images" (Http.body (Part000.get_api_images cfg rt' req st'))
         = Some (Js.VArr items)
         /\ In data items)
  /\ ((forall img, In img (images st) ->
                   (Mongoose.createdAt img < Runtime.Date_now_default rt)%N) ->
      forall before,
        Js.get "images" (Http.body (Part000.get_api_images cfg rt' req st))
        = Some (Js.VArr before) ->
        Js.get "images" (Http.body (Part000.get_api_images cfg rt' req st'))
        = Some (Js.VArr (data :: before))).
Proof.
  intros Hm. cbv zeta.
  rewrite (Part000_successful_upload rt req st d f Hsave cfg Hm).
  cbn [fst snd Http.body]. split; [reflexivity |]. split.
  - rewrite (Part000_list rt' req _ Hfind). cbn [images Http.body].
    eexists. split; [reflexivity |].
    apply (in_map (fun img => public_projection
                                (Part000.imageUrl cfg (Mongoose.filename img)) img)
                  _ (created_record rt f)).
    apply (Permutation_in _ (sort_desc_perm _)).
    apply in_or_app. right. now left.
  - intros Hnew before.
    rewrite (Part000_list rt' req _ Hfind), (Part000_list rt' req _ Hfind).
    cbn [images Http.body].
    rewrite sort_desc_snoc_newest by exact Hnew.
    simpl. intros H. injection H as <-. reflexivity.
Qed.

Lemma Part001_upload_then_list (cfg : Part001.Config) :
  Multer.single (Part001.upload cfg) "image" rt req (disk st)
  = (d, Multer.Next (Some f)) ->
  let data := public_projection (Part001.imageUrl req (Multer.file_filename f))
                                (created_record rt f) in
  let st' := fst (Part001.post_api_upload cfg rt req st) in
  Js.get "data" (Http.body (snd (Part001.post_api_upload cfg rt req st))) = Some data
  /\ (exists items,
         Js.get "data" (Http.body (Part001.get_api_images cfg rt' req st'))
         = Some (Js.VArr items)
         /\ In data items)
  /\ ((forall img, In img (images st) ->
                   (Mongoose.createdAt img < Runtime.Date_now_default rt)%N) ->
      forall before,
        Js.get "data" (Http.body (Part001.get_api_images cfg rt' req st))
        = Some (Js.VArr before) ->
        Js.get "data" (Http.body (Part001.get_api_images cfg rt' req st'))
        = Some (Js.VArr (data :: before))).
Proof.
  intros Hm. cbv zeta.
  rewrite (Part001_successful_upload rt req st d f Hsave cfg Hm).
  cbn [fst snd Http.body]. split; [reflexivity |]. split.
  - rewrite (Part001_list rt' req _ Hfind). cbn [images Http.body].
    eexists. split; [reflexivity |].
    apply (in_map (fun img => public_projection
                                (Part001.imageUrl req (Mongoose.filename img)) img)
                  _ (created_record rt f)).
    apply (Permutation_in _ (sort_desc_perm _)).
    apply in_or_app. right. now left.
  - intros Hnew before.
    rewrite (Part001_list rt' req _ Hfind), (Part001_list rt' req _ Hfind).
    cbn [images Http.body].
    rewrite sort_desc_snoc_newest by exact Hnew.
    simpl. intros H. injection H as <-. reflexivity.
Qed.

End UploadThenList.

(** X10. What a successful upload returns as its projection (id, name,
    url, size, uploadedAt) is an element of the array a following list
    request to the same host returns, in each server.  When the new
    record is strictly newer than every stored one, the list after the
    upload is that projection followed by the list as it was before. *)
Theorem uploaded_image_is_listed_newest_first :
  forall (rt rt' : Runtime.t) (req : Http.Request) (st : State)
         (cfgS : ServerJs.Config) (cfg0 : Part000.Config) (cfg1 : Part001.Config),
    Runtime.save_failure rt = None ->
    Runtime.find_failure rt' = None ->
    (forall d f,
        Multer.single (ServerJs.upload cfgS) "image" rt req (disk st)
        = (d, Multer.Next (Some f)) ->
        let data := public_projection (ServerJs.imageUrl req (Multer.file_filename f))
                                      (created_record rt f) in
        let st' := fst (ServerJs.post_api_upload cfgS rt req st) in
        Js.get "data" (Http.body (snd (ServerJs.post_api_upload cfgS rt req st)))
        = Some data
        /\ (exists items,
               Js.get "images" (Http.body (ServerJs.get_api_images cfgS rt' req st'))
               = Some (Js.VArr items)
               /\ In data items)
        /\ ((forall img, In img (images st) ->
                         (Mongoose.createdAt img < Runtime.Date_now_default rt)%N) ->
            forall before,
              Js.get "images" (Http.body (ServerJs.get_api_images cfgS rt' req st))
              = Some (Js.VArr before) ->
              Js.get "images" (Http.body (ServerJs.get_api_images cfgS rt' req st'))
              = Some (Js.VArr (data :: before))))
    /\ (forall d f,
           Multer.single (Part000.upload cfg0) "image" rt req (disk st)
           = (d, Multer.Next (Some f)) ->
           let data := public_projection (Part000.imageUrl cfg0 (Multer.file_filename f))
                                         (created_record rt f) in
           let st' := fst (Part000.post_api_upload cfg0 rt req st) in
           Js.get "image" (Http.body (snd (Part000.post_api_upload cfg0 rt req st)))
           = Some data
           /\ (exists items,
                  Js.get "images" (Http.body (Part000.get_api_images cfg0 rt' req st'))
                  = Some (Js.VArr items)
                  /\ In data items)
           /\ ((forall img, In img (images st) ->
                            (Mongoose.createdAt img < Runtime.Date_now_default rt)%N) ->
               forall before,
                 Js.get "images" (Http.body (Part000.get_api_images cfg0 rt' req st))
                 = Some (Js.VArr before) ->
                 Js.get "images" (Http.body (Part000.get_api_images cfg0 rt' req st'))
                 = Some (Js.VArr (data :: before))))
    /\ (forall d f,
           Multer.single (Part001.upload cfg1) "image" rt req (disk st)
           = (d, Multer.Next (Some f)) ->
           let data := public_projection (Part001.imageUrl req (Multer.file_filename f))
                                         (created_record rt f) in
           let st' := fst (Part001.post_api_upload cfg1 rt req st) in
           Js.get "data" (Http.body (snd (Part001.post_api_upload cfg1 rt req st)))
           = Some data
           /\ (exists items,
                  Js.get "data" (Http.body (Part001.get_api_images cfg1 rt' req st'))
                  = Some (Js.VArr items)
                  /\ In data items)
           /\ ((forall img, In img (images st) ->
                            (Mongoose.createdAt img < Runtime.Date_now_default rt)%N) ->
               forall before,
                 Js.get "data" (Http.body (Part001.get_api_images cfg1 rt' req st))
                 = Some (Js.VArr before) ->
                 Js.get "data" (Http.body (Part001.get_api_images cfg1 rt' req st'))
                 = Some (Js.VArr (data :: before)))).
Proof.
  intros rt rt' req st cfgS cfg0 cfg1 Hsave Hfind. split; [| split]; intros d f.
  - apply (ServerJs_upload_then_list rt rt' req st d f Hsave Hfind cfgS).
  - apply (Part000_upload_then_list rt rt' req st d f Hsave Hfind cfg0).
  - apply (Part001_upload_then_list rt rt' req st d f Hsave Hfind cfg1).
Qed.

(** X10 at the upload of [photo.png] into a collection of two older
    records. *)
Lemma uploaded_image_is_listed_newest_first_witness :
  Runtime.save_failure Sample.rt = None
  /\ Runtime.find_failure Sample.rt_later = None
  /\ (forall img, In img (images Sample.two_images) ->
                  (Mongoose.createdAt img < Runtime.Date_now_default Sample.rt)%N)
  /\ exists before,
      Js.get "images"
        (Http.body
           (ServerJs.get_api_images (ServerJs.config Sample.production)
              Sample.rt_later (Sample.request [Sample.photo_png])
              (fst (ServerJs.post_api_upload (ServerJs.config Sample.production)
                      Sample.rt (Sample.request [Sample.photo_png])
                      Sample.two_images))))
      = Some (Js.VArr
                (public_projection
                   "https://img.example.com/uploads/1700000000000-42.png"
                   (Mongoose.mkImage "65a1f0c2e4b0a1b2c3d4e5f6" "1700000000000-42.png"
                      "photo.png" "/app/uploads/1700000000000-42.png" 4
                      "image/png" 1700000000005)
                 :: before)).
Proof.
  split; [reflexivity |]. split; [reflexivity |].
  assert (Hnew : forall img, In img (images Sample.two_images) ->
             (Mongoose.createdAt img < Runtime.Date_now_default Sample.rt)%N).
  { intros img [<- | [<- | []]]; reflexivity. }
  split; [exact Hnew |].
  destruct (uploaded_image_is_listed_newest_first Sample.rt Sample.rt_later
              (Sample.request [Sample.photo_png]) Sample.two_images
              (ServerJs.config Sample.production)
              (Part000.config Sample.production)
              (Part001.config Sample.production) eq_refl eq_refl) as [HS _].
  destruct (HS _ _ eq_refl) as [_ [_ Hfirst]].
  eexists. apply (Hfirst Hnew). reflexivity.
Defined.

(** ** The CORS origin check of server.js *)

Lemma split_free (sep : ascii) (x : string) :
  free_of sep x = true -> JsString.split sep x = [x].
Proof.
  induction x as [| c x IH]; simpl; [reflexivity |].
  intros H. apply andb_prop in H. destruct H as [Hc Hx].
  apply negb_true_iff in Hc. rewrite Hc, (IH Hx). reflexivity.
Qed.

Lemma split_append_sep (sep : ascii) (x r : string) :
  free_of sep x = true ->
  JsString.split sep (x ++ String sep r) = x :: JsString.split sep r.
Proof.
  induction x as [| c x IH]; simpl.
  - intros _. now rewrite Ascii.eqb_refl.
  - intros H. apply andb_prop in H. destruct H as [Hc Hx].
    apply negb_true_iff in Hc. rewrite Hc, (IH Hx). reflexivity.
Qed.

Lemma split_join (sep : ascii) (l : list string) :
  l <> [] ->
  Forall (fun s => free_of sep s = true) l ->
  JsString.split sep (JsString.join (String sep "") l) = l.
Proof.
  unfold JsString.join.
  induction l as [| x l IH]; intros Hne Hall; [congruence |].
  inversion Hall as [| ? ? Hx Hl]; subst.
  destruct l as [| y l].
  - simpl. now apply split_free.
  - change (String.concat (String sep "") (x :: y :: l))
      with (x ++ String sep (String.concat (String sep "") (y :: l)))%string.
    rewrite split_append_sep by assumption.
    rewrite IH; [reflexivity | discriminate | assumption].
Qed.

Lemma origin_allowed_iff (allowed : list string) (header : option string) :
  ServerJsCors.origin allowed header = (None, true)
  <-> header = None \/ header = Some ""
      \/ exists o, header = Some o /\ In o allowed.
Proof.
  unfold ServerJsCors.origin. destruct header as [o |].
  - destruct (String.eqb_spec o "") as [-> | Hne]; simpl.
    + split; [intros _; right; now left | reflexivity].
    + destruct (Js.includes allowed o) eqn:E.
      * apply includes_In in E. split; [| reflexivity].
        intros _. right. right. now exists o.
      * apply includes_not_In in E. split; [discriminate |].
        intros [H | [H | [o' [H Hin]]]]; congruence.
  - split; [now left | reflexivity].
Qed.

Lemma origin_refusal (allowed : list string) (header : option string) :
  ServerJsCors.origin allowed header = (None, true)
  \/ ServerJsCors.origin allowed header
     = (Some (Js.Error "Not allowed by CORS"), false).
Proof.
  unfold ServerJsCors.origin. destruct header as [o |]; [| now left].
  destruct (String.eqb o "" || Js.includes allowed o); [now left | now right].
Qed.

(** X11. With [ALLOWED_ORIGINS] set to a comma-joined list of origins,
    the configured list is that list again, and the CORS check of
    server.js lets a request through exactly when it has no [Origin]
    header, an empty one, or one of the listed origins; every other
    origin is refused with the plain error "Not allowed by CORS", which
    the error middleware answers with 500. *)
Theorem cors_lets_through_exactly_the_configured_origins :
  forall (l : list string) (header : option string) (cfg : ServerJs.Config),
    l <> [] ->
    Forall (fun s => free_of "," s = true) l ->
    JsString.join "," l <> "" ->
    ServerJsCors.ALLOWED_ORIGINS (Some (JsString.join "," l)) = l
    /\ (ServerJsCors.origin
          (ServerJsCors.ALLOWED_ORIGINS (Some (JsString.join "," l))) header
        = (None, true)
        <-> header = None \/ header = Some ""
            \/ exists o, header = Some o /\ In o l)
    /\ (ServerJsCors.origin
          (ServerJsCors.ALLOWED_ORIGINS (Some (JsString.join "," l))) header
        = (None, true)
        \/ (ServerJsCors.origin
              (ServerJsCors.ALLOWED_ORIGINS (Some (JsString.join "," l))) header
            = (Some (Js.Error "Not allowed by CORS"), false)
            /\ Http.status
                 (ServerJs.error_middleware cfg (Js.Error "Not allowed by CORS"))
               = 500%N)).
Proof.
  intros l header cfg Hne Hfree Hjoin.
  assert (Hcfg : ServerJsCors.ALLOWED_ORIGINS (Some (JsString.join "," l)) = l).
  { unfold ServerJsCors.ALLOWED_ORIGINS.
    destruct (String.eqb_spec (JsString.join "," l) ""); [contradiction |].
    now apply split_join. }
  rewrite Hcfg. split; [reflexivity |]. split.
  - apply origin_allowed_iff.
  - destruct (origin_refusal l header) as [H | H]; [now left |].
    right. split; [exact H | reflexivity].
Qed.

(** X11 at two origins. *)
Lemma cors_lets_through_exactly_the_configured_origins_witness :
  JsString.join "," ["https://a.example"; "https://b.example"]
  = "https://a.example,https://b.example"
  /\ ServerJsCors.ALLOWED_ORIGINS (Some "https://a.example,https://b.example")
     = ["https://a.example"; "https://b.example"].
Proof.
  split; [reflexivity |].
  apply (cors_lets_through_exactly_the_configured_origins
           ["https://a.example"; "https://b.example"] None
           (ServerJs.config Sample.production)).
  - discriminate.
  - repeat constructor.
  - discriminate.
Defined.

(** X12. Without [ALLOWED_ORIGINS], or with an empty one, the CORS check
    of server.js lets through requests without an origin and those from
    http://localhost:3000 and https://cicd-frontend-alpha.vercel.app,
    and no others. *)
Theorem cors_default_origins :
  forall (env : option string) (header : option string),
    env = None \/ env = Some "" ->
    (ServerJsCors.origin (ServerJsCors.ALLOWED_ORIGINS env) header = (None, true)
     <-> header = None \/ header = Some ""
         \/ header = Some "http://localhost:3000"
         \/ header = Some "https://cicd-frontend-alpha.vercel.app").
Proof.
  intros env header Henv.
  assert (Hcfg : ServerJsCors.ALLOWED_ORIGINS env
                 = ["http://localhost:3000"; "https://cicd-frontend-alpha.vercel.app"])
    by (destruct Henv as [-> | ->]; reflexivity).
  rewrite Hcfg, origin_allowed_iff. split.
  - intros [H | [H | [o [H [<- | [<- | []]]]]]]; tauto.
  - intros [H | [H | [H | H]]]; [tauto | tauto | |];
      right; right; eexists; (split; [exact H |]); simpl; tauto.
Qed.

(** X12 at a request from elsewhere. *)
Lemma cors_default_origins_witness :
  ServerJsCors.origin (ServerJsCors.ALLOWED_ORIGINS None) (Some "https://evil.example")
  <> (None, true).
Proof.
  intros H.
  apply (cors_default_origins None (Some "https://evil.example") (or_introl eq_refl))
    in H.
  destruct H as [H | [H | [H | H]]]; discriminate.
Defined.

Example allowed_origins_keep_blanks :
  ServerJsCors.ALLOWED_ORIGINS (Some "https://a.example, https://b.example")
  = ["https://a.example"; " https://b.example"].
Proof. reflexivity. Qed.

(** ** The text of a failure *)

Lemma abort_relabel (stored : list Multer.File) (d : Fs.t) (m1 m2 : string) :
  fst (Multer.abort stored d (Js.Error m1)) = fst (Multer.abort stored d (Js.Error m2))
  /\ (snd (Multer.abort stored d (Js.Error m1)) = snd (Multer.abort stored d (Js.Error m2))
      \/ exists a b,
          snd (Multer.abort stored d (Js.Error m1)) = Multer.Failed (Js.Error a)
          /\ snd (Multer.abort stored d (Js.Error m2)) = Multer.Failed (Js.Error b)).
Proof.
  unfold Multer.abort. simpl. split; [reflexivity |].
  right. now exists m1, m2.
Qed.

Lemma receive_relabel (o : Multer.options) (rt : Runtime.t) (w s f : string)
      (req : Http.Request) (field : string) :
  (forall p, Multer.filename o (relabel w s f rt) p = Multer.filename o rt p) ->
  forall ps n stored d,
    fst (Multer.receive o (relabel w s f rt) req field ps n stored d)
    = fst (Multer.receive o rt req field ps n stored d)
    /\ (snd (Multer.receive o (relabel w s f rt) req field ps n stored d)
        = snd (Multer.receive o rt req field ps n stored d)
        \/ exists a b,
            snd (Multer.receive o (relabel w s f rt) req field ps n stored d)
            = Multer.Failed (Js.Error a)
            /\ snd (Multer.receive o rt req field ps n stored d)
               = Multer.Failed (Js.Error b)).
Proof.
  intros Hname ps.
  induction ps as [| p ps IH]; intros n stored d; simpl.
  - split; [reflexivity | now left].
  - destruct (String.eqb (Http.originalname p) ""); [apply IH |].
    destruct (negb (String.eqb (Http.fieldname p) field));
      [split; [reflexivity | now left] |].
    destruct n as [| n]; [split; [reflexivity | now left] |].
    destruct (Multer.fileFilter o req p) as [[err |] [|]];
      try (split; [reflexivity | now left]); try apply IH.
    destruct (Runtime.write_failure rt) as [msg |]; simpl.
    + apply abort_relabel.
    + rewrite Hname.
      destruct (Multer.over_limit _ _ _); [split; [reflexivity | now left] | apply IH].
Qed.

Lemma single_relabel (o : Multer.options) (rt : Runtime.t) (w s f : string)
      (req : Http.Request) (d : Fs.t) :
  (forall p, Multer.filename o (relabel w s f rt) p = Multer.filename o rt p) ->
  fst (Multer.single o "image" (relabel w s f rt) req d)
  = fst (Multer.single o "image" rt req d)
  /\ (snd (Multer.single o "image" (relabel w s f rt) req d)
      = snd (Multer.single o "image" rt req d)
      \/ exists a b,
          snd (Multer.single o "image" (relabel w s f rt) req d)
          = Multer.NextErr (Js.Error a)
          /\ snd (Multer.single o "image" rt req d) = Multer.NextErr (Js.Error b)).
Proof.
  intros Hname. unfold Multer.single.
  destruct (receive_relabel o rt w s f req "image" Hname (Http.parts req) 1 [] d)
    as [Hd Hr].
  destruct (Multer.receive o (relabel w s f rt) _ _ _ _ _ _) as [d1 r1].
  destruct (Multer.receive o rt _ _ _ _ _ _) as [d2 r2].
  simpl in Hd, Hr. subst d2.
  destruct Hr as [<- | [a [b [-> ->]]]].
  - destruct r1; split; auto.
  - split; [reflexivity |]. right. now exists a, b.
Qed.

Lemma ServerJs_upload_relabel (cfg : ServerJs.Config) (rt : Runtime.t)
      (w s f : string) (req : Http.Request) (st : State) :
  ServerJs.NODE_ENV cfg <> "development" ->
  ServerJs.post_api_upload cfg (relabel w s f rt) req st
  = ServerJs.post_api_upload cfg rt req st.
Proof.
  intros Hmode.
  assert (Hdet : forall e, ServerJs.details cfg e = Js.VUndefined).
  { intros e. unfold ServerJs.details.
    destruct (String.eqb_spec (ServerJs.NODE_ENV cfg) "development");
      [contradiction | reflexivity]. }
  unfold ServerJs.post_api_upload.
  destruct (single_relabel (ServerJs.upload cfg) rt w s f req (disk st)
              (fun p => eq_refl)) as [Hd Hr].
  destruct (Multer.single (ServerJs.upload cfg) "image" (relabel w s f rt) req (disk st))
    as [d1 o1].
  destruct (Multer.single (ServerJs.upload cfg) "image" rt req (disk st)) as [d2 o2].
  simpl in Hd, Hr. subst d2.
  destruct Hr as [<- | [a [b [-> ->]]]].
  - destruct o1 as [[file |] | e]; try reflexivity.
    unfold ServerJs.upload_handler, Mongoose.save. simpl.
    destruct (Runtime.save_failure rt); simpl; [| reflexivity].
    now rewrite !Hdet.
  - unfold ServerJs.error_middleware. simpl. now rewrite !Hdet.
Qed.

Lemma ServerJs_list_relabel (cfg : ServerJs.Config) (rt : Runtime.t)
      (w s f : string) (req : Http.Request) (st : State) :
  ServerJs.NODE_ENV cfg <> "development" ->
  ServerJs.get_api_images cfg (relabel w s f rt) req st
  = ServerJs.get_api_images cfg rt req st.
Proof.
  intros Hmode. unfold ServerJs.get_api_images, Mongoose.find_sorted. simpl.
  destruct (Runtime.find_failure rt); simpl; [| reflexivity].
  unfold ServerJs.details.
  destruct (String.eqb_spec (ServerJs.NODE_ENV cfg) "development");
    [contradiction | reflexivity].
Qed.

Lemma Part001_upload_relabel (cfg : Part001.Config) (rt : Runtime.t)
      (w s f : string) (req : Http.Request) (st : State) :
  Part001.post_api_upload cfg (relabel w s f rt) req st
  = Part001.post_api_upload cfg rt req st.
Proof.
  unfold Part001.post_api_upload.
  destruct (single_relabel (Part001.upload cfg) rt w s f req (disk st)
              (fun p => eq_refl)) as [Hd Hr].
  destruct (Multer.single (Part001.upload cfg) "image" (relabel w s f rt) req (disk st))
    as [d1 o1].
  destruct (Multer.single (Part001.upload cfg) "image" rt req (disk st)) as [d2 o2].
  simpl in Hd, Hr. subst d2.
  destruct Hr as [<- | [a [b [-> ->]]]].
  - destruct o1 as [[file |] | e]; try reflexivity.
    unfold Part001.upload_handler, Mongoose.save. simpl.
    now destruct (Runtime.save_failure rt).
  - reflexivity.
Qed.

Lemma Part001_list_relabel (cfg : Part001.Config) (rt : Runtime.t)
      (w s f : string) (req : Http.Request) (st : State) :
  Part001.get_api_images cfg (relabel w s f rt) req st
  = Part001.get_api_images cfg rt req st.
Proof.
  unfold Part001.get_api_images, Mongoose.find_sorted. simpl.
  now destruct (Runtime.find_failure rt).
Qed.

(** X13. In server.js outside development mode, and in part_001 in every
    mode, the answers of the upload route and of the list route, and the
    state they leave, do not depend on the text of a failure of disk or
    database: replace the messages by any others and nothing a client
    can see changes. *)
Theorem failure_text_never_reaches_the_client :
  forall (rt : Runtime.t) (w s f : string) (req : Http.Request) (st : State)
         (cfgS : ServerJs.Config) (cfg1 : Part001.Config),
    ServerJs.NODE_ENV cfgS <> "development" ->
    ServerJs.post_api_upload cfgS (relabel w s f rt) req st
    = ServerJs.post_api_upload cfgS rt req st
    /\ ServerJs.get_api_images cfgS (relabel w s f rt) req st
       = ServerJs.get_api_images cfgS rt req st
    /\ Part001.post_api_upload cfg1 (relabel w s f rt) req st
       = Part001.post_api_upload cfg1 rt req st
    /\ Part001.get_api_images cfg1 (relabel w s f rt) req st
       = Part001.get_api_images cfg1 rt req st.
Proof.
  intros rt w s f req st cfgS cfg1 Hmode.
  split; [| split; [| split]].
  - now apply ServerJs_upload_relabel.
  - now apply ServerJs_list_relabel.
  - apply Part001_upload_relabel.
  - apply Part001_list_relabel.
Qed.

(** X13 at a production deployment whose database rejects the save. *)
Lemma failure_text_never_reaches_the_client_witness :
  ServerJs.NODE_ENV (ServerJs.config Sample.production) <> "development"
  /\ Runtime.save_failure (relabel "" "disk full on db-7" "" Sample.rt_save_fails)
     = Some "disk full on db-7"
  /\ ServerJs.post_api_upload (ServerJs.config Sample.production)
       (relabel "" "disk full on db-7" "" Sample.rt_save_fails)
       (Sample.request [Sample.photo_png]) Sample.empty
     = ServerJs.post_api_upload (ServerJs.config Sample.production)
         Sample.rt_save_fails (Sample.request [Sample.photo_png]) Sample.empty.
Proof.
  assert (Hmode : ServerJs.NODE_ENV (ServerJs.config Sample.production)
                  <> "development") by discriminate.
  split; [exact Hmode |]. split; [reflexivity |].
  apply (failure_text_never_reaches_the_client Sample.rt_save_fails
           "" "disk full on db-7" "" (Sample.request [Sample.photo_png])
           Sample.empty (ServerJs.config Sample.production)
           (Part001.config Sample.production) Hmode).
Defined.

(** ** A file of a disallowed type, in general *)

(** X14. When the first file of a request sits in the field [image] and
    its declared media type is outside the allow-list, the request is
    refused before anything is stored, whatever parts follow: disk and
    collection are exactly as they were.  The answer is a 500 with a
    fixed text ("Internal server error" in server.js and part_001,
    "Something went wrong" in part_000), since the filter's error is a
    plain [Error] and not a [MulterError]. *)
Theorem disallowed_first_file_stores_nothing_and_answers_500 :
  forall (rt : Runtime.t) (req : Http.Request) (st : State) (p : Http.Part)
         (cfgS : ServerJs.Config) (cfg0 : Part000.Config) (cfg1 : Part001.Config),
    first_file req = Some p ->
    Http.fieldname p = "image" ->
    ~ In (Http.mimetype p) allow_list ->
    (let (st', res) := ServerJs.post_api_upload cfgS rt req st in
     st' = st /\ Http.status res = 500%N
     /\ Js.get "error" (Http.body res) = Some (Js.VStr "Internal server error")
     /\ Js.get "success" (Http.body res) = Some (Js.VBool false))
    /\ (let (st', res) := Part000.post_api_upload cfg0 rt req st in
        st' = st /\ Http.status res = 500%N
        /\ Js.get "error" (Http.body res) = Some (Js.VStr "Something went wrong")
        /\ Js.get "success" (Http.body res) = Some (Js.VBool false))
    /\ (let (st', res) := Part001.post_api_upload cfg1 rt req st in
        st' = st /\ Http.status res = 500%N
        /\ Js.get "error" (Http.body res) = Some (Js.VStr "Internal server error")
        /\ Js.get "success" (Http.body res) = Some (Js.VBool false)).
Proof.
  intros rt req st p cfgS cfg0 cfg1 H1 H2 H3.
  rewrite (ServerJs_disallowed_type rt req st p H1 H2 H3),
          (Part000_disallowed_type rt req st p H1 H2 H3),
          (Part001_disallowed_type rt req st p H1 H2 H3).
  repeat split.
Qed.

(** X14 at [notes.txt] behind a part without a file name and in front
    of a second file. *)
Lemma disallowed_first_file_stores_nothing_and_answers_500_witness :
  first_file (Sample.request [Http.mkPart "image" "" "7bit" "" [];
                              Sample.notes_txt; Sample.photo_png])
  = Some Sample.notes_txt
  /\ ~ In (Http.mimetype Sample.notes_txt) allow_list
  /\ (let (st', res) :=
         Part001.post_api_upload (Part001.config Sample.development) Sample.rt
           (Sample.request [Http.mkPart "image" "" "7bit" "" [];
                            Sample.notes_txt; Sample.photo_png])
           Sample2.stranger in
       st' = Sample2.stranger /\ Http.status res = 500%N).
Proof.
  assert (Hout : ~ In (Http.mimetype Sample.notes_txt) allow_list).
  { simpl. intros [H | [H | [H | [H | []]]]]; discriminate. }
  split; [reflexivity |]. split; [exact Hout |].
  destruct (disallowed_first_file_stores_nothing_and_answers_500 Sample.rt
              (Sample.request [Http.mkPart "image" "" "7bit" "" [];
                               Sample.notes_txt; Sample.photo_png])
              Sample2.stranger Sample.notes_txt
              (ServerJs.config Sample.development)
              (Part000.config Sample.development)
              (Part001.config Sample.development) eq_refl eq_refl Hout)
    as [_ [_ H1]].
  destruct (Part001.post_api_upload _ _ _ _) as [st' res].
  split; [exact (proj1 H1) | exact (proj1 (proj2 H1))].
Defined.

(** ** The success flag *)

Lemma ServerJs_upload_success_flag (cfg : ServerJs.Config) (rt : Runtime.t)
      (req : Http.Request) (st : State) :
  Js.get "success" (Http.body (snd (ServerJs.post_api_upload cfg rt req st)))
  = Some (Js.VBool (N.eqb (Http.status (snd (ServerJs.post_api_upload cfg rt req st))) 201)).
Proof.
  unfold ServerJs.post_api_upload.
  destruct (Multer.single _ _ _ _ _) as [d [file | e]].
  - unfold ServerJs.upload_handler, Mongoose.save.
    destruct file as [f |]; [| reflexivity].
    now destruct (Runtime.save_failure rt).
  - unfold ServerJs.error_middleware. now destruct e.
Qed.

Lemma Part001_upload_success_flag (cfg : Part001.Config) (rt : Runtime.t)
      (req : Http.Request) (st : State) :
  Js.get "success" (Http.body (snd (Part001.post_api_upload cfg rt req st)))
  = Some (Js.VBool (N.eqb (Http.status (snd (Part001.post_api_upload cfg rt req st))) 201)).
Proof.
  unfold Part001.post_api_upload.
  destruct (Multer.single _ _ _ _ _) as [d [file | e]].
  - unfold Part001.upload_handler, Mongoose.save.
    destruct file as [f |]; [| reflexivity].
    now destruct (Runtime.save_failure rt).
  - unfold Part001.error_middleware. now destruct e.
Qed.

(** X15. In server.js and part_001 every answer of the upload route and
    of the list route carries a boolean [success], and it tells the
    truth: it is true exactly when the status is 201 for an upload and
    200 for a list.  Every answer that is not a success also carries an
    [error] text. *)
Theorem success_flag_agrees_with_status :
  forall (rt : Runtime.t) (req : Http.Request) (st : State)
         (cfgS : ServerJs.Config) (cfg1 : Part001.Config),
    (Js.get "success" (Http.body (snd (ServerJs.post_api_upload cfgS rt req st)))
     = Some (Js.VBool (N.eqb (Http.status (snd (ServerJs.post_api_upload cfgS rt req st))) 201))
     /\ Js.get "success" (Http.body (ServerJs.get_api_images cfgS rt req st))
        = Some (Js.VBool (N.eqb (Http.status (ServerJs.get_api_images cfgS rt req st)) 200)))
    /\ (Js.get "success" (Http.body (snd (Part001.post_api_upload cfg1 rt req st)))
        = Some (Js.VBool (N.eqb (Http.status (snd (Part001.post_api_upload cfg1 rt req st))) 201))
        /\ Js.get "success" (Http.body (Part001.get_api_images cfg1 rt req st))
           = Some (Js.VBool (N.eqb (Http.status (Part001.get_api_images cfg1 rt req st)) 200)))
    /\ ((Http.status (snd (ServerJs.post_api_upload cfgS rt req st)) = 201%N
         \/ exists text,
             Js.get "error" (Http.body (snd (ServerJs.post_api_upload cfgS rt req st)))
             = Some (Js.VStr text))
        /\ (Http.status (snd (Part001.post_api_upload cfg1 rt req st)) = 201%N
            \/ exists text,
                Js.get "error" (Http.body (snd (Part001.post_api_upload cfg1 rt req st)))
                = Some (Js.VStr text))).
Proof.
  intros rt req st cfgS cfg1. split; [split | split; [split | split]].
  - apply ServerJs_upload_success_flag.
  - unfold ServerJs.get_api_images, Mongoose.find_sorted.
    now destruct (Runtime.find_failure rt).
  - apply Part001_upload_success_flag.
  - unfold Part001.get_api_images, Mongoose.find_sorted.
    now destruct (Runtime.find_failure rt).
  - unfold ServerJs.post_api_upload.
    destruct (Multer.single _ _ _ _ _) as [d [file | e]].
    + unfold ServerJs.upload_handler, Mongoose.save.
      destruct file as [f |]; [| right; eexists; reflexivity].
      destruct (Runtime.save_failure rt); [right; eexists; reflexivity | now left].
    + right. unfold ServerJs.error_middleware. destruct e; eexists; reflexivity.
  - unfold Part001.post_api_upload.
    destruct (Multer.single _ _ _ _ _) as [d [file | e]].
    + unfold Part001.upload_handler, Mongoose.save.
      destruct file as [f |]; [| right; eexists; reflexivity].
      destruct (Runtime.save_failure rt); [right; eexists; reflexivity | now left].
    + right. unfold Part001.error_middleware. destruct e; eexists; reflexivity.
Qed.

Example part_000_no_file_has_no_success_flag :
  Js.get "success"
    (Http.body (snd (Part000.post_api_upload (Part000.config Sample.production)
                       Sample.rt (Sample.request []) Sample.empty)))
  = None.
Proof. reflexivity. Qed.
